(** * Seat allocation, request ledger and stop ordering of the ride-sharing backend

    A shallow embedding of the backend models [Trip], [TripRequest] and
    [StopPoint], of the tables they query (schema of [routes-init.js]) and of
    the trip route handlers of [routes/trips.js].

    Conventions.
    - The PostgreSQL database is an explicit [Store]; every model method runs
      in the monad [Async], which threads the store and may throw.  There is
      no transaction anywhere in the source, so a statement that has been
      executed stays executed when a later line throws: [Async] returns the
      store in both outcomes.
    - One SQL statement either takes effect as a whole or, when the database
      rejects it, changes nothing.  A SELECT, an INSERT and a DELETE are
      evaluated on the table as the statement finds it, and so are the
      UPDATEs that select their rows by primary key and write no column of a
      unique constraint.  The UPDATE of [reorderStopPoints] writes several
      rows under a unique constraint that is not deferrable: the constraint
      is checked row by row, as each row is written, against the table as it
      is at that moment, in an order of the rows that the statement does not
      fix.
    - Integers are [Z]; timestamps are [Z] (milliseconds); DECIMAL(8,2)
      amounts are [Z] in hundredths; a nullable column is an [option].
      Numeric range errors of the database (int4, DECIMAL overflow) are
      outside the model.
    - [CURRENT_TIMESTAMP] and [new Date()] are the explicit argument [now].
    - Columns that no embedded statement reads or writes (currency,
      recurrence, coordinates, names of stops) are left out of the rows. *)

From Stdlib Require Import ZArith List Bool Lia String Sorted Permutation.
Import ListNotations.
Local Open Scope Z_scope.

Set Implicit Arguments.

(** ** Rows of the tables *)

Module TripRow.
(** [trips] (createTripsTable) as read by [new Trip(row)]. *)
Record t := mk {
  id : Z;
  route_id : Z;
  driver_id : Z;
  title : string;
  description : option string;
  departure_time : Z;
  arrival_time : option Z;
  available_seats : Z;
  price_per_seat : option Z;
  trip_status : string;
  pickup_flexibility_minutes : option Z;
  special_instructions : option string;
  updated_at : Z
}.
End TripRow.

Module TripRequestRow.
(** [trip_requests] (createTripRequestsTable) as read by
    [new TripRequest(row)]. *)
Record t := mk {
  id : Z;
  trip_id : Z;
  passenger_id : Z;
  pickup_stop_id : option Z;
  dropoff_stop_id : option Z;
  requested_seats : Z;
  request_status : string;
  message : option string;
  pickup_time : option Z;
  dropoff_time : option Z;
  total_price : Z;
  created_at : Z;
  updated_at : Z
}.
End TripRequestRow.

Module StopPointRow.
(** [stop_points] (createStopPointsTable) as read by [new StopPoint(row)]. *)
Record t := mk {
  id : Z;
  route_id : Z;
  stop_order : Z;
  is_pickup_point : bool;
  is_dropoff_point : bool;
  estimated_arrival_time : option Z;
  updated_at : Z
}.
End StopPointRow.

(** ** The database *)

Record Store := mkStore {
  users : list Z;                         (* ids of the rows of [users] *)
  routes : list Z;                        (* ids of the rows of [routes] *)
  stop_points : list StopPointRow.t;
  trips : list TripRow.t;
  trip_requests : list TripRequestRow.t;
  trip_requests_id_seq : Z                (* last value of the SERIAL sequence *)
}.

Definition set_stop_points (s : Store) (l : list StopPointRow.t) : Store :=
  mkStore (users s) (routes s) l (trips s) (trip_requests s)
          (trip_requests_id_seq s).

Definition set_trips (s : Store) (l : list TripRow.t) : Store :=
  mkStore (users s) (routes s) (stop_points s) l (trip_requests s)
          (trip_requests_id_seq s).

Definition set_trip_requests (s : Store) (l : list TripRequestRow.t) : Store :=
  mkStore (users s) (routes s) (stop_points s) (trips s) l
          (trip_requests_id_seq s).

Definition set_trip_requests_id_seq (s : Store) (n : Z) : Store :=
  mkStore (users s) (routes s) (stop_points s) (trips s) (trip_requests s) n.

(** ** Exceptions and the [Async] monad *)

Inductive Exception :=
| Error (message : string)            (* throw new Error(message) *)
| TypeError (message : string)        (* a call on null or of no function *)
| DatabaseError (constraint : string). (* pg rejects the statement *)

Inductive Result (A : Type) :=
| Return (a : A)
| Throw (e : Exception).
Arguments Return {A} a.
Arguments Throw {A} e.

Definition Async (A : Type) : Type := Store -> Store * Result A.

Definition ret {A} (a : A) : Async A := fun s => (s, Return a).
Definition throw {A} (e : Exception) : Async A := fun s => (s, Throw e).
Definition bind {A B} (m : Async A) (k : A -> Async B) : Async B :=
  fun s => match m s with
           | (s', Return a) => k a s'
           | (s', Throw e) => (s', Throw e)
           end.
Definition get_store : Async Store := fun s => (s, Return s).
Definition put_store (s' : Store) : Async unit := fun _ => (s', Return tt).

Declare Scope async_scope.
Delimit Scope async_scope with async.
Notation "x <- m ;; k" := (bind m (fun x => k))
  (at level 61, m at next level, right associativity) : async_scope.
Notation "m ;;; k" := (bind m (fun _ => k))
  (at level 61, right associativity) : async_scope.
Local Open Scope async_scope.

(** ** SQL and JavaScript helpers *)

(** [SUM] over no rows is NULL. *)
Definition SUM (l : list Z) : option Z :=
  match l with
  | [] => None
  | _ => Some (fold_right Z.add 0 l)
  end.

Definition COALESCE (v : option Z) (d : Z) : Z :=
  match v with
  | Some x => x
  | None => d
  end.

(** [a || b] on numbers: 0 and NaN (here [None], what [parseInt] gives for
    [undefined]) are falsy. *)
Definition js_or (a : option Z) (b : Z) : Z :=
  match a with
  | Some 0 => b
  | Some x => x
  | None => b
  end.

Definition includes (l : list string) (x : string) : bool :=
  existsb (String.eqb x) l.

Definition eq_opt (a : option Z) (b : Z) : bool :=
  match a with
  | Some x => x =? b
  | None => false
  end.

Definition mem (x : Z) (l : list Z) : bool := existsb (Z.eqb x) l.

(** [MAX] over no rows is NULL. *)
Definition MAX (l : list Z) : option Z :=
  match l with
  | [] => None
  | x :: l' => Some (fold_right Z.max x l')
  end.

(** A statement sent with [n] values is accepted by the server only if its
    text uses the placeholders $1 .. $n, each of them and no other (the type
    of an unused parameter cannot be determined, and the number of bound
    values must be the number of parameters). *)
Definition binds (placeholders : list Z) (n : nat) : bool :=
  forallb (fun i => mem (Z.of_nat i) placeholders) (List.seq 1 n)
  && forallb (fun k => (1 <=? k) && (k <=? Z.of_nat n)) placeholders.

(** ** Trip (models/Trip.js) *)

Module Trip.
Import TripRow.

(** The nine keys of [allowedFields]; [None] is [undefined]. *)
Record updateData := mkUpdate {
  u_title : option string;
  u_description : option (option string);
  u_departure_time : option Z;
  u_arrival_time : option (option Z);
  u_available_seats : option Z;
  u_price_per_seat : option (option Z);
  u_trip_status : option string;
  u_pickup_flexibility_minutes : option (option Z);
  u_special_instructions : option (option string)
}.

Definition trip_statuses : list string :=
  ["scheduled"; "active"; "completed"; "cancelled"]%string.

(** [SELECT t.* FROM trips t JOIN routes r .. JOIN users u .. WHERE t.id = $1];
    [null] when there is no such row. *)
Definition findById (tid : Z) : Async (option t) :=
  fun s => (s, Return (find (fun r => (id r =? tid)
                                       && mem (route_id r) (routes s)
                                       && mem (driver_id r) (users s))
                            (trips s))).

Definition defined {A} (o : option A) : bool :=
  match o with Some _ => true | None => false end.

Definition or_keep {A} (o : option A) (old : A) : A :=
  match o with Some v => v | None => old end.

(** The SET list built by the loop over [allowedFields], applied to a row;
    the BEFORE UPDATE trigger stamps [updated_at]. *)
Definition apply_update (u : updateData) (now : Z) (r : t) : t :=
  mk (id r) (route_id r) (driver_id r)
     (or_keep (u_title u) (title r))
     (or_keep (u_description u) (description r))
     (or_keep (u_departure_time u) (departure_time r))
     (or_keep (u_arrival_time u) (arrival_time r))
     (or_keep (u_available_seats u) (available_seats r))
     (or_keep (u_price_per_seat u) (price_per_seat r))
     (or_keep (u_trip_status u) (trip_status r))
     (or_keep (u_pickup_flexibility_minutes u) (pickup_flexibility_minutes r))
     (or_keep (u_special_instructions u) (special_instructions r))
     now.

Definition update (this : t) (u : updateData) (now : Z) : Async t :=
  if negb (defined (u_title u) || defined (u_description u)
           || defined (u_departure_time u) || defined (u_arrival_time u)
           || defined (u_available_seats u) || defined (u_price_per_seat u)
           || defined (u_trip_status u)
           || defined (u_pickup_flexibility_minutes u)
           || defined (u_special_instructions u))
  then throw (Error "No valid fields to update")
  else
    s <- get_store ;;
    let hit := fun r => id r =? id this in
    let rows := map (apply_update u now) (filter hit (trips s)) in
    if negb (forallb (fun r => includes trip_statuses (trip_status r)) rows)
    then throw (DatabaseError "trips_trip_status_check")
    else
      put_store (set_trips s (map (fun r => if hit r then apply_update u now r
                                            else r) (trips s))) ;;;
      match rows with
      | [] => throw (Error "Trip not found")
      | row :: _ => ret row
      end.

Definition cancel (this : t) (now : Z) : Async t :=
  update this (mkUpdate None None None None None None (Some "cancelled"%string)
                        None None) now.

Definition start (this : t) (now : Z) : Async t :=
  update this (mkUpdate None None None None None None (Some "active"%string)
                        None None) now.

Definition complete (this : t) (now : Z) : Async t :=
  update this (mkUpdate None None None None None None (Some "completed"%string)
                        None None) now.

(** The scalar subquery of [getRemainingSeats] and [searchAvailable]:
    [SELECT SUM(tr.requested_seats) FROM trip_requests tr
     WHERE tr.trip_id = t.id AND tr.request_status = 'approved']. *)
Definition approved_seats (s : Store) (tid : Z) : option Z :=
  SUM (map TripRequestRow.requested_seats
           (filter (fun r => (TripRequestRow.trip_id r =? tid)
                             && String.eqb (TripRequestRow.request_status r)
                                           "approved")
                   (trip_requests s))).

(** The rows of the SELECT of [getRemainingSeats]: one [remaining_seats]
    per trip row with the given id. *)
Definition remaining_seats_rows (s : Store) (tid : Z) : list Z :=
  map (fun r => available_seats r - COALESCE (approved_seats s (id r)) 0)
      (filter (fun r => id r =? tid) (trips s)).

(** [parseInt(result.rows[0]?.remaining_seats) || this.available_seats] *)
Definition getRemainingSeats (this : t) : Async Z :=
  fun s => (s, Return (js_or (hd_error (remaining_seats_rows s (id this)))
                             (available_seats this))).

Definition hasAvailableSeats (this : t) (requestedSeats : Z) : Async bool :=
  remaining <- getRemainingSeats this ;;
  ret (requestedSeats <=? remaining).

Definition canEdit (this : t) (userId : Z) : bool := driver_id this =? userId.

Definition isBookable (this : t) (now : Z) : bool :=
  String.eqb (trip_status this) "scheduled"
  && (now <? departure_time this)
  && (0 <? available_seats this).

(** [trip.hasStarted()], called by the handlers [PUT /:id] and
    [DELETE /:id] of routes/trips.js: [class Trip] defines no method of that
    name, the property read gives [undefined] and the call throws. *)
Definition hasStarted (this : t) : Async bool :=
  throw (TypeError "trip.hasStarted is not a function").

(** [getTotalRevenue]: [SELECT SUM(tr.total_price) FROM trip_requests tr
    WHERE tr.trip_id = $1 AND tr.request_status = 'approved'], then
    [parseFloat(..) || 0]. *)
Definition getTotalRevenue (this : t) : Async Z :=
  fun s => (s, Return (js_or (SUM (map TripRequestRow.total_price
                                       (filter (fun r => (TripRequestRow.trip_id r =? id this)
                                                         && String.eqb (TripRequestRow.request_status r)
                                                                       "approved")
                                               (trip_requests s))))
                             0)).
End Trip.

(** ** TripRequest (models/TripRequest.js) *)

Module TripRequest.
Import TripRequestRow.

(** The argument of [create]; [d_requested_seats = None] is [undefined]
    and takes the default 1 of the destructuring. *)
Record requestData := mkData {
  d_trip_id : Z;
  d_passenger_id : Z;
  d_pickup_stop_id : option Z;
  d_dropoff_stop_id : option Z;
  d_requested_seats : option Z;
  d_message : option string;
  d_pickup_time : option Z;
  d_dropoff_time : option Z
}.

Definition stop_exists (s : Store) (o : option Z) : bool :=
  match o with
  | None => true
  | Some sid => existsb (fun p => StopPointRow.id p =? sid) (stop_points s)
  end.

(** [INSERT INTO trip_requests (..) VALUES (..) RETURNING *].  The id is
    the next value of the sequence (which a rejected INSERT does not give
    back), [request_status] takes its default, and the row is kept only if
    the constraints of the table hold. *)
Definition insert (d : requestData) (seats total : Z) (now : Z) : Async t :=
  fun s =>
    let new_id := trip_requests_id_seq s + 1 in
    let s1 := set_trip_requests_id_seq s new_id in
    let row := mk new_id (d_trip_id d) (d_passenger_id d)
                  (d_pickup_stop_id d) (d_dropoff_stop_id d) seats
                  "pending" (d_message d) (d_pickup_time d)
                  (d_dropoff_time d) total now now in
    if existsb (fun r => id r =? new_id) (trip_requests s)
    then (s1, Throw (DatabaseError "trip_requests_pkey"))
    else if existsb (fun r => (trip_id r =? d_trip_id d)
                              && (passenger_id r =? d_passenger_id d))
                    (trip_requests s)
    then (s1, Throw (DatabaseError "unique_passenger_trip"))
    else if negb (existsb (fun r => TripRow.id r =? d_trip_id d) (trips s))
    then (s1, Throw (DatabaseError "fk_trip_requests_trip_id"))
    else if negb (mem (d_passenger_id d) (users s))
    then (s1, Throw (DatabaseError "fk_trip_requests_passenger_id"))
    else if negb (stop_exists s (d_pickup_stop_id d))
    then (s1, Throw (DatabaseError "fk_trip_requests_pickup_stop"))
    else if negb (stop_exists s (d_dropoff_stop_id d))
    then (s1, Throw (DatabaseError "fk_trip_requests_dropoff_stop"))
    else (set_trip_requests s1 (trip_requests s ++ [row]), Return row).

Definition create (d : requestData) (now : Z) : Async t :=
  let requested_seats :=
    match d_requested_seats d with Some n => n | None => 1 end in
  s <- get_store ;;
  match map TripRow.price_per_seat
            (filter (fun r => TripRow.id r =? d_trip_id d) (trips s)) with
  | [] => throw (Error "Trip not found")
  | price :: _ =>
      let pricePerSeat := js_or price 0 in
      let total_price := pricePerSeat * requested_seats in
      insert d requested_seats total_price now
  end.

(** [SELECT tr.* FROM trip_requests tr JOIN trips t .. JOIN users u ..
     WHERE tr.id = $1]; [null] when there is no such row. *)
Definition findById (rid : Z) : Async (option t) :=
  fun s => (s, Return (find (fun r => (id r =? rid)
                               && existsb (fun x => TripRow.id x =? trip_id r)
                                          (trips s)
                               && mem (passenger_id r) (users s))
                            (trip_requests s))).

Definition allowedStatuses : list string :=
  ["pending"; "approved"; "rejected"; "cancelled"]%string.

(** [SET request_status = $1] on one row; the BEFORE UPDATE trigger
    stamps [updated_at]. *)
Definition set_status (status : string) (now : Z) (r : t) : t :=
  mk (id r) (trip_id r) (passenger_id r) (pickup_stop_id r)
     (dropoff_stop_id r) (requested_seats r) status (message r)
     (pickup_time r) (dropoff_time r) (total_price r) (created_at r) now.

Definition getTrip (this : t) : Async (option TripRow.t) :=
  Trip.findById (trip_id this).

(** Of [this] only [this.id] is read before [Object.assign] replaces every
    field by the row the UPDATE returns. *)
Definition updateStatus (this : t) (status : string) (now : Z) : Async t :=
  if negb (includes allowedStatuses status)
  then throw (Error "Invalid status")
  else
    s <- get_store ;;
    let hit := fun r => id r =? id this in
    let rows := map (set_status status now) (filter hit (trip_requests s)) in
    put_store (set_trip_requests s
                 (map (fun r => if hit r then set_status status now r else r)
                      (trip_requests s))) ;;;
    match rows with
    | [] => throw (Error "Trip request not found")
    | row :: _ =>
        let this := row in
        if String.eqb status "approved"
        then
          trip <- getTrip this ;;
          match trip with
          | None => throw (TypeError "trip is null")
          | Some trip =>
              hasSeats <- Trip.hasAvailableSeats trip (requested_seats this) ;;
              if negb hasSeats
              then throw (Error "Not enough available seats")
              else ret this
          end
        else ret this
    end.

Definition approve (this : t) (now : Z) : Async t :=
  updateStatus this "approved" now.

Definition reject (this : t) (now : Z) : Async t :=
  updateStatus this "rejected" now.

Definition cancel (this : t) (now : Z) : Async t :=
  updateStatus this "cancelled" now.

Definition canModify (this : t) : bool :=
  String.eqb (request_status this) "pending".

Definition canCancel (this : t) : bool :=
  includes ["pending"; "approved"]%string (request_status this).

Definition canEdit (this : t) (userId : Z) : bool :=
  (passenger_id this =? userId) && canModify this.

(** The six keys of [allowedFields] of [update]; [None] is [undefined]. *)
Record updateData := mkUpdate {
  u_pickup_stop_id : option (option Z);
  u_dropoff_stop_id : option (option Z);
  u_requested_seats : option Z;
  u_message : option (option string);
  u_pickup_time : option (option Z);
  u_dropoff_time : option (option Z)
}.

Definition one_if {A} (o : option A) : nat :=
  match o with Some _ => 1%nat | None => 0%nat end.

(** The number of entries that the loop over [allowedFields] pushes on
    [updates] and [values]. *)
Definition pushed (u : updateData) : nat :=
  (one_if (u_pickup_stop_id u) + one_if (u_dropoff_stop_id u)
   + one_if (u_requested_seats u) + one_if (u_message u)
   + one_if (u_pickup_time u) + one_if (u_dropoff_time u))%nat.

(** The SET list applied to a row; [total] is the recomputed price when the
    seats are part of the update; the trigger stamps [updated_at]. *)
Definition apply_update (u : updateData) (total : option Z) (now : Z) (r : t)
  : t :=
  mk (id r) (trip_id r) (passenger_id r)
     (Trip.or_keep (u_pickup_stop_id u) (pickup_stop_id r))
     (Trip.or_keep (u_dropoff_stop_id u) (dropoff_stop_id r))
     (Trip.or_keep (u_requested_seats u) (requested_seats r))
     (request_status r)
     (Trip.or_keep (u_message u) (message r))
     (Trip.or_keep (u_pickup_time u) (pickup_time r))
     (Trip.or_keep (u_dropoff_time u) (dropoff_time r))
     (Trip.or_keep total (total_price r))
     (created_at r) now.

(** [query(text, values)] for a text with the given placeholders. *)
Definition statement (placeholders : list Z) (values : nat) : Async unit :=
  if binds placeholders values then ret tt
  else throw (DatabaseError "bind parameters").

(** [UPDATE trip_requests SET .. WHERE id = .. RETURNING *] on the rows
    selected by [hit], with the foreign keys of the two stop columns, and
    the test on [result.rows.length]. *)
Definition write (hit : t -> bool) (f : t -> t) : Async t :=
  s <- get_store ;;
  let rows := map f (filter hit (trip_requests s)) in
  if negb (forallb (fun r => stop_exists s (pickup_stop_id r)) rows)
  then throw (DatabaseError "fk_trip_requests_pickup_stop")
  else if negb (forallb (fun r => stop_exists s (dropoff_stop_id r)) rows)
  then throw (DatabaseError "fk_trip_requests_dropoff_stop")
  else
    put_store (set_trip_requests s
                 (map (fun r => if hit r then f r else r) (trip_requests s))) ;;;
    match rows with
    | [] => throw (Error "Trip request not found")
    | row :: _ => ret row
    end.

(** [update].  With [k] entries pushed by the loop, [valueIndex] is [k + 1].
    When the seats are given, the price query is the text
    ['.. WHERE id = $' + valueIndex] sent with the one value
    [values.slice(-1)]; the UPDATE then has [total_price = $(valueIndex + 1)]
    and, after [valueIndex++], [WHERE id = $(valueIndex + 1)], sent with the
    [k + 3] values (fields, trip id, new total, request id), so that its
    WHERE compares the id with the new total (in hundredths here). *)
Definition update (this : t) (u : updateData) (now : Z) : Async t :=
  let k := pushed u in
  let valueIndex := Z.of_nat k + 1 in
  match u_requested_seats u with
  | Some seats =>
      statement [valueIndex] 1 ;;;
      s <- get_store ;;
      let price :=
        match filter (fun r => TripRow.id r =? trip_id this) (trips s) with
        | [] => None
        | r :: _ => TripRow.price_per_seat r
        end in
      let pricePerSeat := js_or price 0 in
      let newTotalPrice := pricePerSeat * seats in
      statement (map Z.of_nat (List.seq 1 k) ++ [valueIndex + 1; valueIndex + 1])
                (k + 3) ;;;
      write (fun r => id r * 100 =? newTotalPrice)
            (apply_update u (Some newTotalPrice) now)
  | None =>
      if (k =? 0)%nat
      then throw (Error "No valid fields to update")
      else
        statement (map Z.of_nat (List.seq 1 k) ++ [valueIndex]) (k + 1) ;;;
        write (fun r => id r =? id this) (apply_update u None now)
  end.

(** One value of the object that [getTripRequestStats] returns. *)
Record StatusStats := mkStats {
  count : Z;
  total_seats : Z;
  total_value : Z
}.

(** A JavaScript object with string keys: [o[k] = v] and [o[k]]. *)
Fixpoint assign (k : string) (v : StatusStats) (o : list (string * StatusStats))
  : list (string * StatusStats) :=
  match o with
  | [] => [(k, v)]
  | (k', v') :: o' => if String.eqb k' k then (k, v) :: o'
                      else (k', v') :: assign k v o'
  end.

Definition property (o : list (string * StatusStats)) (k : string)
  : option StatusStats :=
  option_map snd (find (fun p => String.eqb (fst p) k) o).

(** The result rows of [GROUP BY request_status]: one per status that
    occurs, with [COUNT( * )], [SUM(requested_seats)] and [SUM(total_price)]
    read by [parseInt(..)], [parseInt(..) || 0] and [parseFloat(..) || 0]. *)
Definition group_rows (rows : list t) : list (string * StatusStats) :=
  map (fun st =>
         let g := filter (fun r => String.eqb (request_status r) st) rows in
         (st, mkStats (Z.of_nat (List.length g))
                      (js_or (SUM (map requested_seats g)) 0)
                      (js_or (SUM (map total_price g)) 0)))
      (nodup string_dec (map request_status rows)).

Definition getTripRequestStats (tripId : Z)
  : Async (list (string * StatusStats)) :=
  fun s =>
    let rows := filter (fun r => trip_id r =? tripId) (trip_requests s) in
    (s, Return (fold_left (fun stats row => assign (fst row) (snd row) stats)
                          (group_rows rows)
                          [("pending"%string, mkStats 0 0 0);
                           ("approved"%string, mkStats 0 0 0);
                           ("rejected"%string, mkStats 0 0 0);
                           ("cancelled"%string, mkStats 0 0 0)])).
End TripRequest.

(** ** StopPoint (models/StopPoint.js) *)

Module StopPoint.
Import StopPointRow.

(** [ORDER BY stop_order]: a stable insertion sort on the key. *)
Fixpoint insert_by_order (x : t) (l : list t) : list t :=
  match l with
  | [] => [x]
  | y :: l' => if stop_order x <=? stop_order y
               then x :: l
               else y :: insert_by_order x l'
  end.

Definition order_by_stop_order (l : list t) : list t :=
  fold_right insert_by_order [] l.

(** The stops of a route in the order of their [stop_order]. *)
Definition route_stops (s : Store) (routeId : Z) : list t :=
  order_by_stop_order (filter (fun r => route_id r =? routeId) (stop_points s)).

(** [SELECT * FROM stop_points WHERE route_id = $1 ORDER BY stop_order ASC] *)
Definition findByRoute (routeId : Z) : Async (list t) :=
  fun s => (s, Return (route_stops s routeId)).

(** [SELECT id, ROW_NUMBER() OVER (ORDER BY stop_order) as new_order]:
    the pairs (id, new_order), numbered from [k]. *)
Fixpoint row_number (k : Z) (l : list t) : list (Z * Z) :=
  match l with
  | [] => []
  | x :: l' => (id x, k) :: row_number (k + 1) l'
  end.

Definition ordered_stops (s : Store) (routeId : Z) : list (Z * Z) :=
  row_number 1 (route_stops s routeId).

(** [SET stop_order = new_order] on one row; the BEFORE UPDATE trigger
    stamps [updated_at]. *)
Definition set_stop_order (k : Z) (now : Z) (r : t) : t :=
  mk (id r) (route_id r) k (is_pickup_point r) (is_dropoff_point r)
     (estimated_arrival_time r) now.

(** One row as the [UPDATE .. FROM ordered_stops WHERE stop_points.id =
    ordered_stops.id] leaves it when every write is accepted: rows without a
    partner in the join are not touched. *)
Definition renumber (os : list (Z * Z)) (now : Z) (r : t) : t :=
  match find (fun p => fst p =? id r) os with
  | Some (_, new_order) => set_stop_order new_order now r
  | None => r
  end.

(** The constraint [unique_route_stop_order UNIQUE(route_id, stop_order)]. *)
Fixpoint unique_route_stop_order (l : list t) : bool :=
  match l with
  | [] => true
  | x :: l' =>
      negb (existsb (fun y => (route_id y =? route_id x)
                              && (stop_order y =? stop_order x)) l')
      && unique_route_stop_order l'
  end.

(** The rows of the UPDATE are written one after the other.  [todo] lists
    the ids in the order in which the executor reaches them and [done] the
    ids already reached; [os] is the result of the subquery, computed before
    the first row is written.  The row [i] gets the [new_order] of its
    partner in the join; the write is refused when another row of the table,
    as it is then, holds the same [(route_id, stop_order)]. *)
Fixpoint write_rows (os : list (Z * Z)) (now : Z) (todo done : list Z)
         (rows : list t) : option (list t) :=
  match todo with
  | [] => Some rows
  | i :: todo' =>
      if mem i done then write_rows os now todo' done rows
      else
        match find (fun r => id r =? i) rows,
              find (fun p => fst p =? i) os with
        | Some r, Some (_, new_order) =>
            if existsb (fun y => negb (id y =? i)
                                 && (route_id y =? route_id r)
                                 && (stop_order y =? new_order)) rows
            then None
            else write_rows os now todo' (i :: done)
                   (map (fun y => if id y =? i
                                  then set_stop_order new_order now y
                                  else y) rows)
        | _, _ => write_rows os now todo' (i :: done) rows
        end
  end.

(** [reorderStopPoints].  The statement does not fix the order in which its
    rows are written: it belongs to the plan of the executor and is the
    argument [visit], the ids reached first; the rows that [visit] leaves
    out follow in the order of the table.  A refused write throws the whole
    UPDATE back. *)
Definition reorderStopPoints (this : t) (visit : list Z) (now : Z)
  : Async unit :=
  s <- get_store ;;
  match write_rows (ordered_stops s (route_id this)) now
                   (visit ++ map id (stop_points s)) [] (stop_points s) with
  | Some rows => put_store (set_stop_points s rows)
  | None => throw (DatabaseError "unique_route_stop_order")
  end.

(** The referential action [ON DELETE SET NULL] of the two stop columns of
    [trip_requests], an UPDATE of the referencing rows. *)
Definition set_null (sid : Z) (now : Z) (r : TripRequestRow.t)
  : TripRequestRow.t :=
  if eq_opt (TripRequestRow.pickup_stop_id r) sid
     || eq_opt (TripRequestRow.dropoff_stop_id r) sid
  then TripRequestRow.mk
         (TripRequestRow.id r) (TripRequestRow.trip_id r)
         (TripRequestRow.passenger_id r)
         (if eq_opt (TripRequestRow.pickup_stop_id r) sid then None
          else TripRequestRow.pickup_stop_id r)
         (if eq_opt (TripRequestRow.dropoff_stop_id r) sid then None
          else TripRequestRow.dropoff_stop_id r)
         (TripRequestRow.requested_seats r)
         (TripRequestRow.request_status r) (TripRequestRow.message r)
         (TripRequestRow.pickup_time r) (TripRequestRow.dropoff_time r)
         (TripRequestRow.total_price r) (TripRequestRow.created_at r) now
  else r.

(** [delete]: [DELETE FROM stop_points WHERE id = $1 RETURNING id], then
    [reorderStopPoints]. *)
Definition delete (this : t) (visit : list Z) (now : Z) : Async t :=
  s <- get_store ;;
  let hit := fun r => id r =? id this in
  match filter hit (stop_points s) with
  | [] => throw (Error "Stop point not found")
  | _ :: _ =>
      put_store (mkStore (users s) (routes s)
                         (filter (fun r => negb (hit r)) (stop_points s))
                         (trips s)
                         (map (set_null (id this) now) (trip_requests s))
                         (trip_requests_id_seq s)) ;;;
      reorderStopPoints this visit now ;;;
      ret this
  end.

(** The argument of [create]; [None] is [undefined].  The columns outside
    the rows (name, coordinates, address) are taken as given. *)
Record stopData := mkStop {
  d_route_id : Z;
  d_stop_order : option Z;
  d_is_pickup_point : option bool;
  d_is_dropoff_point : option bool;
  d_estimated_arrival_time : option Z
}.

(** [SELECT COALESCE(MAX(stop_order), 0) + 1 as next_order FROM stop_points
    WHERE route_id = $1] *)
Definition next_order (s : Store) (routeId : Z) : Z :=
  COALESCE (MAX (map stop_order
                     (filter (fun r => route_id r =? routeId) (stop_points s))))
           0 + 1.

(** [create].  [!order] holds for [undefined] and for 0.  The store does not
    carry the sequence of the ids of [stop_points]: the value that the INSERT
    draws from it is the argument [new_id]. *)
Definition create (d : stopData) (new_id : Z) (now : Z) : Async t :=
  s <- get_store ;;
  let order :=
    match d_stop_order d with
    | None => next_order s (d_route_id d)
    | Some 0 => next_order s (d_route_id d)
    | Some o => o
    end in
  let row := mk new_id (d_route_id d) order
                (Trip.or_keep (d_is_pickup_point d) true)
                (Trip.or_keep (d_is_dropoff_point d) true)
                (d_estimated_arrival_time d) now in
  if existsb (fun r => id r =? new_id) (stop_points s)
  then throw (DatabaseError "stop_points_pkey")
  else if existsb (fun r => (route_id r =? d_route_id d)
                            && (stop_order r =? order)) (stop_points s)
  then throw (DatabaseError "unique_route_stop_order")
  else if negb (mem (d_route_id d) (routes s))
  then throw (DatabaseError "fk_stop_points_route_id")
  else put_store (set_stop_points s (stop_points s ++ [row])) ;;; ret row.
End StopPoint.

(** ** Handlers of routes/trips.js *)

Module TripsRouter.

(** [res.status(code).json({..})]: the status code and the text of the
    [error] or [message] key. *)
Record Response := mkRes { status : Z; text : string }.

Definition Handler : Type := Store -> Store * Response.

(** [try { .. } catch (error) { res.status(500).json({ error }) }] *)
Definition try_catch (body : Async Response) (error : string) : Handler :=
  fun s => match body s with
           | (s', Return r) => (s', r)
           | (s', Throw _) => (s', mkRes 500 error)
           end.

(** The keys of [req.body] of [PUT /:id] that survive the whitelist of
    [Trip.update], and [departure_datetime], which is validated. *)
Record updateBody := mkBody {
  departure_datetime : option Z;
  available_seats : option Z;
  price_per_seat : option (option Z)
}.

(** [price_per_seat ? parseFloat(price_per_seat) : null] *)
Definition truthy_price (p : option Z) : option Z :=
  match p with
  | Some 0 => None
  | Some c => Some c
  | None => None
  end.

(** [router.put('/:id', ..)] *)
Definition put_trip (tripId userId : Z) (body : updateBody) (now : Z)
  : Handler :=
  try_catch
    (trip <- Trip.findById tripId ;;
     match trip with
     | None => ret (mkRes 404 "Trip not found")
     | Some trip =>
         if negb (TripRow.driver_id trip =? userId)
         then ret (mkRes 403 "Not authorized to update this trip")
         else
           started <- Trip.hasStarted trip ;;
           if (started : bool)
           then ret (mkRes 400 "Cannot update trip that has already started")
           else if match departure_datetime body with
                   | Some departureTime => departureTime <=? now
                   | None => false
                   end
           then ret (mkRes 400 "Departure time must be in the future")
           else
             let updateData :=
               Trip.mkUpdate None None None None
                 (available_seats body)
                 (option_map truthy_price (price_per_seat body))
                 None None None in
             Trip.update trip updateData now ;;;
             ret (mkRes 200 "Trip updated successfully")
     end)
    "Failed to update trip".

(** [router.delete('/:id', ..)] *)
Definition delete_trip (tripId userId : Z) (now : Z) : Handler :=
  try_catch
    (trip <- Trip.findById tripId ;;
     match trip with
     | None => ret (mkRes 404 "Trip not found")
     | Some trip =>
         if negb (TripRow.driver_id trip =? userId)
         then ret (mkRes 403 "Not authorized to cancel this trip")
         else
           started <- Trip.hasStarted trip ;;
           if (started : bool)
           then ret (mkRes 400 "Cannot cancel trip that has already started")
           else
             Trip.cancel trip now ;;;
             ret (mkRes 200 "Trip cancelled successfully")
     end)
    "Failed to cancel trip".

(** [router.put('/:id/requests/:requestId', ..)] *)
Definition put_request (tripId requestId userId : Z) (action : string)
           (now : Z) : Handler :=
  try_catch
    (trip <- Trip.findById tripId ;;
     match trip with
     | None => ret (mkRes 404 "Trip not found")
     | Some trip =>
         if negb (TripRow.driver_id trip =? userId)
         then ret (mkRes 403 "Not authorized to manage trip requests")
         else
           tripRequest <- TripRequest.findById requestId ;;
           match tripRequest with
           | None => ret (mkRes 404 "Trip request not found")
           | Some tripRequest =>
               if negb (TripRequestRow.trip_id tripRequest =? TripRow.id trip)
               then ret (mkRes 404 "Trip request not found")
               else if negb (includes ["approve"; "reject"]%string action)
               then ret (mkRes 400 "Action must be approve or reject")
               else
                 (if String.eqb action "approve"
                  then TripRequest.approve tripRequest now
                  else TripRequest.reject tripRequest now) ;;;
                 ret (mkRes 200 (String.append "Trip request "
                                   (String.append action "d successfully")))
           end
     end)
    "Failed to update trip request".

(** [tripRequest.status]: the constructor of TripRequest copies the column
    [request_status] and sets no property [status], so that the read gives
    [undefined], here [None]. *)
Definition status_property (tripRequest : TripRequestRow.t) : option string :=
  None.

(** [router.delete('/requests/:requestId', ..)] *)
Definition cancel_request (requestId userId : Z) (now : Z) : Handler :=
  try_catch
    (tripRequest <- TripRequest.findById requestId ;;
     match tripRequest with
     | None => ret (mkRes 404 "Trip request not found")
     | Some tripRequest =>
         if negb (TripRequestRow.passenger_id tripRequest =? userId)
         then ret (mkRes 403 "Not authorized to cancel this request")
         else if negb (match status_property tripRequest with
                       | Some st => includes ["pending"; "approved"]%string st
                       | None => false
                       end)
         then ret (mkRes 400 "Can only cancel pending or approved requests")
         else
           TripRequest.cancel tripRequest now ;;;
           ret (mkRes 200 "Trip request cancelled successfully")
     end)
    "Failed to cancel trip request".
End TripsRouter.

(** ** Sequences of ledger operations *)

(** The operations on trip requests: creation by a passenger, and the three
    status methods called on an instance [this]. *)
Inductive Op :=
| Create (d : TripRequest.requestData)
| Approve (this : TripRequestRow.t)
| Reject (this : TripRequestRow.t)
| Cancel (this : TripRequestRow.t).

Definition exec (o : Op) (now : Z) : Async TripRequestRow.t :=
  match o with
  | Create d => TripRequest.create d now
  | Approve this => TripRequest.approve this now
  | Reject this => TripRequest.reject this now
  | Cancel this => TripRequest.cancel this now
  end.

(** The store after a sequence of operations, each with the time at which it
    runs; an operation that throws leaves what it had written. *)
Fixpoint run (ops : list (Op * Z)) (s : Store) : Store :=
  match ops with
  | [] => s
  | (o, now) :: ops' => run ops' (fst (exec o now s))
  end.

(** ** Constraints of the schema, as checks on a store *)

Fixpoint distinct {K} (eqb : K -> K -> bool) (l : list K) : bool :=
  match l with
  | [] => true
  | x :: l' => negb (existsb (eqb x) l') && distinct eqb l'
  end.

Definition pair_eqb (a b : Z * Z) : bool :=
  (fst a =? fst b) && (snd a =? snd b).

(** The columns of [unique_passenger_trip]. *)
Definition passenger_trip (r : TripRequestRow.t) : Z * Z :=
  (TripRequestRow.trip_id r, TripRequestRow.passenger_id r).

(** [trip_requests]: primary key, UNIQUE(trip_id, passenger_id), the foreign
    key to [trips], and ids handed out by the sequence. *)
Definition ledger_ok (s : Store) : bool :=
  distinct Z.eqb (map TripRequestRow.id (trip_requests s))
  && distinct pair_eqb (map passenger_trip (trip_requests s))
  && forallb (fun r => TripRequestRow.id r <=? trip_requests_id_seq s)
             (trip_requests s)
  && forallb (fun r => existsb (fun x => TripRow.id x =? TripRequestRow.trip_id r)
                               (trips s))
             (trip_requests s).

(** [stop_points]: primary key and UNIQUE(route_id, stop_order). *)
Definition stops_ok (s : Store) : bool :=
  distinct Z.eqb (map StopPointRow.id (stop_points s))
  && StopPoint.unique_route_stop_order (stop_points s).

(** A request is active when it is pending or approved. *)
Definition is_active (r : TripRequestRow.t) : bool :=
  includes ["pending"; "approved"]%string (TripRequestRow.request_status r).

Definition on_pair (tripId passengerId : Z) (r : TripRequestRow.t) : bool :=
  (TripRequestRow.trip_id r =? tripId)
  && (TripRequestRow.passenger_id r =? passengerId).

(** The seats held by approved requests of a trip. *)
Definition approved_total (s : Store) (tripId : Z) : Z :=
  COALESCE (Trip.approved_seats s tripId) 0.

(** A row with its [updated_at] blanked, to compare rows up to the stamp of
    the trigger. *)
Definition forget_updated_at (r : TripRequestRow.t) : TripRequestRow.t :=
  TripRequestRow.mk
    (TripRequestRow.id r) (TripRequestRow.trip_id r)
    (TripRequestRow.passenger_id r) (TripRequestRow.pickup_stop_id r)
    (TripRequestRow.dropoff_stop_id r) (TripRequestRow.requested_seats r)
    (TripRequestRow.request_status r) (TripRequestRow.message r)
    (TripRequestRow.pickup_time r) (TripRequestRow.dropoff_time r)
    (TripRequestRow.total_price r) (TripRequestRow.created_at r) 0.

(** The columns of [unique_route_stop_order]. *)
Definition route_order (r : StopPointRow.t) : Z * Z :=
  (StopPointRow.route_id r, StopPointRow.stop_order r).

Definition le_order (a b : StopPointRow.t) : Prop :=
  StopPointRow.stop_order a <= StopPointRow.stop_order b.

Definition lt_order (a b : StopPointRow.t) : Prop :=
  StopPointRow.stop_order a < StopPointRow.stop_order b.

(** The rows of [l], in list order, with [stop_order] set to [k], [k+1], ..
    by an UPDATE at time [now]. *)
Fixpoint renumbered (k : Z) (now : Z) (l : list StopPointRow.t)
  : list StopPointRow.t :=
  match l with
  | [] => []
  | x :: l' => StopPoint.set_stop_order k now x :: renumbered (k + 1) now l'
  end.

(** The table of stops in the course of the UPDATE of [reorderStopPoints],
    when the rows with an id of [done] have been written. *)
Definition written (os : list (Z * Z)) (now : Z) (done : list Z)
           (rows : list StopPointRow.t) : list StopPointRow.t :=
  map (fun r => if mem (StopPointRow.id r) done
                then StopPoint.renumber os now r else r) rows.

(** [seq_from k n] is [k; k+1; ..; k+n-1]. *)
Fixpoint seq_from (k : Z) (n : nat) : list Z :=
  match n with
  | O => []
  | S n' => k :: seq_from (k + 1) n'
  end.

(** The constraints of [trip_requests] that [ledger_ok] checks, as
    propositions. *)
Record Ledger (s : Store) : Prop := mkLedger {
  ledger_pkey : NoDup (map TripRequestRow.id (trip_requests s));
  ledger_unique_passenger_trip :
    NoDup (map passenger_trip (trip_requests s));
  ledger_sequence :
    Forall (fun r => TripRequestRow.id r <= trip_requests_id_seq s)
           (trip_requests s);
  ledger_fk_trip :
    Forall (fun r => existsb (fun x => TripRow.id x =? TripRequestRow.trip_id r)
                             (trips s) = true)
           (trip_requests s)
}.

(** ** Sample data *)

Module Sample.
(** A one-seat trip and a two-seat trip of driver 1 on route 1, departing
    at time 1000. *)
Definition trip_1 : TripRow.t :=
  TripRow.mk 1 1 1 "Morning run" None 1000 None 1 (Some 50000) "scheduled"
             (Some 15) None 0.

Definition trip_2 : TripRow.t :=
  TripRow.mk 2 1 1 "Evening run" None 1000 None 2 (Some 50000) "scheduled"
             (Some 15) None 0.

Definition stop (i order : Z) : StopPointRow.t :=
  StopPointRow.mk i 1 order true true None 0.

Definition db : Store :=
  mkStore [1; 2; 3] [1] [stop 11 1; stop 12 2; stop 13 3; stop 14 4]
          [trip_1; trip_2] [] 0.

Definition ask (tripId passengerId seats : Z) : TripRequest.requestData :=
  TripRequest.mkData tripId passengerId None None (Some seats) None None None.

(** Passengers 2 and 3 each ask for the single seat of trip 1. *)
Definition db_two_pending : Store :=
  run [(Create (ask 1 2 1), 10); (Create (ask 1 3 1), 11)] db.

Definition request_1 : TripRequestRow.t :=
  TripRequestRow.mk 1 1 2 None None 1 "pending" None None None 50000 10 10.

Definition request_2 : TripRequestRow.t :=
  TripRequestRow.mk 2 1 3 None None 1 "pending" None None None 50000 11 11.

(** The driver approves the first of them. *)
Definition db_one_approved : Store :=
  run [(Approve request_1, 12)] db_two_pending.

(** Passenger 2 asks for both seats of trip 2 and is approved. *)
Definition request_3 : TripRequestRow.t :=
  TripRequestRow.mk 1 2 2 None None 2 "pending" None None None 100000 10 10.

Definition db_full : Store :=
  run [(Create (ask 2 2 2), 10); (Approve request_3, 12)] db.
End Sample.

(** ** Further checks and sample data *)

(** [trips]: primary key and the CHECK on [trip_status]. *)
Definition trips_ok (s : Store) : bool :=
  distinct Z.eqb (map TripRow.id (trips s))
  && forallb (fun r => includes Trip.trip_statuses (TripRow.trip_status r))
             (trips s).

(** The request refers to the stop as its pickup or its dropoff. *)
Definition refers_to (sid : Z) (r : TripRequestRow.t) : bool :=
  eq_opt (TripRequestRow.pickup_stop_id r) sid
  || eq_opt (TripRequestRow.dropoff_stop_id r) sid.

(** The columns of a request that decide the seat accounting and the
    constraints of the table. *)
Definition accounting (r : TripRequestRow.t) : Z * Z * Z * Z * string * Z :=
  (TripRequestRow.id r, TripRequestRow.trip_id r, TripRequestRow.passenger_id r,
   TripRequestRow.requested_seats r, TripRequestRow.request_status r,
   TripRequestRow.total_price r).

(** The identity of a trip: its id, its route and its driver. *)
Definition identity (r : TripRow.t) : Z * Z * Z :=
  (TripRow.id r, TripRow.route_id r, TripRow.driver_id r).

Module Fixture.
(** Request 1 of [Sample.db_one_approved], as stored after its approval. *)
Definition approved_1 : TripRequestRow.t :=
  TripRequest.set_status "approved" 12 Sample.request_1.

(** A request that refers to stop 12 of route 1, in the sample store. *)
Definition with_stops : Store :=
  fst (TripRequest.create
         (TripRequest.mkData 2 3 (Some 12) (Some 14) (Some 1) None None None)
         10 Sample.db).

Definition new_stop : StopPoint.stopData :=
  StopPoint.mkStop 1 None None None None.
End Fixture.

(** * Properties *)

(** ** Basic facts *)

Lemma COALESCE_SUM (l : list Z) : COALESCE (SUM l) 0 = fold_right Z.add 0 l.
Proof. destruct l; reflexivity. Qed.

Lemma js_or_nonzero (v d : Z) : v <> 0 -> js_or (Some v) d = v.
Proof. intros H. destruct v; simpl; congruence. Qed.

Lemma js_or_zero (d : Z) : js_or (Some 0) d = d.
Proof. reflexivity. Qed.

(** ** Remaining seats *)

(** What [getRemainingSeats] computes for an instance whose row is in the
    store: the difference of the query, unless that difference is 0, in which
    case the capacity cached on the instance comes back. *)
Lemma getRemainingSeats_value (s : Store) (this row : TripRow.t) (rest : list TripRow.t) :
  filter (fun r => TripRow.id r =? TripRow.id this) (trips s) = row :: rest ->
  snd (Trip.getRemainingSeats this s)
  = Return (let v := TripRow.available_seats row - approved_total s (TripRow.id row) in
            if v =? 0 then TripRow.available_seats this else v).
Proof.
  intros H. unfold Trip.getRemainingSeats, Trip.remaining_seats_rows.
  cbn [snd]. rewrite H. cbn [map hd_error]. unfold approved_total.
  destruct (Z.eqb_spec (TripRow.available_seats row
                        - COALESCE (Trip.approved_seats s (TripRow.id row)) 0) 0) as [E | E].
  - rewrite E. reflexivity.
  - rewrite js_or_nonzero by assumption. reflexivity.
Qed.

(** C3, at a full trip: trip 2 has two seats and one approved request for
    two seats, so the difference of the claim is 0, and [getRemainingSeats]
    answers 2. *)
Theorem getRemainingSeats_full_trip :
  TripRow.available_seats Sample.trip_2 = 2
  /\ Trip.approved_seats Sample.db_full 2 = Some 2
  /\ snd (Trip.getRemainingSeats Sample.trip_2 Sample.db_full) = Return 2.
Proof. repeat split; reflexivity. Qed.

(** ** Bookability *)

(** C6, as amended: [isBookable] holds exactly when the trip is scheduled,
    departs strictly after [now] and has a positive capacity
    [available_seats]; approved requests are not consulted. *)
Theorem isBookable_iff (this : TripRow.t) (now : Z) :
  Trip.isBookable this now = true
  <-> TripRow.trip_status this = "scheduled"%string
      /\ now < TripRow.departure_time this
      /\ 0 < TripRow.available_seats this.
Proof.
  unfold Trip.isBookable.
  rewrite !andb_true_iff, String.eqb_eq, !Z.ltb_lt. tauto.
Qed.

(** C6 as stated fails: trip 1 is scheduled, departs in the future and is
    bookable, while its remaining seats (1 - 1) are not positive. *)
Lemma isBookable_remaining_counterexample :
  ~ (Trip.isBookable Sample.trip_1 0 = true
     <-> TripRow.trip_status Sample.trip_1 = "scheduled"%string
         /\ 0 < TripRow.departure_time Sample.trip_1
         /\ 0 < TripRow.available_seats Sample.trip_1
                - approved_total Sample.db_one_approved 1).
Proof.
  intros [H _]. specialize (H eq_refl). destruct H as (_ & _ & H).
  vm_compute in H. discriminate.
Qed.

(** ** Approval writes before it checks *)

(** C1, on a run of the handlers: on the one-seat trip 1 the driver approves
    request 1 (200) and then request 2, which is answered 500 after its status
    was written; approved requests then hold 2 seats of a capacity of 1. *)
Theorem approve_overbooks :
  let first := TripsRouter.put_request 1 1 1 "approve" 12 Sample.db_two_pending in
  let second := TripsRouter.put_request 1 2 1 "approve" 13 (fst first) in
  TripsRouter.status (snd first) = 200
  /\ TripsRouter.status (snd second) = 500
  /\ approved_total (fst second) 1 = 2
  /\ map TripRow.available_seats
         (filter (fun r => TripRow.id r =? 1) (trips (fst second))) = [1].
Proof. repeat split; reflexivity. Qed.

(** C2, at a failing capacity check: with the only seat of trip 1 taken,
    [approve] on the pending request 2 throws "Not enough available seats",
    and the stored status of request 2 is "approved", not "pending". *)
Theorem approve_failure_keeps_approved :
  let out := TripRequest.approve Sample.request_2 13 Sample.db_one_approved in
  In Sample.request_2 (trip_requests Sample.db_one_approved)
  /\ snd out = Throw (Error "Not enough available seats")
  /\ map TripRequestRow.request_status
         (filter (fun r => TripRequestRow.id r =? 2) (trip_requests (fst out)))
     = ["approved"%string].
Proof. repeat split; try reflexivity. simpl. right. left. reflexivity. Qed.

(** ** Trips that have started *)

(** C8: on a stored trip of the caller, the cancel handler and the update
    handler reach the guard [trip.hasStarted()]; the call throws because
    [Trip] has no such method, and the handlers answer 500 "Failed to cancel
    trip" and 500 "Failed to update trip", whether or not the departure time
    has passed and whatever the stored status and the request body.  A trip
    that has started is thus not refused as such; the store is unchanged. *)
Theorem started_trip_guard_throws
        (s : Store) (trip : TripRow.t) (tripId userId : Z)
        (body : TripsRouter.updateBody) (now : Z) :
  snd (Trip.findById tripId s) = Return (Some trip) ->
  TripRow.driver_id trip = userId ->
  TripsRouter.delete_trip tripId userId now s
  = (s, TripsRouter.mkRes 500 "Failed to cancel trip")
  /\ TripsRouter.put_trip tripId userId body now s
     = (s, TripsRouter.mkRes 500 "Failed to update trip").
Proof.
  intros Hfind Hdriver.
  unfold Trip.findById in Hfind. simpl in Hfind. injection Hfind as Hfind.
  unfold TripsRouter.delete_trip, TripsRouter.put_trip, TripsRouter.try_catch,
    bind, ret, Trip.findById.
  rewrite Hfind.
  assert (D : (TripRow.driver_id trip =? userId) = true) by (apply Z.eqb_eq; exact Hdriver).
  rewrite D. simpl. split; reflexivity.
Qed.

Lemma started_trip_guard_throws_witness :
  TripRow.departure_time Sample.trip_1 <= 1000
  /\ TripsRouter.delete_trip 1 1 1000 Sample.db
     = (Sample.db, TripsRouter.mkRes 500 "Failed to cancel trip")
  /\ TripsRouter.put_trip 1 1 (TripsRouter.mkBody None (Some 3) None) 1000 Sample.db
     = (Sample.db, TripsRouter.mkRes 500 "Failed to update trip").
Proof.
  split; [simpl; lia |].
  apply (@started_trip_guard_throws Sample.db Sample.trip_1 1 1
           (TripsRouter.mkBody None (Some 3) None) 1000).
  - reflexivity.
  - reflexivity.
Defined.

(** ** The status methods *)

Section UpdateStatus.
Import TripRequestRow.
Variables (this : t) (now : Z).

(** The store that [updateStatus] leaves does not depend on how it
    returns: it is the store after the UPDATE. *)
Lemma updateStatus_store (status : string) (s : Store) :
  includes TripRequest.allowedStatuses status = true ->
  fst (TripRequest.updateStatus this status now s)
  = set_trip_requests s
      (map (fun r => if id r =? id this
                     then TripRequest.set_status status now r else r)
           (trip_requests s)).
Proof.
  intros Hs. unfold TripRequest.updateStatus. rewrite Hs. cbn [negb].
  unfold bind, get_store, put_store.
  destruct (map _ (filter _ (trip_requests s))) as [| row rows]; [reflexivity |].
  destruct (String.eqb status "approved"); [| reflexivity].
  unfold TripRequest.getTrip, Trip.findById.
  destruct (find _ _) as [trip |]; [| reflexivity].
  unfold Trip.hasAvailableSeats, Trip.getRemainingSeats, bind, ret.
  destruct (negb _); reflexivity.
Qed.

(** Outside approval nothing is checked after the UPDATE: the call returns
    the first updated row, and throws only when there is none. *)
Lemma updateStatus_result (status : string) (s : Store) :
  includes TripRequest.allowedStatuses status = true ->
  String.eqb status "approved" = false ->
  snd (TripRequest.updateStatus this status now s)
  = match filter (fun r => id r =? id this) (trip_requests s) with
    | [] => Throw (Error "Trip request not found")
    | r :: _ => Return (TripRequest.set_status status now r)
    end.
Proof.
  intros Hs Ha. unfold TripRequest.updateStatus. rewrite Hs. cbn [negb].
  unfold bind, get_store, put_store.
  destruct (filter _ (trip_requests s)) as [| r rows]; [reflexivity |].
  cbn [map]. rewrite Ha. reflexivity.
Qed.
End UpdateStatus.

(** Whatever [approve] returns, every row with the id it was called on is
    stored as approved afterwards. *)
Lemma approve_always_written (s : Store) (this : TripRequestRow.t) (now : Z) :
  Forall (fun r => TripRequestRow.id r = TripRequestRow.id this ->
                   TripRequestRow.request_status r = "approved"%string)
         (trip_requests (fst (TripRequest.approve this now s))).
Proof.
  unfold TripRequest.approve. rewrite updateStatus_store by reflexivity.
  cbn [trip_requests set_trip_requests]. apply Forall_forall.
  intros x Hx. apply in_map_iff in Hx. destruct Hx as (y & <- & _).
  destruct (Z.eqb_spec (TripRequestRow.id y) (TripRequestRow.id this)) as [E | E].
  - intros _. reflexivity.
  - intros H. contradiction.
Qed.

Lemma set_trip_requests_twice (s : Store) (l1 l2 : list TripRequestRow.t) :
  set_trip_requests (set_trip_requests s l1) l2 = set_trip_requests s l2.
Proof. reflexivity. Qed.

Lemma existsb_filter_nonempty {A} (p : A -> bool) (l : list A) :
  existsb p l = true -> exists x rest, filter p l = x :: rest /\ p x = true.
Proof.
  induction l as [| a l IH]; simpl; [discriminate |].
  destruct (p a) eqn:E; simpl.
  - intros _. exists a, (filter p l). split; [reflexivity | exact E].
  - exact IH.
Qed.

(** C7, as amended: on a request that is in the store, a second [reject]
    returns normally with the row rejected (there is no transition check);
    it leaves the store that a single [reject] at the time of the second call
    leaves, which differs from the store after the first call in nothing but
    the [updated_at] stamp of the row, and in nothing when the clock has not
    moved. *)
Theorem reject_twice (s : Store) (this : TripRequestRow.t) (now1 now2 : Z) :
  existsb (fun r => TripRequestRow.id r =? TripRequestRow.id this)
          (trip_requests s) = true ->
  let once := TripRequest.reject this now1 s in
  let twice := TripRequest.reject this now2 (fst once) in
  (exists row, snd twice = Return row
               /\ TripRequestRow.id row = TripRequestRow.id this
               /\ TripRequestRow.request_status row = "rejected"%string)
  /\ fst twice = fst (TripRequest.reject this now2 s)
  /\ map forget_updated_at (trip_requests (fst twice))
     = map forget_updated_at (trip_requests (fst once))
  /\ set_trip_requests (fst twice) (trip_requests (fst once)) = fst once
  /\ (now2 = now1 -> fst twice = fst once).
Proof.
  intros Hin once twice. subst once twice. unfold TripRequest.reject.
  rewrite !updateStatus_store by reflexivity.
  rewrite updateStatus_result by reflexivity.
  cbn [trip_requests set_trip_requests].
  rewrite !map_map.
  assert (Hupd : forall r : TripRequestRow.t,
             (if TripRequestRow.id
                   (if TripRequestRow.id r =? TripRequestRow.id this
                    then TripRequest.set_status "rejected" now1 r else r)
                 =? TripRequestRow.id this
              then TripRequest.set_status "rejected" now2
                     (if TripRequestRow.id r =? TripRequestRow.id this
                      then TripRequest.set_status "rejected" now1 r else r)
              else if TripRequestRow.id r =? TripRequestRow.id this
                   then TripRequest.set_status "rejected" now1 r else r)
             = (if TripRequestRow.id r =? TripRequestRow.id this
                then TripRequest.set_status "rejected" now2 r else r)).
  { intros r. destruct (TripRequestRow.id r =? TripRequestRow.id this) eqn:E.
    - cbn [TripRequest.set_status TripRequestRow.id]. rewrite E. reflexivity.
    - rewrite E. reflexivity. }
  assert (Hfix : forall (n : Z) (r : TripRequestRow.t),
             TripRequestRow.id
               (if TripRequestRow.id r =? TripRequestRow.id this
                then TripRequest.set_status "rejected" n r else r)
             = TripRequestRow.id r).
  { intros n r. destruct (TripRequestRow.id r =? TripRequestRow.id this); reflexivity. }
  split; [| split; [| split; [| split]]].
  - destruct (existsb_filter_nonempty _ _ Hin) as (x & rest & Hf & Hx).
    assert (Hf' : exists y rest',
               filter (fun r => TripRequestRow.id r =? TripRequestRow.id this)
                 (map (fun r => if TripRequestRow.id r =? TripRequestRow.id this
                                then TripRequest.set_status "rejected" now1 r else r)
                      (trip_requests s)) = y :: rest'
               /\ TripRequestRow.id y = TripRequestRow.id this).
    { clear Hf Hx. induction (trip_requests s) as [| a l IH]; [discriminate |].
      simpl in Hin. cbn [map filter]. rewrite Hfix.
      destruct (TripRequestRow.id a =? TripRequestRow.id this) eqn:E.
      - eexists _, _. split; [reflexivity |]. apply Z.eqb_eq. exact E.
      - apply IH. exact Hin. }
    destruct Hf' as (y & rest' & -> & Hy).
    exists (TripRequest.set_status "rejected" now2 y).
    split; [reflexivity | split; [exact Hy | reflexivity]].
  - rewrite set_trip_requests_twice. f_equal. apply map_ext. exact Hupd.
  - apply map_ext. intros r. rewrite Hfix.
    destruct (TripRequestRow.id r =? TripRequestRow.id this); reflexivity.
  - reflexivity.
  - intros ->. rewrite set_trip_requests_twice. f_equal. apply map_ext.
    intros r. rewrite Hfix.
    destruct (TripRequestRow.id r =? TripRequestRow.id this); reflexivity.
Qed.

Lemma reject_twice_witness :
  let once := TripRequest.reject Sample.request_1 20 Sample.db_two_pending in
  let twice := TripRequest.reject Sample.request_1 30 (fst once) in
  (exists row, snd twice = Return row
               /\ TripRequestRow.id row = 1
               /\ TripRequestRow.request_status row = "rejected"%string)
  /\ fst twice = fst (TripRequest.reject Sample.request_1 30 Sample.db_two_pending)
  /\ map forget_updated_at (trip_requests (fst twice))
     = map forget_updated_at (trip_requests (fst once))
  /\ set_trip_requests (fst twice) (trip_requests (fst once)) = fst once
  /\ (30 = 20 -> fst twice = fst once).
Proof.
  apply (@reject_twice Sample.db_two_pending Sample.request_1 20 30).
  reflexivity.
Defined.

(** C7 as stated fails: after a first [reject] of request 1 at time 20, a
    second one at time 30 throws nothing, and the store it leaves is not the
    store after the first call. *)
Lemma reject_twice_counterexample :
  let once := TripRequest.reject Sample.request_1 20 Sample.db_two_pending in
  let twice := TripRequest.reject Sample.request_1 30 (fst once) in
  (forall e, snd twice <> Throw e) /\ fst twice <> fst once.
Proof.
  split.
  - intros e H. vm_compute in H. discriminate.
  - intros H. vm_compute in H. discriminate.
Qed.

(** ** Constraints: checks and propositions *)

Lemma distinct_NoDup {K} (eqb : K -> K -> bool) (l : list K) :
  (forall a b, eqb a b = true <-> a = b) ->
  distinct eqb l = true <-> NoDup l.
Proof.
  intros Heq. induction l as [| x l IH]; simpl.
  - split; [constructor | reflexivity].
  - rewrite andb_true_iff, negb_true_iff, IH. split.
    + intros [Hx Hl]. constructor; [| exact Hl].
      intros Hin. assert (existsb (eqb x) l = true) as E.
      { apply existsb_exists. exists x. split; [exact Hin | apply Heq; reflexivity]. }
      congruence.
    + intros H. inversion H as [| ? ? Hx Hl]; subst. split; [| exact Hl].
      destruct (existsb (eqb x) l) eqn:E; [| reflexivity].
      apply existsb_exists in E. destruct E as (y & Hy & Hxy).
      apply Heq in Hxy. subst y. contradiction.
Qed.

Lemma pair_eqb_eq (a b : Z * Z) : pair_eqb a b = true <-> a = b.
Proof.
  destruct a as [a1 a2], b as [b1 b2]. unfold pair_eqb. simpl.
  rewrite andb_true_iff, !Z.eqb_eq. split.
  - intros [-> ->]. reflexivity.
  - intros H. injection H as -> ->. split; reflexivity.
Qed.

Lemma ledger_ok_Ledger (s : Store) : ledger_ok s = true <-> Ledger s.
Proof.
  unfold ledger_ok. rewrite !andb_true_iff.
  rewrite (distinct_NoDup Z.eqb _ Z.eqb_eq).
  rewrite (distinct_NoDup pair_eqb _ pair_eqb_eq).
  rewrite !forallb_forall. split.
  - intros [[[H1 H2] H3] H4]. constructor; try assumption.
    + apply Forall_forall. intros r Hr. apply Z.leb_le. apply H3. exact Hr.
    + apply Forall_forall. exact H4.
  - intros [H1 H2 H3 H4]. rewrite Forall_forall in H3, H4.
    repeat split; try assumption.
    intros r Hr. apply Z.leb_le. apply H3. exact Hr.
Qed.

Lemma NoDup_map_injective {A B} (f : A -> B) (l : list A) (x y : A) :
  NoDup (map f l) -> In x l -> In y l -> f x = f y -> x = y.
Proof.
  induction l as [| a l IH]; simpl; [contradiction |].
  intros H Hx Hy Hf. inversion H as [| ? ? Ha Hl]; subst.
  destruct Hx as [-> | Hx], Hy as [-> | Hy].
  - reflexivity.
  - exfalso. apply Ha. rewrite Hf. apply in_map. exact Hy.
  - exfalso. apply Ha. rewrite <- Hf. apply in_map. exact Hx.
  - apply IH; assumption.
Qed.

(** ** Reserve and release *)

Section RoundTrip.
Import TripRequestRow.
Variables (r : t) (now1 now2 : Z).

Lemma approve_cancel_rows (tripId : Z) (rows : list t) :
  (forall x, In x rows -> id x = id r -> request_status x = "pending"%string) ->
  filter (fun x => (trip_id x =? tripId)
                   && String.eqb (request_status x) "approved")
         (map (fun x => if id x =? id r
                        then TripRequest.set_status "cancelled" now2 x else x)
              (map (fun x => if id x =? id r
                             then TripRequest.set_status "approved" now1 x else x)
                   rows))
  = filter (fun x => (trip_id x =? tripId)
                     && String.eqb (request_status x) "approved") rows.
Proof.
  induction rows as [| x rows IH]; intros Hp; [reflexivity |].
  cbn [map filter]. rewrite IH by (intros y Hy; apply Hp; right; exact Hy).
  destruct (id x =? id r) eqn:E.
  - cbn [TripRequest.set_status id]. rewrite E.
    cbn [TripRequest.set_status trip_id request_status].
    rewrite (Hp x (or_introl eq_refl)) by (apply Z.eqb_eq; exact E).
    cbn. rewrite !andb_false_r. reflexivity.
  - rewrite E. reflexivity.
Qed.

Lemma approve_rows_untouched (rows : list t) :
  ~ In (id r) (map id rows) ->
  map (fun x => if id x =? id r
                then TripRequest.set_status "approved" now1 x else x) rows
  = rows.
Proof.
  induction rows as [| x rows IH]; intros Hn; [reflexivity |].
  cbn [map] in *. rewrite IH by (intros H; apply Hn; right; exact H).
  destruct (Z.eqb_spec (id x) (id r)) as [E | E]; [| reflexivity].
  exfalso. apply Hn. left. exact E.
Qed.

Lemma approve_adds_seats (rows : list t) :
  NoDup (map id rows) -> In r rows -> request_status r = "pending"%string ->
  fold_right Z.add 0
    (map requested_seats
       (filter (fun x => (trip_id x =? trip_id r)
                         && String.eqb (request_status x) "approved")
          (map (fun x => if id x =? id r
                         then TripRequest.set_status "approved" now1 x else x)
               rows)))
  = fold_right Z.add 0
      (map requested_seats
         (filter (fun x => (trip_id x =? trip_id r)
                           && String.eqb (request_status x) "approved") rows))
    + requested_seats r.
Proof.
  intros Hnd Hin Hp. induction rows as [| x rows IH]; [contradiction |].
  cbn [map] in Hnd. inversion Hnd as [| ? ? Hx Hrows]; subst.
  cbn [map filter].
  destruct (Z.eqb_spec (id x) (id r)) as [E | E].
  - assert (x = r) as ->.
    { destruct Hin as [H | H]; [exact H |].
      exfalso. apply Hx. rewrite E. apply in_map. exact H. }
    rewrite approve_rows_untouched by exact Hx.
    cbn [TripRequest.set_status trip_id request_status]. rewrite Hp.
    rewrite Z.eqb_refl. cbn. lia.
  - destruct Hin as [H | H]; [congruence |].
    specialize (IH Hrows H).
    destruct ((trip_id x =? trip_id r) && String.eqb (request_status x) "approved");
      cbn [map fold_right]; lia.
Qed.
End RoundTrip.

(** C9: when a pending request [r] of a store that satisfies its constraints
    is approved and then cancelled, the approved seats of its trip first grow
    by [requested_seats r] and then return to their value, and
    [getRemainingSeats] answers for every trip what it answered before the
    approval. *)
Theorem approve_then_cancel_restores_remaining
        (s : Store) (r this' : TripRequestRow.t) (trip : TripRow.t)
        (now1 now2 : Z) :
  ledger_ok s = true ->
  In r (trip_requests s) ->
  TripRequestRow.request_status r = "pending"%string ->
  TripRequestRow.id this' = TripRequestRow.id r ->
  let reserved := fst (TripRequest.approve r now1 s) in
  let released := fst (TripRequest.cancel this' now2 reserved) in
  approved_total reserved (TripRequestRow.trip_id r)
  = approved_total s (TripRequestRow.trip_id r) + TripRequestRow.requested_seats r
  /\ approved_total released (TripRequestRow.trip_id r)
     = approved_total s (TripRequestRow.trip_id r)
  /\ snd (Trip.getRemainingSeats trip released)
     = snd (Trip.getRemainingSeats trip s).
Proof.
  intros Hok Hin Hp Hid reserved released.
  apply ledger_ok_Ledger in Hok. destruct Hok as [Hpk _ _ _].
  assert (Hpend : forall x, In x (trip_requests s) ->
                    TripRequestRow.id x = TripRequestRow.id r ->
                    TripRequestRow.request_status x = "pending"%string).
  { intros x Hx Hxr.
    rewrite (NoDup_map_injective TripRequestRow.id _ x r Hpk Hx Hin Hxr).
    exact Hp. }
  assert (Hres : reserved
                 = set_trip_requests s
                     (map (fun x => if TripRequestRow.id x =? TripRequestRow.id r
                                    then TripRequest.set_status "approved" now1 x
                                    else x) (trip_requests s))).
  { subst reserved. unfold TripRequest.approve.
    apply updateStatus_store. reflexivity. }
  assert (Hrel : forall tripId,
             Trip.approved_seats released tripId = Trip.approved_seats s tripId).
  { intros tripId. subst released. unfold TripRequest.cancel.
    rewrite updateStatus_store by reflexivity. rewrite Hres, Hid.
    unfold Trip.approved_seats. cbn [trip_requests set_trip_requests].
    rewrite approve_cancel_rows by exact Hpend. reflexivity. }
  split; [| split].
  - rewrite Hres. unfold approved_total, Trip.approved_seats.
    cbn [trip_requests set_trip_requests]. rewrite !COALESCE_SUM.
    apply approve_adds_seats; assumption.
  - unfold approved_total. rewrite Hrel. reflexivity.
  - unfold Trip.getRemainingSeats, Trip.remaining_seats_rows. cbn [snd].
    assert (Htrips : trips released = trips s).
    { subst released. unfold TripRequest.cancel.
      rewrite updateStatus_store by reflexivity. rewrite Hres. reflexivity. }
    rewrite Htrips. do 3 f_equal. apply map_ext. intros x. rewrite Hrel.
    reflexivity.
Qed.

Lemma approve_then_cancel_restores_remaining_witness :
  let reserved := fst (TripRequest.approve Sample.request_1 12 Sample.db_two_pending) in
  let released := fst (TripRequest.cancel Sample.request_1 14 reserved) in
  approved_total reserved 1 = approved_total Sample.db_two_pending 1 + 1
  /\ approved_total released 1 = approved_total Sample.db_two_pending 1
  /\ snd (Trip.getRemainingSeats Sample.trip_1 released)
     = snd (Trip.getRemainingSeats Sample.trip_1 Sample.db_two_pending).
Proof.
  apply (@approve_then_cancel_restores_remaining
           Sample.db_two_pending Sample.request_1 Sample.request_1
           Sample.trip_1 12 14).
  - reflexivity.
  - simpl. left. reflexivity.
  - reflexivity.
  - reflexivity.
Defined.

(** ** The ledger constraints along a run *)

Section LedgerInvariant.
Import TripRequestRow.

Lemma status_write_keeps_ledger (s : Store) (g : t -> t) :
  (forall x, id (g x) = id x) ->
  (forall x, passenger_trip (g x) = passenger_trip x) ->
  Ledger s -> Ledger (set_trip_requests s (map g (trip_requests s))).
Proof.
  intros Hid Hkey [H1 H2 H3 H4].
  assert (Htrip : forall x, trip_id (g x) = trip_id x).
  { intros x. specialize (Hkey x). unfold passenger_trip in Hkey. congruence. }
  constructor; cbn [trip_requests set_trip_requests trips trip_requests_id_seq].
  - rewrite map_map. rewrite (map_ext _ id Hid). exact H1.
  - rewrite map_map. rewrite (map_ext _ passenger_trip Hkey). exact H2.
  - rewrite Forall_forall in *. intros y Hy. apply in_map_iff in Hy.
    destruct Hy as (x & <- & Hx). rewrite Hid. apply H3. exact Hx.
  - rewrite Forall_forall in *. intros y Hy. apply in_map_iff in Hy.
    destruct Hy as (x & <- & Hx). rewrite Htrip. apply H4. exact Hx.
Qed.

Lemma updateStatus_keeps_ledger (this : t) (status : string) (now : Z) (s : Store) :
  Ledger s -> Ledger (fst (TripRequest.updateStatus this status now s)).
Proof.
  intros HL. destruct (includes TripRequest.allowedStatuses status) eqn:E.
  - rewrite updateStatus_store by exact E.
    apply status_write_keeps_ledger; [| | exact HL];
      intros x; destruct (id x =? id this); reflexivity.
  - unfold TripRequest.updateStatus. rewrite E. exact HL.
Qed.

(** The three ways in which [create] ends. *)
Lemma create_cases (d : TripRequest.requestData) (now : Z) (s : Store) :
  TripRequest.create d now s = (s, Throw (Error "Trip not found"))
  \/ (exists c, TripRequest.create d now s
                = (set_trip_requests_id_seq s (trip_requests_id_seq s + 1),
                   Throw (DatabaseError c)))
  \/ (exists row,
        TripRequest.create d now s
        = (set_trip_requests
             (set_trip_requests_id_seq s (trip_requests_id_seq s + 1))
             (trip_requests s ++ [row]), Return row)
        /\ id row = trip_requests_id_seq s + 1
        /\ passenger_trip row
           = (TripRequest.d_trip_id d, TripRequest.d_passenger_id d)
        /\ request_status row = "pending"%string
        /\ existsb (fun x => id x =? trip_requests_id_seq s + 1)
                   (trip_requests s) = false
        /\ existsb (fun x => (trip_id x =? TripRequest.d_trip_id d)
                             && (passenger_id x =? TripRequest.d_passenger_id d))
                   (trip_requests s) = false
        /\ existsb (fun x => TripRow.id x =? TripRequest.d_trip_id d)
                   (trips s) = true).
Proof.
  unfold TripRequest.create, bind, get_store, throw.
  destruct (map TripRow.price_per_seat _) as [| price prices]; [left; reflexivity |].
  right. unfold TripRequest.insert.
  destruct (existsb (fun x => id x =? trip_requests_id_seq s + 1) (trip_requests s)) eqn:E1;
    [left; eexists; reflexivity |].
  destruct (existsb (fun x => (trip_id x =? TripRequest.d_trip_id d)
                              && (passenger_id x =? TripRequest.d_passenger_id d))
                    (trip_requests s)) eqn:E2;
    [left; eexists; reflexivity |].
  destruct (existsb (fun x => TripRow.id x =? TripRequest.d_trip_id d) (trips s)) eqn:E3;
    cbn [negb]; [| left; eexists; reflexivity].
  destruct (mem (TripRequest.d_passenger_id d) (users s)); cbn [negb];
    [| left; eexists; reflexivity].
  destruct (TripRequest.stop_exists s (TripRequest.d_pickup_stop_id d)); cbn [negb];
    [| left; eexists; reflexivity].
  destruct (TripRequest.stop_exists s (TripRequest.d_dropoff_stop_id d)); cbn [negb];
    [| left; eexists; reflexivity].
  right. eexists. split; [reflexivity |]. repeat split; reflexivity.
Qed.

Lemma existsb_false_not_in {A B} (f : A -> B) (p : A -> bool) (k : B) (l : list A) :
  (forall x, f x = k -> p x = true) ->
  existsb p l = false -> ~ In k (map f l).
Proof.
  intros Hp He Hin. apply in_map_iff in Hin. destruct Hin as (x & Hx & Hin).
  assert (existsb p l = true) as E.
  { apply existsb_exists. exists x. split; [exact Hin | apply Hp; exact Hx]. }
  congruence.
Qed.

Lemma NoDup_snoc {A} (l : list A) (a : A) :
  NoDup l -> ~ In a l -> NoDup (l ++ [a]).
Proof.
  intros Hl Ha. induction l as [| x l IH]; simpl.
  - constructor; [intros [] | constructor].
  - inversion Hl as [| ? ? Hx Hl']; subst. constructor.
    + intros H. apply in_app_or in H. destruct H as [H | [H | []]].
      * contradiction.
      * apply Ha. left. symmetry. exact H.
    + apply IH; [exact Hl' |]. intros H. apply Ha. right. exact H.
Qed.

Lemma create_keeps_ledger (d : TripRequest.requestData) (now : Z) (s : Store) :
  Ledger s -> Ledger (fst (TripRequest.create d now s)).
Proof.
  intros HL. pose proof HL as [H1 H2 H3 H4].
  destruct (create_cases d now s)
    as [-> | [(c & ->) | (row & -> & Hid & Hkey & _ & E1 & E2 & E3)]];
    cbn [fst].
  - exact HL.
  - constructor; cbn; try assumption.
    eapply Forall_impl; [| exact H3]. cbn. intros; lia.
  - constructor; cbn [trip_requests set_trip_requests set_trip_requests_id_seq
                      trips trip_requests_id_seq].
    + rewrite map_app. cbn [map]. apply NoDup_snoc; [exact H1 |]. rewrite Hid.
      eapply existsb_false_not_in; [| exact E1].
      intros x Hx. apply Z.eqb_eq. exact Hx.
    + rewrite map_app. cbn [map]. apply NoDup_snoc; [exact H2 |]. rewrite Hkey.
      eapply existsb_false_not_in; [| exact E2].
      intros x Hx. unfold passenger_trip in Hx. injection Hx as <- <-.
      rewrite !Z.eqb_refl. reflexivity.
    + apply Forall_app. split.
      * eapply Forall_impl; [| exact H3]. cbn. intros; lia.
      * constructor; [lia | constructor].
    + apply Forall_app. split; [exact H4 |].
      constructor; [| constructor].
      unfold passenger_trip in Hkey. injection Hkey as -> _. exact E3.
Qed.

Lemma exec_keeps_ledger (o : Op) (now : Z) (s : Store) :
  Ledger s -> Ledger (fst (exec o now s)).
Proof.
  destruct o; cbn [exec].
  - apply create_keeps_ledger.
  - apply updateStatus_keeps_ledger.
  - apply updateStatus_keeps_ledger.
  - apply updateStatus_keeps_ledger.
Qed.

Lemma run_keeps_ledger (ops : list (Op * Z)) (s : Store) :
  Ledger s -> Ledger (run ops s).
Proof.
  revert s. induction ops as [| [o now] ops IH]; intros s HL; [exact HL |].
  cbn [run]. apply IH. apply exec_keeps_ledger. exact HL.
Qed.

(** No operation removes a row or changes its trip and passenger. *)
Lemma exec_keeps_rows (o : Op) (now : Z) (s : Store) (k : Z * Z) :
  In k (map passenger_trip (trip_requests s)) ->
  In k (map passenger_trip (trip_requests (fst (exec o now s)))).
Proof.
  intros Hin. destruct o as [d | this | this | this]; cbn [exec].
  - destruct (create_cases d now s) as [-> | [(c & ->) | (row & -> & _)]];
      cbn [fst trip_requests set_trip_requests set_trip_requests_id_seq];
      try exact Hin.
    rewrite map_app. apply in_or_app. left. exact Hin.
  - unfold TripRequest.approve. rewrite updateStatus_store by reflexivity.
    cbn [trip_requests set_trip_requests]. rewrite map_map.
    erewrite map_ext; [exact Hin |].
    intros x. cbn. destruct (id x =? id this); reflexivity.
  - unfold TripRequest.reject. rewrite updateStatus_store by reflexivity.
    cbn [trip_requests set_trip_requests]. rewrite map_map.
    erewrite map_ext; [exact Hin |].
    intros x. cbn. destruct (id x =? id this); reflexivity.
  - unfold TripRequest.cancel. rewrite updateStatus_store by reflexivity.
    cbn [trip_requests set_trip_requests]. rewrite map_map.
    erewrite map_ext; [exact Hin |].
    intros x. cbn. destruct (id x =? id this); reflexivity.
Qed.

Lemma run_keeps_rows (ops : list (Op * Z)) (s : Store) (k : Z * Z) :
  In k (map passenger_trip (trip_requests s)) ->
  In k (map passenger_trip (trip_requests (run ops s))).
Proof.
  revert s. induction ops as [| [o now] ops IH]; intros s Hin; [exact Hin |].
  cbn [run]. apply IH. apply exec_keeps_rows. exact Hin.
Qed.

(** With a row for the pair in the table, [create] gets as far as the INSERT
    and the INSERT is rejected by [unique_passenger_trip]; only the sequence
    has moved. *)
Lemma create_duplicate (d : TripRequest.requestData) (now : Z) (s : Store) :
  Ledger s ->
  In (TripRequest.d_trip_id d, TripRequest.d_passenger_id d)
     (map passenger_trip (trip_requests s)) ->
  TripRequest.create d now s
  = (set_trip_requests_id_seq s (trip_requests_id_seq s + 1),
     Throw (DatabaseError "unique_passenger_trip")).
Proof.
  intros [H1 H2 H3 H4] Hin.
  apply in_map_iff in Hin. destruct Hin as (r & Hkey & Hr).
  unfold passenger_trip in Hkey. injection Hkey as Ht Hp.
  rewrite Forall_forall in H3, H4.
  unfold TripRequest.create, bind, get_store.
  destruct (existsb_filter_nonempty _ _ (H4 r Hr)) as (x & rest & Hf & _).
  rewrite Ht in Hf. rewrite Hf. cbn [map]. unfold TripRequest.insert.
  assert (E1 : existsb (fun x => id x =? trip_requests_id_seq s + 1)
                       (trip_requests s) = false).
  { destruct (existsb _ (trip_requests s)) eqn:E; [| reflexivity].
    apply existsb_exists in E. destruct E as (y & Hy & Hy').
    apply Z.eqb_eq in Hy'. specialize (H3 y Hy). cbn in H3. lia. }
  assert (E2 : existsb (fun x => (trip_id x =? TripRequest.d_trip_id d)
                                 && (passenger_id x =? TripRequest.d_passenger_id d))
                       (trip_requests s) = true).
  { apply existsb_exists. exists r. split; [exact Hr |].
    rewrite Ht, Hp, !Z.eqb_refl. reflexivity. }
  rewrite E1, E2. reflexivity.
Qed.

Lemma unique_key_filter {A} (f : A -> Z * Z) (k : Z * Z) (l : list A) :
  NoDup (map f l) ->
  (List.length (filter (fun x => pair_eqb (f x) k) l) <= 1)%nat.
Proof.
  induction l as [| x l IH]; intros Hnd; cbn [filter List.length map] in *; [lia |].
  inversion Hnd as [| ? ? Hx Hl]; subst.
  destruct (pair_eqb (f x) k) eqn:E; [| apply IH; exact Hl].
  apply pair_eqb_eq in E. subst k.
  assert (filter (fun y => pair_eqb (f y) (f x)) l = []) as ->; [| cbn; lia].
  clear IH Hnd Hl. induction l as [| y l IH]; [reflexivity |].
  cbn [filter map] in *.
  destruct (pair_eqb (f y) (f x)) eqn:E.
  - apply pair_eqb_eq in E. exfalso. apply Hx. left. exact E.
  - apply IH. intros H. apply Hx. right. exact H.
Qed.

Lemma filter_and_length {A} (p q : A -> bool) (l : list A) :
  (List.length (filter (fun x => p x && q x) l) <= List.length (filter p l))%nat.
Proof.
  induction l as [| x l IH]; cbn [filter List.length]; [lia |].
  destruct (p x), (q x); cbn [andb List.length]; lia.
Qed.

Lemma in_filter_length {A} (p : A -> bool) (l : list A) (x : A) :
  In x l -> p x = true -> (1 <= List.length (filter p l))%nat.
Proof.
  intros Hin Hp. assert (In x (filter p l)) as H by (apply filter_In; tauto).
  destruct (filter p l); [contradiction | cbn; lia].
Qed.
End LedgerInvariant.

(** C4: in every store reached from one that satisfies the constraints of
    [trip_requests] by creations, approvals, rejections and cancellations, a
    trip and a passenger have at most one pending-or-approved request; and
    when they have one, [create] for that pair throws and leaves the store as
    it was except for the consumed sequence value: no row is added. *)
Theorem at_most_one_active_request
        (s0 : Store) (ops : list (Op * Z)) (tripId passengerId : Z) :
  ledger_ok s0 = true ->
  let s := run ops s0 in
  (List.length (filter (fun r => on_pair tripId passengerId r && is_active r)
                       (trip_requests s)) <= 1)%nat
  /\ (existsb (fun r => on_pair tripId passengerId r && is_active r)
              (trip_requests s) = true ->
      forall d now,
        TripRequest.d_trip_id d = tripId ->
        TripRequest.d_passenger_id d = passengerId ->
        (exists e, snd (TripRequest.create d now s) = Throw e)
        /\ trip_requests (fst (TripRequest.create d now s)) = trip_requests s
        /\ fst (TripRequest.create d now s)
           = set_trip_requests_id_seq s (trip_requests_id_seq s + 1)).
Proof.
  intros Hok s. apply ledger_ok_Ledger in Hok.
  assert (HL : Ledger s) by (apply run_keeps_ledger; exact Hok).
  split.
  - etransitivity; [apply filter_and_length |].
    pose proof (unique_key_filter passenger_trip (tripId, passengerId)
                  (trip_requests s) (ledger_unique_passenger_trip HL)) as H.
    exact H.
  - intros Hact d now Ht Hp.
    apply existsb_exists in Hact. destruct Hact as (r & Hr & Hra).
    apply andb_true_iff in Hra. destruct Hra as [Hpair _].
    unfold on_pair in Hpair. apply andb_true_iff in Hpair.
    destruct Hpair as [E1 E2]. apply Z.eqb_eq in E1, E2.
    rewrite (create_duplicate d now HL).
    + cbn [fst snd]. split; [eexists; reflexivity | split; reflexivity].
    + apply in_map_iff. exists r. split; [| exact Hr].
      unfold passenger_trip. congruence.
Qed.

Lemma at_most_one_active_request_witness :
  let s := Sample.db_one_approved in
  (List.length (filter (fun r => on_pair 1 2 r && is_active r)
                       (trip_requests s)) <= 1)%nat
  /\ (exists e, snd (TripRequest.create (Sample.ask 1 2 1) 20 s) = Throw e)
  /\ trip_requests (fst (TripRequest.create (Sample.ask 1 2 1) 20 s))
     = trip_requests s.
Proof.
  destruct (@at_most_one_active_request
              Sample.db
              [(Create (Sample.ask 1 2 1), 10); (Create (Sample.ask 1 3 1), 11);
               (Approve Sample.request_1, 12)]
              1 2 eq_refl) as [H1 H2].
  split; [exact H1 |].
  destruct (H2 eq_refl (Sample.ask 1 2 1) 20 eq_refl eq_refl) as (He & Hrows & _).
  split; [exact He | exact Hrows].
Defined.

(** C10: in every store reached as above a trip and a passenger that have a
    row, of any status, keep exactly that one row through every later
    operation (rows are updated in place and never removed), and every later
    [create] for the pair is rejected by the constraint
    [unique_passenger_trip] without adding a row. *)
Theorem one_request_per_pair_forever
        (s0 : Store) (ops later : list (Op * Z)) (r : TripRequestRow.t) :
  ledger_ok s0 = true ->
  In r (trip_requests (run ops s0)) ->
  let s' := run later (run ops s0) in
  List.length (filter (on_pair (TripRequestRow.trip_id r)
                               (TripRequestRow.passenger_id r))
                      (trip_requests s')) = 1%nat
  /\ forall d now,
       TripRequest.d_trip_id d = TripRequestRow.trip_id r ->
       TripRequest.d_passenger_id d = TripRequestRow.passenger_id r ->
       TripRequest.create d now s'
       = (set_trip_requests_id_seq s' (trip_requests_id_seq s' + 1),
          Throw (DatabaseError "unique_passenger_trip")).
Proof.
  intros Hok Hin s'. apply ledger_ok_Ledger in Hok.
  assert (HL : Ledger s') by (apply run_keeps_ledger, run_keeps_ledger; exact Hok).
  assert (Hkey : In (passenger_trip r) (map passenger_trip (trip_requests s'))).
  { apply run_keeps_rows. apply in_map. exact Hin. }
  split.
  - pose proof (unique_key_filter passenger_trip (passenger_trip r)
                  (trip_requests s') (ledger_unique_passenger_trip HL)) as Hle.
    apply in_map_iff in Hkey. destruct Hkey as (x & Hx & Hx').
    pose proof (in_filter_length
                  (fun y => pair_eqb (passenger_trip y) (passenger_trip r))
                  (trip_requests s') x Hx'
                  (proj2 (pair_eqb_eq _ _) Hx)) as Hge.
    unfold on_pair. unfold pair_eqb, passenger_trip in Hle, Hge.
    cbn [fst snd] in Hle, Hge. lia.
  - intros d now Ht Hp. apply create_duplicate; [exact HL |].
    rewrite Ht, Hp. exact Hkey.
Qed.

Lemma one_request_per_pair_forever_witness :
  let s' := run [(Cancel Sample.request_1, 14)]
                (run [(Create (Sample.ask 1 2 1), 10);
                      (Reject Sample.request_1, 12)] Sample.db) in
  map TripRequestRow.request_status (trip_requests s') = ["cancelled"%string]
  /\ List.length (filter (on_pair 1 2) (trip_requests s')) = 1%nat
  /\ TripRequest.create (Sample.ask 1 2 1) 20 s'
     = (set_trip_requests_id_seq s' (trip_requests_id_seq s' + 1),
        Throw (DatabaseError "unique_passenger_trip")).
Proof.
  split; [reflexivity |].
  destruct (@one_request_per_pair_forever
              Sample.db
              [(Create (Sample.ask 1 2 1), 10); (Reject Sample.request_1, 12)]
              [(Cancel Sample.request_1, 14)]
              (TripRequest.set_status "rejected" 12 Sample.request_1)
              eq_refl (or_introl eq_refl)) as [H1 H2].
  split; [exact H1 |].
  exact (H2 (Sample.ask 1 2 1) 20 eq_refl eq_refl).
Defined.

(** ** Ordering and renumbering of stops *)

Section StopOrder.
Import StopPointRow.

Lemma insert_by_order_perm (x : t) (l : list t) :
  Permutation (StopPoint.insert_by_order x l) (x :: l).
Proof.
  induction l as [| y l IH]; cbn [StopPoint.insert_by_order]; [reflexivity |].
  destruct (stop_order x <=? stop_order y); [reflexivity |].
  rewrite IH. apply perm_swap.
Qed.

Lemma order_by_stop_order_perm (l : list t) :
  Permutation (StopPoint.order_by_stop_order l) l.
Proof.
  induction l as [| x l IH]; [reflexivity |].
  cbn [StopPoint.order_by_stop_order fold_right].
  rewrite insert_by_order_perm. apply perm_skip. exact IH.
Qed.

Lemma insert_by_order_sorted (x : t) (l : list t) :
  StronglySorted le_order l ->
  StronglySorted le_order (StopPoint.insert_by_order x l).
Proof.
  induction l as [| y l IH]; intros Hs; cbn [StopPoint.insert_by_order].
  - constructor; constructor.
  - inversion Hs as [| ? ? Hl Hy]; subst.
    destruct (Z.leb_spec (stop_order x) (stop_order y)) as [E | E].
    + constructor; [exact Hs |]. constructor; [exact E |].
      eapply Forall_impl; [| exact Hy]. unfold le_order. intros; lia.
    + constructor; [apply IH; exact Hl |].
      eapply Permutation_Forall; [symmetry; apply insert_by_order_perm |].
      constructor; [unfold le_order; lia | exact Hy].
Qed.

Lemma order_by_stop_order_sorted (l : list t) :
  StronglySorted le_order (StopPoint.order_by_stop_order l).
Proof.
  induction l as [| x l IH]; [constructor |].
  apply insert_by_order_sorted. exact IH.
Qed.

(** A list sorted by [stop_order] is the only sorted arrangement of its rows
    when its keys are strictly increasing. *)
Lemma sorted_arrangement_unique (a b : list t) :
  StronglySorted le_order a -> StronglySorted lt_order b ->
  Permutation a b -> a = b.
Proof.
  revert b. induction a as [| x a IH]; intros b Ha Hb Hp.
  - apply Permutation_nil in Hp. symmetry. exact Hp.
  - destruct b as [| y b]; [symmetry in Hp; apply Permutation_nil in Hp; discriminate |].
    inversion Ha as [| ? ? Ha' Hx]; subst.
    inversion Hb as [| ? ? Hb' Hy]; subst.
    assert (x = y) as ->.
    { assert (In x (y :: b)) as Hxin by (eapply Permutation_in; [exact Hp | left; reflexivity]).
      assert (In y (x :: a)) as Hyin
          by (eapply Permutation_in; [symmetry; exact Hp | left; reflexivity]).
      destruct Hxin as [E | Hxin]; [symmetry; exact E |].
      destruct Hyin as [E | Hyin]; [exact E |].
      rewrite Forall_forall in Hx, Hy.
      specialize (Hx y Hyin). specialize (Hy x Hxin).
      unfold le_order, lt_order in *. lia. }
    f_equal. apply IH; [exact Ha' | exact Hb' |].
    eapply Permutation_cons_inv. exact Hp.
Qed.

Lemma sorted_distinct_strict (l : list t) :
  StronglySorted le_order l -> NoDup (map stop_order l) ->
  StronglySorted lt_order l.
Proof.
  induction l as [| x l IH]; intros Hs Hn; [constructor |].
  inversion Hs as [| ? ? Hl Hx]; subst.
  cbn [map] in Hn. inversion Hn as [| ? ? Hx' Hl']; subst.
  constructor; [apply IH; assumption |].
  rewrite Forall_forall in *. intros y Hy. specialize (Hx y Hy).
  unfold le_order, lt_order in *.
  assert (stop_order x <> stop_order y).
  { intros E. apply Hx'. rewrite E. apply in_map. exact Hy. }
  lia.
Qed.

Lemma filter_strongly_sorted (R : t -> t -> Prop) (p : t -> bool) (l : list t) :
  StronglySorted R l -> StronglySorted R (filter p l).
Proof.
  induction l as [| x l IH]; intros Hs; [constructor |].
  inversion Hs as [| ? ? Hl Hx]; subst. cbn [filter].
  destruct (p x); [| apply IH; exact Hl].
  constructor; [apply IH; exact Hl |].
  rewrite Forall_forall in *. intros y Hy. apply Hx.
  apply filter_In in Hy. tauto.
Qed.

Lemma filter_perm (p : t -> bool) (l l' : list t) :
  Permutation l l' -> Permutation (filter p l) (filter p l').
Proof.
  induction 1 as [| x l l' _ IH | x y l | l l' l'' _ IH1 _ IH2]; cbn [filter].
  - constructor.
  - destruct (p x); [apply perm_skip |]; exact IH.
  - destruct (p x), (p y); try reflexivity. apply perm_swap.
  - etransitivity; eassumption.
Qed.

(** Sorting and filtering commute when the keys are distinct. *)
Lemma order_by_stop_order_filter (p : t -> bool) (l : list t) :
  NoDup (map stop_order l) ->
  StopPoint.order_by_stop_order (filter p l)
  = filter p (StopPoint.order_by_stop_order l).
Proof.
  intros Hn. apply sorted_arrangement_unique.
  - apply order_by_stop_order_sorted.
  - apply filter_strongly_sorted. apply sorted_distinct_strict.
    + apply order_by_stop_order_sorted.
    + eapply Permutation_NoDup; [| exact Hn].
      apply Permutation_map. symmetry. apply order_by_stop_order_perm.
  - rewrite order_by_stop_order_perm. apply filter_perm.
    symmetry. apply order_by_stop_order_perm.
Qed.

(** *** ROW_NUMBER and the join on the id *)

Lemma row_number_ids (k : Z) (l : list t) :
  map fst (StopPoint.row_number k l) = map id l.
Proof.
  revert k. induction l as [| x l IH]; intros k; [reflexivity |].
  cbn [StopPoint.row_number map fst]. rewrite IH. reflexivity.
Qed.

Lemma row_number_lower (k : Z) (l : list t) (p : Z * Z) :
  In p (StopPoint.row_number k l) -> k <= snd p.
Proof.
  revert k. induction l as [| x l IH]; intros k; [intros [] |].
  cbn [StopPoint.row_number]. intros [<- | H]; [cbn; lia |].
  specialize (IH _ H). lia.
Qed.

(** Two rows of the numbering with the same number are the same row. *)
Lemma row_number_injective (k : Z) (l : list t) (p q : Z * Z) :
  In p (StopPoint.row_number k l) -> In q (StopPoint.row_number k l) ->
  snd p = snd q -> p = q.
Proof.
  revert k. induction l as [| x l IH]; intros k; [intros [] |].
  cbn [StopPoint.row_number]. intros [<- | Hp] [<- | Hq] E.
  - reflexivity.
  - apply row_number_lower in Hq. cbn in E. lia.
  - apply row_number_lower in Hp. cbn in E. lia.
  - eapply IH; eassumption.
Qed.

Lemma renumber_absent (os : list (Z * Z)) (now : Z) (r : t) :
  ~ In (id r) (map fst os) -> StopPoint.renumber os now r = r.
Proof.
  intros Hn. unfold StopPoint.renumber.
  destruct (find (fun p => fst p =? id r) os) as [[i k] |] eqn:E; [| reflexivity].
  apply find_some in E. destruct E as [Hin E]. cbn in E. apply Z.eqb_eq in E.
  exfalso. apply Hn. rewrite <- E. apply (in_map fst) in Hin. exact Hin.
Qed.

Lemma renumber_present (os : list (Z * Z)) (now : Z) (r : t) :
  In (id r) (map fst os) ->
  exists k, In (id r, k) os
            /\ StopPoint.renumber os now r = StopPoint.set_stop_order k now r.
Proof.
  intros Hin. unfold StopPoint.renumber.
  destruct (find (fun p => fst p =? id r) os) as [[i k] |] eqn:E.
  - apply find_some in E. destruct E as [Hp E]. cbn in E. apply Z.eqb_eq in E.
    subst i. exists k. split; [exact Hp | reflexivity].
  - exfalso. apply in_map_iff in Hin. destruct Hin as (p & Hp & Hin).
    pose proof (find_none _ _ E p Hin) as Hf. cbn in Hf.
    rewrite Hp, Z.eqb_refl in Hf. discriminate.
Qed.

Lemma renumber_route (os : list (Z * Z)) (now : Z) (r : t) :
  route_id (StopPoint.renumber os now r) = route_id r.
Proof.
  unfold StopPoint.renumber.
  destruct (find _ os) as [[i k] |]; reflexivity.
Qed.

Lemma renumber_id (os : list (Z * Z)) (now : Z) (r : t) :
  id (StopPoint.renumber os now r) = id r.
Proof.
  unfold StopPoint.renumber.
  destruct (find _ os) as [[i k] |]; reflexivity.
Qed.

(** On the numbered rows themselves the join gives each row its number. *)
Lemma renumber_numbered (k : Z) (now : Z) (l : list t) :
  NoDup (map id l) ->
  map (StopPoint.renumber (StopPoint.row_number k l) now) l = renumbered k now l.
Proof.
  revert k. induction l as [| x l IH]; intros k Hn; [reflexivity |].
  cbn [map] in Hn. inversion Hn as [| ? ? Hx Hl]; subst.
  cbn [StopPoint.row_number map renumbered]. f_equal.
  - unfold StopPoint.renumber. cbn [find fst]. rewrite Z.eqb_refl. reflexivity.
  - rewrite <- IH by exact Hl. apply map_ext_in. intros y Hy.
    unfold StopPoint.renumber. cbn [find fst].
    destruct (Z.eqb_spec (id x) (id y)) as [E | E]; [| reflexivity].
    exfalso. apply Hx. rewrite E. apply in_map. exact Hy.
Qed.

Lemma renumbered_ids (k now : Z) (l : list t) :
  map id (renumbered k now l) = map id l.
Proof.
  revert k. induction l as [| x l IH]; intros k; [reflexivity |].
  cbn [renumbered map]. rewrite IH. reflexivity.
Qed.

Lemma renumbered_orders (k now : Z) (l : list t) :
  map stop_order (renumbered k now l) = seq_from k (List.length l).
Proof.
  revert k. induction l as [| x l IH]; intros k; [reflexivity |].
  cbn [renumbered map List.length seq_from]. rewrite IH. reflexivity.
Qed.

Lemma renumbered_lower (k now : Z) (l : list t) :
  Forall (fun y => k <= stop_order y) (renumbered k now l).
Proof.
  revert k. induction l as [| x l IH]; intros k; [constructor |].
  cbn [renumbered]. constructor; [cbn; lia |].
  eapply Forall_impl; [| apply IH]. cbn. intros; lia.
Qed.

Lemma renumbered_sorted (k now : Z) (l : list t) :
  StronglySorted lt_order (renumbered k now l).
Proof.
  revert k. induction l as [| x l IH]; intros k; [constructor |].
  cbn [renumbered]. constructor; [apply IH |].
  eapply Forall_impl; [| apply renumbered_lower]. unfold lt_order. cbn.
  intros; lia.
Qed.
End StopOrder.

(** ** Deleting a stop *)

Section DeleteStop.
Import StopPointRow.

Lemma unique_route_stop_order_NoDup (l : list t) :
  StopPoint.unique_route_stop_order l = true <-> NoDup (map route_order l).
Proof.
  induction l as [| x l IH]; cbn [StopPoint.unique_route_stop_order map].
  - split; [constructor | reflexivity].
  - rewrite andb_true_iff, negb_true_iff, IH. split.
    + intros [Hx Hl]. constructor; [| exact Hl].
      intros Hin. apply in_map_iff in Hin. destruct Hin as (y & Hy & Hin).
      unfold route_order in Hy. injection Hy as E1 E2.
      assert (existsb (fun y => (route_id y =? route_id x)
                                && (stop_order y =? stop_order x)) l = true) as E.
      { apply existsb_exists. exists y. split; [exact Hin |].
        rewrite E1, E2, !Z.eqb_refl. reflexivity. }
      congruence.
    + intros H. inversion H as [| ? ? Hx Hl]; subst. split; [| exact Hl].
      destruct (existsb _ l) eqn:E; [| reflexivity].
      apply existsb_exists in E. destruct E as (y & Hy & Hxy).
      apply andb_true_iff in Hxy. destruct Hxy as [E1 E2].
      apply Z.eqb_eq in E1, E2. exfalso. apply Hx.
      apply in_map_iff. exists y. split; [| exact Hy].
      unfold route_order. congruence.
Qed.

Lemma stops_ok_NoDup (s : Store) :
  stops_ok s = true
  <-> NoDup (map id (stop_points s)) /\ NoDup (map route_order (stop_points s)).
Proof.
  unfold stops_ok. rewrite andb_true_iff.
  rewrite (distinct_NoDup Z.eqb _ Z.eqb_eq), unique_route_stop_order_NoDup.
  reflexivity.
Qed.

Lemma NoDup_map_filter {B} (f : t -> B) (p : t -> bool) (l : list t) :
  NoDup (map f l) -> NoDup (map f (filter p l)).
Proof.
  induction l as [| x l IH]; intros Hn; [constructor |].
  cbn [map] in Hn. inversion Hn as [| ? ? Hx Hl]; subst. cbn [filter].
  destruct (p x); [| apply IH; exact Hl].
  cbn [map]. constructor; [| apply IH; exact Hl].
  intros Hin. apply Hx. apply in_map_iff in Hin. destruct Hin as (y & Hy & Hin).
  apply filter_In in Hin. rewrite <- Hy. apply in_map. tauto.
Qed.

(** Keys [g] are distinct on a list when equal [g] forces equal [h] and the
    keys [h] are distinct. *)
Lemma NoDup_map_from {B C} (h : t -> B) (g : t -> C) (l : list t) :
  NoDup (map h l) ->
  (forall x y, In x l -> In y l -> g x = g y -> h x = h y) ->
  NoDup (map g l).
Proof.
  induction l as [| x l IH]; intros Hn Hinj; [constructor |].
  cbn [map] in *. inversion Hn as [| ? ? Hx Hl]; subst. constructor.
  - intros Hin. apply in_map_iff in Hin. destruct Hin as (y & Hy & Hin).
    apply Hx. rewrite <- (Hinj y x (or_intror Hin) (or_introl eq_refl) Hy).
    apply in_map. exact Hin.
  - apply IH; [exact Hl |]. intros a b Ha Hb. apply Hinj; right; assumption.
Qed.

Lemma route_orders_distinct (routeId : Z) (l : list t) :
  NoDup (map route_order l) ->
  NoDup (map stop_order (filter (fun r => route_id r =? routeId) l)).
Proof.
  intros Hn. apply (NoDup_map_from route_order).
  - apply NoDup_map_filter. exact Hn.
  - intros x y Hx Hy E. apply filter_In in Hx, Hy.
    destruct Hx as [_ Hx], Hy as [_ Hy]. apply Z.eqb_eq in Hx, Hy.
    unfold route_order. congruence.
Qed.

Lemma filter_map_commute (p : t -> bool) (f : t -> t) (l : list t) :
  (forall x, p (f x) = p x) -> filter p (map f l) = map f (filter p l).
Proof.
  intros Hp. induction l as [| x l IH]; [reflexivity |].
  cbn [map filter]. rewrite Hp, IH. destruct (p x); reflexivity.
Qed.

Lemma filter_filter_commute (p q : t -> bool) (l : list t) :
  filter p (filter q l) = filter q (filter p l).
Proof.
  induction l as [| x l IH]; [reflexivity |]. cbn [filter].
  destruct (p x) eqn:Ep, (q x) eqn:Eq; cbn [filter];
    rewrite ?Ep, ?Eq, IH; reflexivity.
Qed.

(** *** The UPDATE, row by row *)

Section WriteRows.
Variables (os : list (Z * Z)) (now : Z) (rows0 : list t).

Lemma written_nil : written os now [] rows0 = rows0.
Proof. unfold written, mem. cbn [existsb]. apply map_id. Qed.

Lemma written_all (done : list Z) :
  (forall r, In r rows0 -> mem (id r) done = true) ->
  written os now done rows0 = map (StopPoint.renumber os now) rows0.
Proof.
  intros H. unfold written. apply map_ext_in. intros r Hr.
  rewrite (H r Hr). reflexivity.
Qed.

Lemma mem_cons (x i : Z) (done : list Z) :
  mem x (i :: done) = (x =? i) || mem x done.
Proof. reflexivity. Qed.

(** An accepted write of the row [i] moves the table one step on. *)
Lemma written_step (i j k : Z) (done : list Z) :
  mem i done = false ->
  find (fun p => fst p =? i) os = Some (j, k) ->
  map (fun y => if id y =? i then StopPoint.set_stop_order k now y else y)
      (written os now done rows0)
  = written os now (i :: done) rows0.
Proof.
  intros Hd Hf. unfold written. rewrite map_map. apply map_ext. intros r.
  rewrite mem_cons. destruct (Z.eqb_spec (id r) i) as [E | E]; cbn [orb].
  - rewrite E, Hd. rewrite <- E at 1. rewrite Z.eqb_refl.
    unfold StopPoint.renumber. rewrite E, Hf. reflexivity.
  - destruct (mem (id r) done); [rewrite renumber_id |];
      destruct (Z.eqb_spec (id r) i); [contradiction | reflexivity | contradiction | reflexivity].
Qed.

(** A row that the UPDATE does not change may be counted as written. *)
Lemma written_skip (i : Z) (done : list Z) :
  (forall r, In r rows0 -> id r = i -> StopPoint.renumber os now r = r) ->
  written os now (i :: done) rows0 = written os now done rows0.
Proof.
  intros H. unfold written. apply map_ext_in. intros r Hr. rewrite mem_cons.
  destruct (Z.eqb_spec (id r) i) as [E | E]; cbn [orb]; [| reflexivity].
  rewrite (H r Hr E). destruct (mem (id r) done); reflexivity.
Qed.

Lemma written_In (done : list Z) (r : t) :
  In r (written os now done rows0) ->
  exists r0, In r0 rows0 /\ id r0 = id r /\ route_id r0 = route_id r
             /\ ((mem (id r0) done = false /\ r = r0)
                 \/ r = StopPoint.renumber os now r0).
Proof.
  unfold written. intros H. apply in_map_iff in H. destruct H as (r0 & <- & H0).
  exists r0. split; [exact H0 |].
  destruct (mem (id r0) done).
  - rewrite renumber_id, renumber_route. repeat split. right. reflexivity.
  - repeat split. left. split; reflexivity.
Qed.

Lemma written_no_row (i : Z) (done : list Z) :
  find (fun r => id r =? i) (written os now done rows0) = None ->
  forall r, In r rows0 -> id r <> i.
Proof.
  intros Hf r Hr E.
  assert (In (if mem (id r) done then StopPoint.renumber os now r else r)
             (written os now done rows0)) as Hin
      by (unfold written; apply (in_map (fun r => if mem (id r) done
                                                   then StopPoint.renumber os now r
                                                   else r)); exact Hr).
  pose proof (find_none _ _ Hf _ Hin) as Hc. cbn beta in Hc.
  destruct (mem (id r) done); [rewrite renumber_id in Hc |];
    rewrite E, Z.eqb_refl in Hc; discriminate.
Qed.

(** Whatever the order of reach, an UPDATE that is accepted has written the
    rows of the table that have a partner in the join, each with the number
    of its partner. *)
Lemma write_rows_sound (todo : list Z) :
  forall (done : list Z) (rows' : list t),
    StopPoint.write_rows os now todo done (written os now done rows0) = Some rows' ->
    exists D, rows' = written os now D rows0
              /\ (forall i, In i todo -> mem i D = true)
              /\ (forall i, mem i done = true -> mem i D = true).
Proof.
  induction todo as [| i todo IH]; intros done rows' H; cbn [StopPoint.write_rows] in H.
  - injection H as <-. exists done.
    split; [reflexivity | split; [intros i [] | auto]].
  - destruct (mem i done) eqn:Hd.
    + destruct (IH done rows' H) as (D & HD & Ht & Hdn). exists D.
      split; [exact HD | split; [| exact Hdn]].
      intros x [<- | Hx]; [apply Hdn; exact Hd | apply Ht; exact Hx].
    + assert (Hnext : StopPoint.write_rows os now todo (i :: done)
                        (written os now (i :: done) rows0) = Some rows' ->
                      exists D, rows' = written os now D rows0
                                /\ (forall x, In x (i :: todo) -> mem x D = true)
                                /\ (forall x, mem x done = true -> mem x D = true)).
      { intros H'. destruct (IH (i :: done) rows' H') as (D & HD & Ht & Hdn).
        exists D. split; [exact HD | split].
        - intros x [<- | Hx]; [| apply Ht; exact Hx].
          apply Hdn. rewrite mem_cons, Z.eqb_refl. reflexivity.
        - intros x Hx. apply Hdn. rewrite mem_cons, Hx. apply orb_true_r. }
      destruct (find (fun r => id r =? i) (written os now done rows0))
        as [r |] eqn:Fr.
      * destruct (find (fun p => fst p =? i) os) as [[j k] |] eqn:Fp.
        -- destruct (existsb _ (written os now done rows0)); [discriminate |].
           rewrite (@written_step i j k done Hd Fp) in H. apply Hnext. exact H.
        -- apply Hnext. rewrite written_skip; [exact H |].
           intros x _ E. unfold StopPoint.renumber. rewrite E, Fp. reflexivity.
      * apply Hnext. rewrite written_skip; [exact H |].
        intros x Hx E. exfalso. exact (@written_no_row i done Fr x Hx E).
Qed.

Lemma write_rows_result (visit : list Z) (rows' : list t) :
  StopPoint.write_rows os now (visit ++ map id rows0) [] rows0 = Some rows' ->
  rows' = map (StopPoint.renumber os now) rows0.
Proof.
  intros H. pose proof (@write_rows_sound (visit ++ map id rows0) [] rows') as S.
  rewrite written_nil in S. destruct (S H) as (D & -> & Ht & _).
  apply written_all. intros r Hr. apply Ht. apply in_or_app. right.
  apply in_map. exact Hr.
Qed.

(** No write is refused when no row is given a number that another row of
    its route holds before the UPDATE: then the order of reach does not
    matter. *)
Lemma write_rows_accepts (todo : list Z) :
  (forall p q, In p os -> In q os -> snd p = snd q -> p = q) ->
  (forall a b n, In a rows0 -> In b rows0 -> id a <> id b ->
                 route_id a = route_id b -> In (id a, n) os ->
                 stop_order b <> n) ->
  forall done,
    StopPoint.write_rows os now todo done (written os now done rows0) <> None.
Proof.
  intros Hinj Hfree.
  induction todo as [| i todo IH]; intros done; cbn [StopPoint.write_rows];
    [discriminate |].
  destruct (mem i done) eqn:Hd; [apply IH |].
  destruct (find (fun r => id r =? i) (written os now done rows0))
    as [r |] eqn:Fr.
  - destruct (find (fun p => fst p =? i) os) as [[j k] |] eqn:Fp.
    + destruct (existsb _ (written os now done rows0)) eqn:Ec.
      * exfalso. apply existsb_exists in Ec. destruct Ec as (y & Hy & Hc).
        rewrite !andb_true_iff in Hc. destruct Hc as [[Hne Hr] Ho].
        apply negb_true_iff, Z.eqb_neq in Hne. apply Z.eqb_eq in Hr, Ho.
        apply find_some in Fr. destruct Fr as [Hrin Hri]. apply Z.eqb_eq in Hri.
        apply find_some in Fp. destruct Fp as [Hp Hj]. cbn in Hj.
        apply Z.eqb_eq in Hj. subst j.
        destruct (written_In done r Hrin) as (r0 & Hr0 & Hid0 & Hro0 & _).
        destruct (written_In done y Hy) as (y0 & Hy0 & Hidy & Hroy & Hcase).
        assert (Hold : stop_order y0 <> k).
        { apply (Hfree r0 y0 k Hr0 Hy0); [congruence | congruence |].
          rewrite Hid0, Hri. exact Hp. }
        destruct Hcase as [[_ ->] | ->]; [contradiction |].
        unfold StopPoint.renumber in Ho, Hne.
        destruct (find (fun p => fst p =? id y0) os) as [[j' n] |] eqn:Fy;
          [| contradiction].
        apply find_some in Fy. destruct Fy as [Hq Hj']. cbn in Hj'.
        apply Z.eqb_eq in Hj'. subst j'. cbn in Ho, Hne.
        pose proof (Hinj _ _ Hq Hp Ho) as E. injection E as E1 _. contradiction.
      * rewrite (@written_step i j k done Hd Fp). apply IH.
    + rewrite <- (@written_skip i done); [apply IH |].
      intros x _ E. unfold StopPoint.renumber. rewrite E, Fp. reflexivity.
  - rewrite <- (@written_skip i done); [apply IH |].
    intros x Hx E. exfalso. exact (@written_no_row i done Fr x Hx E).
Qed.

End WriteRows.

(** *** Rows reached in ascending order *)






Section Ascending.
Variables (now : Z) (rows0 M : list t).
Hypothesis pkey : NoDup (map id rows0).
Hypothesis joined_stored : forall x, In x M -> In x rows0.
Hypothesis joined_route :
  forall y x, In y rows0 -> In x M -> route_id y = route_id x -> In y M.
Hypothesis joined_sorted : StronglySorted lt_order M.
Hypothesis joined_ids : NoDup (map id M).
Hypothesis joined_positive : forall x, In x M -> 1 <= stop_order x.

End Ascending.

Section Reorder.
Variables (rows : list t) (routeId now : Z).
Hypothesis pkey : NoDup (map id rows).
Hypothesis unique_orders : NoDup (map route_order rows).

Local Abbreviation on_route := (fun r : t => route_id r =? routeId).
Local Abbreviation sorted := (StopPoint.order_by_stop_order (filter on_route rows)).
Local Abbreviation os := (StopPoint.row_number 1 sorted).

Lemma sorted_ids_distinct : NoDup (map id sorted).
Proof.
  eapply Permutation_NoDup.
  - apply Permutation_map. symmetry. apply order_by_stop_order_perm.
  - apply NoDup_map_filter. exact pkey.
Qed.

Lemma joined_iff_on_route (x : t) :
  In x rows -> (In (id x) (map fst os) <-> route_id x = routeId).
Proof.
  intros Hx. rewrite row_number_ids. split.
  - intros Hin. apply in_map_iff in Hin. destruct Hin as (y & Hy & Hin).
    apply (Permutation_in _ (order_by_stop_order_perm _)) in Hin.
    apply filter_In in Hin. destruct Hin as [Hin Hr].
    rewrite <- (NoDup_map_injective id rows y x pkey Hin Hx Hy).
    apply Z.eqb_eq. exact Hr.
  - intros Hr. apply in_map.
    apply (Permutation_in _ (Permutation_sym (order_by_stop_order_perm _))).
    apply filter_In. split; [exact Hx | apply Z.eqb_eq; exact Hr].
Qed.

(** The UPDATE of [reorderStopPoints] keeps [unique_route_stop_order]. *)
Lemma renumber_keeps_unique :
  NoDup (map route_order (map (StopPoint.renumber os now) rows)).
Proof.
  rewrite map_map. apply (NoDup_map_from id); [exact pkey |].
  intros x y Hx Hy E. unfold route_order in E.
  rewrite !renumber_route in E. injection E as Er Eo.
  destruct (Z.eq_dec (route_id x) routeId) as [Hr | Hr].
  - destruct (renumber_present os now x (proj2 (joined_iff_on_route x Hx) Hr))
      as (kx & Hkx & Ex).
    assert (route_id y = routeId) as Hr' by congruence.
    destruct (renumber_present os now y (proj2 (joined_iff_on_route y Hy) Hr'))
      as (ky & Hky & Ey).
    rewrite Ex, Ey in Eo. cbn in Eo.
    pose proof (row_number_injective _ _ _ _ Hkx Hky Eo) as E.
    congruence.
  - assert (route_id y <> routeId) as Hr' by congruence.
    rewrite (renumber_absent os now x) in Eo
      by (intros H; apply Hr, (joined_iff_on_route x Hx), H).
    rewrite (renumber_absent os now y) in Eo
      by (intros H; apply Hr', (joined_iff_on_route y Hy), H).
    f_equal. apply (NoDup_map_injective route_order rows x y unique_orders Hx Hy).
    unfold route_order. congruence.
Qed.

(** After the UPDATE the stops of the route are the same rows in the same
    order, numbered from 1. *)
Lemma renumber_route_stops :
  StopPoint.order_by_stop_order
    (filter on_route (map (StopPoint.renumber os now) rows))
  = renumbered 1 now sorted.
Proof.
  rewrite filter_map_commute
    by (intros x; rewrite renumber_route; reflexivity).
  apply sorted_arrangement_unique.
  - apply order_by_stop_order_sorted.
  - apply renumbered_sorted.
  - rewrite order_by_stop_order_perm.
    rewrite <- (renumber_numbered 1 now sorted sorted_ids_distinct).
    apply Permutation_map. symmetry. apply order_by_stop_order_perm.
Qed.

(** Stops of other routes are not touched. *)
Lemma renumber_other_routes (x : t) :
  In x rows -> route_id x <> routeId -> StopPoint.renumber os now x = x.
Proof.
  intros Hx Hr. apply renumber_absent.
  intros H. apply Hr, (joined_iff_on_route x Hx), H.
Qed.
End Reorder.
End DeleteStop.

Section DeleteTheorem.
Import StopPointRow.


Lemma map_id_filter (k : Z) (l : list t) :
  map id (filter (fun r => negb (id r =? k)) l)
  = filter (fun i => negb (i =? k)) (map id l).
Proof.
  induction l as [| x l IH]; [reflexivity |]. cbn [filter map].
  destruct (negb (id x =? k)); cbn [map]; rewrite IH; reflexivity.
Qed.


(** The two outcomes of [delete] when the DELETE finds the row: the row is
    gone and the references to it are nulled in both; the remaining stops
    are renumbered, or the UPDATE is thrown back and they keep their
    numbers. *)
Lemma delete_cases (s : Store) (this : t) (visit : list Z) (now : Z) :
  existsb (fun r => id r =? id this) (stop_points s) = true ->
  let rows1 := filter (fun r => negb (id r =? id this)) (stop_points s) in
  let s1 := mkStore (users s) (routes s) rows1 (trips s)
                    (map (StopPoint.set_null (id this) now) (trip_requests s))
                    (trip_requests_id_seq s) in
  StopPoint.delete this visit now s
  = (s1, Throw (DatabaseError "unique_route_stop_order"))
  \/ StopPoint.delete this visit now s
     = (set_stop_points s1
          (map (StopPoint.renumber
                  (StopPoint.row_number 1
                     (StopPoint.order_by_stop_order
                        (filter (fun r => route_id r =? route_id this) rows1)))
                  now) rows1),
        Return this).
Proof.
  intros Hex. cbn zeta.
  unfold StopPoint.delete, bind, get_store, put_store.
  destruct (existsb_filter_nonempty _ _ Hex) as (x & rest & -> & _).
  unfold StopPoint.reorderStopPoints, bind, get_store, put_store, ret, throw.
  unfold StopPoint.ordered_stops, StopPoint.route_stops. cbn [stop_points].
  destruct (StopPoint.write_rows _ _ _ _ _) as [rows' |] eqn:W.
  - right. apply write_rows_result in W. rewrite W. reflexivity.
  - left. reflexivity.
Qed.

Lemma In_existsb_id (s : Store) (this : t) :
  In this (stop_points s) ->
  existsb (fun r => id r =? id this) (stop_points s) = true.
Proof.
  intros Hin. apply existsb_exists. exists this.
  split; [exact Hin | apply Z.eqb_refl].
Qed.

(** The remaining stops of the route, sorted, are the sorted stops of the
    route without the deleted one. *)
Lemma remaining_route_stops (s : Store) (this : t) :
  NoDup (map route_order (stop_points s)) ->
  StopPoint.order_by_stop_order
    (filter (fun r => route_id r =? route_id this)
            (filter (fun r => negb (id r =? id this)) (stop_points s)))
  = filter (fun r => negb (id r =? id this))
           (StopPoint.route_stops s (route_id this)).
Proof.
  intros Huq. unfold StopPoint.route_stops. rewrite filter_filter_commute.
  apply order_by_stop_order_filter. apply route_orders_distinct. exact Huq.
Qed.

(** How [delete] runs on a stop of a store that satisfies its constraints,
    when it returns: the stops of the route are then the former ones without
    the deleted row, in their former order, numbered from 1. *)
Lemma delete_run (s : Store) (this : t) (visit : list Z) (now : Z) :
  stops_ok s = true -> In this (stop_points s) ->
  snd (StopPoint.delete this visit now s) = Return this ->
  map id (stop_points (fst (StopPoint.delete this visit now s)))
  = filter (fun i => negb (i =? id this)) (map id (stop_points s))
  /\ StopPoint.route_stops (fst (StopPoint.delete this visit now s)) (route_id this)
     = renumbered 1 now
         (filter (fun r => negb (id r =? id this))
                 (StopPoint.route_stops s (route_id this))).
Proof.
  intros Hok Hin Hret. apply stops_ok_NoDup in Hok. destruct Hok as [Hpk Huq].
  destruct (@delete_cases s this visit now (@In_existsb_id s this Hin)) as [E | E];
    rewrite E in *; [discriminate |].
  cbn [fst stop_points set_stop_points]. split.
  - rewrite map_map. rewrite <- map_id_filter. apply map_ext. intros x.
    apply renumber_id.
  - unfold StopPoint.route_stops at 1. cbn [stop_points set_stop_points].
    set (rows1 := filter (fun r => negb (id r =? id this)) (stop_points s)).
    assert (Hpk1 : NoDup (map id rows1)) by (apply NoDup_map_filter; exact Hpk).
    rewrite (@renumber_route_stops rows1 (route_id this) now Hpk1). f_equal.
    subst rows1. apply remaining_route_stops. exact Huq.
Qed.

Lemma row_number_fixed (k : Z) (l : list t) :
  map stop_order l = seq_from k (List.length l) ->
  StopPoint.row_number k l = map (fun x => (id x, stop_order x)) l.
Proof.
  revert k. induction l as [| x l IH]; intros k H; [reflexivity |].
  cbn [map List.length seq_from] in H. injection H as H1 H2.
  cbn [StopPoint.row_number map]. rewrite (IH _ H2), H1. reflexivity.
Qed.

Lemma remaining_in_table (s : Store) (this x : t) :
  In x (filter (fun r => negb (id r =? id this))
               (StopPoint.route_stops s (route_id this))) ->
  In x (filter (fun r => negb (id r =? id this)) (stop_points s))
  /\ route_id x = route_id this.
Proof.
  intros Hx. apply filter_In in Hx. destruct Hx as [Hx Hn].
  apply (Permutation_in _ (order_by_stop_order_perm _)) in Hx.
  apply filter_In in Hx. destruct Hx as [Hx Hr]. apply Z.eqb_eq in Hr.
  split; [apply filter_In; split; assumption | exact Hr].
Qed.

(** When the stops that remain on the route are numbered 1 .. N already,
    as after the last stop of such a route is deleted, the UPDATE gives
    every row the number it has and no write is refused, whatever the order
    of reach. *)
Lemma delete_accepts_numbered (s : Store) (this : t) (visit : list Z) (now : Z) :
  stops_ok s = true -> In this (stop_points s) ->
  map stop_order (filter (fun r => negb (id r =? id this))
                         (StopPoint.route_stops s (route_id this)))
  = seq_from 1 (List.length (filter (fun r => negb (id r =? id this))
                                    (StopPoint.route_stops s (route_id this)))) ->
  snd (StopPoint.delete this visit now s) = Return this.
Proof.
  intros Hok Hin Hc. apply stops_ok_NoDup in Hok. destruct Hok as [Hpk Huq].
  unfold StopPoint.delete, bind, get_store, put_store.
  destruct (existsb_filter_nonempty _ _ (@In_existsb_id s this Hin))
    as (x & rest & -> & _).
  unfold StopPoint.reorderStopPoints, bind, get_store, put_store, ret, throw.
  unfold StopPoint.ordered_stops. unfold StopPoint.route_stops at 1.
  cbn [stop_points].
  rewrite (@remaining_route_stops s this Huq).
  set (rows1 := filter (fun r => negb (id r =? id this)) (stop_points s)).
  set (M := filter (fun r => negb (id r =? id this))
                   (StopPoint.route_stops s (route_id this))) in *.
  assert (Hpk1 : NoDup (map id rows1)) by (apply NoDup_map_filter; exact Hpk).
  assert (Huq1 : NoDup (map route_order rows1)) by (apply NoDup_map_filter; exact Huq).
  destruct (StopPoint.write_rows _ _ _ _ _) as [rows' |] eqn:W; [reflexivity |].
  exfalso.
  pose proof (fun H1 H2 => @write_rows_accepts (StopPoint.row_number 1 M) now rows1
                               (visit ++ map id rows1) H1 H2 []) as A.
  rewrite written_nil in A. refine (A _ _ W).
  - intros p q. apply row_number_injective.
  - intros a b n Ha Hb Hne Hr Hp Eb.
    rewrite (@row_number_fixed 1 M Hc) in Hp. apply in_map_iff in Hp.
    destruct Hp as (y & Hy & HyM). injection Hy as Hid Ho.
    destruct (@remaining_in_table s this y HyM) as [Hy1 _]. fold rows1 in Hy1.
    pose proof (NoDup_map_injective id rows1 y a Hpk1 Hy1 Ha Hid) as ->.
    apply Hne. f_equal.
    apply (NoDup_map_injective route_order rows1 a b Huq1 Ha Hb).
    unfold route_order. congruence.
Qed.



End DeleteTheorem.



(** The order of reach matters: when the UPDATE reaches stop 14 first, its
    new number 3 is still held by stop 13; the UPDATE is refused, [delete]
    throws after the row is deleted, and the route keeps the numbers 1, 3, 4.
    A route with an order below 1 is refused likewise when its rows are
    reached in ascending order. *)
Example delete_thrown_back :
  (let out := StopPoint.delete (Sample.stop 12 2) [14; 13; 11] 50 Sample.db in
   snd out = Throw (DatabaseError "unique_route_stop_order")
   /\ map StopPointRow.stop_order (StopPoint.route_stops (fst out) 1) = [1; 3; 4])
  /\ (let low := set_stop_points Sample.db
                   [Sample.stop 10 (-1); Sample.stop 11 1; Sample.stop 12 2;
                    Sample.stop 13 3] in
      let out := StopPoint.delete (Sample.stop 13 3) [10; 11; 12] 50 low in
      stops_ok low = true
      /\ snd out = Throw (DatabaseError "unique_route_stop_order")
      /\ map StopPointRow.stop_order (StopPoint.route_stops (fst out) 1)
         = [-1; 1; 2]).
Proof. repeat split. Qed.

(** * Further properties of the models *)

(** ** Seats along the status methods *)

Lemma js_or_value (v d : Z) : js_or (Some v) d = if v =? 0 then d else v.
Proof. destruct v; reflexivity. Qed.

Lemma set_trip_requests_same (s : Store) : set_trip_requests s (trip_requests s) = s.
Proof. destruct s; reflexivity. Qed.

Lemma filter_key_singleton {A} (f : A -> Z) (l : list A) (x : A) :
  NoDup (map f l) -> In x l -> filter (fun y => f y =? f x) l = [x].
Proof.
  induction l as [| a l IH]; intros Hn Hin; [contradiction |].
  cbn [map] in Hn. inversion Hn as [| ? ? Ha Hl]; subst. cbn [filter].
  destruct (Z.eqb_spec (f a) (f x)) as [E | E].
  - assert (a = x) as ->.
    { destruct Hin as [H | H]; [exact H |].
      exfalso. apply Ha. rewrite E. apply in_map. exact H. }
    f_equal. clear IH Hin Hn Hl E. induction l as [| b l IH]; [reflexivity |].
    cbn [filter map] in *. destruct (Z.eqb_spec (f b) (f x)) as [E | E].
    + exfalso. apply Ha. left. exact E.
    + apply IH. intros H. apply Ha. right. exact H.
  - destruct Hin as [H | H]; [congruence |]. apply IH; assumption.
Qed.

Section StatusWrite.
Import TripRequestRow.
Variables (r : t) (status : string) (now : Z).

Lemma status_write_untouched (rows : list t) :
  ~ In (id r) (map id rows) ->
  map (fun x => if id x =? id r then TripRequest.set_status status now x else x)
      rows = rows.
Proof.
  induction rows as [| x rows IH]; intros Hn; [reflexivity |].
  cbn [map] in *. rewrite IH by (intros H; apply Hn; right; exact H).
  destruct (Z.eqb_spec (id x) (id r)) as [E | E]; [| reflexivity].
  exfalso. apply Hn. left. exact E.
Qed.

(** The approved seats of a trip after the UPDATE of [updateStatus] on the
    row [r]: what [r] held before is taken out, what it holds now is put in. *)
Lemma status_write_seats (tripId : Z) (rows : list t) :
  NoDup (map id rows) -> In r rows ->
  fold_right Z.add 0
    (map requested_seats
       (filter (fun x => (trip_id x =? tripId)
                         && String.eqb (request_status x) "approved")
          (map (fun x => if id x =? id r
                         then TripRequest.set_status status now x else x)
               rows)))
  = fold_right Z.add 0
      (map requested_seats
         (filter (fun x => (trip_id x =? tripId)
                           && String.eqb (request_status x) "approved") rows))
    - (if (trip_id r =? tripId) && String.eqb (request_status r) "approved"
       then requested_seats r else 0)
    + (if (trip_id r =? tripId) && String.eqb status "approved"
       then requested_seats r else 0).
Proof.
  intros Hnd Hin. induction rows as [| x rows IH]; [contradiction |].
  cbn [map] in Hnd. inversion Hnd as [| ? ? Hx Hrows]; subst.
  cbn [map filter].
  destruct (Z.eqb_spec (id x) (id r)) as [E | E].
  - assert (x = r) as ->.
    { destruct Hin as [H | H]; [exact H |].
      exfalso. apply Hx. rewrite E. apply in_map. exact H. }
    rewrite status_write_untouched by exact Hx.
    cbn [TripRequest.set_status trip_id request_status requested_seats].
    destruct ((trip_id r =? tripId) && String.eqb (request_status r) "approved"),
             ((trip_id r =? tripId) && String.eqb status "approved");
      cbn [map fold_right TripRequest.set_status requested_seats]; lia.
  - destruct Hin as [H | H]; [congruence |].
    specialize (IH Hrows H).
    destruct ((trip_id x =? tripId) && String.eqb (request_status x) "approved");
      cbn [map fold_right]; lia.
Qed.
End StatusWrite.

(** X1: [TripRequest.create] reserves nothing: whether it returns a row or
    throws, the approved seats of every trip, the answer of
    [getRemainingSeats] and the answer of [getTotalRevenue] are what they
    were. *)
Theorem create_reserves_nothing
        (d : TripRequest.requestData) (now : Z) (s : Store) (trip : TripRow.t) :
  let s' := fst (TripRequest.create d now s) in
  (forall tripId, Trip.approved_seats s' tripId = Trip.approved_seats s tripId)
  /\ snd (Trip.getRemainingSeats trip s') = snd (Trip.getRemainingSeats trip s)
  /\ snd (Trip.getTotalRevenue trip s') = snd (Trip.getTotalRevenue trip s).
Proof.
  intros s'.
  assert (Hf : forall tripId,
             filter (fun r => (TripRequestRow.trip_id r =? tripId)
                              && String.eqb (TripRequestRow.request_status r) "approved")
                    (trip_requests s')
             = filter (fun r => (TripRequestRow.trip_id r =? tripId)
                                && String.eqb (TripRequestRow.request_status r) "approved")
                      (trip_requests s)).
  { intros tripId. subst s'.
    destruct (create_cases d now s)
      as [-> | [(c & ->) | (row & -> & _ & _ & Hp & _)]];
      cbn [fst trip_requests set_trip_requests set_trip_requests_id_seq];
      try reflexivity.
    rewrite filter_app. cbn [filter]. rewrite Hp. cbn.
    rewrite andb_false_r. apply app_nil_r. }
  assert (Ht : trips s' = trips s).
  { subst s'.
    destruct (create_cases d now s) as [-> | [(c & ->) | (row & -> & _)]];
      reflexivity. }
  assert (Ha : forall tripId, Trip.approved_seats s' tripId = Trip.approved_seats s tripId).
  { intros tripId. unfold Trip.approved_seats. rewrite Hf. reflexivity. }
  split; [exact Ha | split].
  - unfold Trip.getRemainingSeats, Trip.remaining_seats_rows. cbn [snd].
    rewrite Ht. do 3 f_equal. apply map_ext. intros x. rewrite Ha. reflexivity.
  - unfold Trip.getTotalRevenue. cbn [snd]. rewrite Hf. reflexivity.
Qed.

(** X2: on a store that satisfies the constraints of [trip_requests],
    [reject] and [cancel] on an approved request return the row with its new
    status and take its seats out of the approved seats of its trip; the
    approved seats of every other trip stay. *)
Theorem leaving_approved_releases
        (s : Store) (r : TripRequestRow.t) (status : string) (now : Z) :
  ledger_ok s = true ->
  In r (trip_requests s) ->
  TripRequestRow.request_status r = "approved"%string ->
  status = "rejected"%string \/ status = "cancelled"%string ->
  let out := TripRequest.updateStatus r status now s in
  snd out = Return (TripRequest.set_status status now r)
  /\ approved_total (fst out) (TripRequestRow.trip_id r)
     = approved_total s (TripRequestRow.trip_id r)
       - TripRequestRow.requested_seats r
  /\ forall tripId, tripId <> TripRequestRow.trip_id r ->
                    approved_total (fst out) tripId = approved_total s tripId.
Proof.
  intros Hok Hin Ha Hst out. subst out.
  apply ledger_ok_Ledger in Hok. destruct Hok as [Hpk _ _ _].
  assert (Hallowed : includes TripRequest.allowedStatuses status = true)
    by (destruct Hst as [-> | ->]; reflexivity).
  assert (Hnot : String.eqb status "approved" = false)
    by (destruct Hst as [-> | ->]; reflexivity).
  rewrite updateStatus_store by exact Hallowed.
  rewrite updateStatus_result by assumption.
  rewrite (filter_key_singleton TripRequestRow.id _ r Hpk Hin).
  split; [reflexivity |].
  unfold approved_total, Trip.approved_seats.
  cbn [trip_requests set_trip_requests]. split.
  - rewrite !COALESCE_SUM. rewrite status_write_seats by assumption.
    rewrite Ha, Hnot, Z.eqb_refl. cbn. lia.
  - intros tripId Hne. rewrite !COALESCE_SUM.
    rewrite status_write_seats by assumption.
    assert ((TripRequestRow.trip_id r =? tripId) = false) as ->
        by (apply Z.eqb_neq; congruence).
    cbn. lia.
Qed.

Lemma leaving_approved_releases_witness :
  let out := TripRequest.updateStatus Fixture.approved_1 "cancelled" 20
               Sample.db_one_approved in
  snd out = Return (TripRequest.set_status "cancelled" 20 Fixture.approved_1)
  /\ approved_total (fst out) 1 = approved_total Sample.db_one_approved 1 - 1
  /\ forall tripId, tripId <> 1 ->
                    approved_total (fst out) tripId
                    = approved_total Sample.db_one_approved tripId.
Proof.
  apply (@leaving_approved_releases Sample.db_one_approved Fixture.approved_1
           "cancelled" 20).
  - reflexivity.
  - simpl. left. reflexivity.
  - reflexivity.
  - right. reflexivity.
Defined.

Lemma trips_ok_NoDup (s : Store) :
  trips_ok s = true -> NoDup (map TripRow.id (trips s)).
Proof.
  unfold trips_ok. rewrite andb_true_iff. intros [H _].
  apply (distinct_NoDup Z.eqb _ Z.eqb_eq). exact H.
Qed.

Lemma findById_row (s : Store) (tripId : Z) (trip : TripRow.t) :
  trips_ok s = true ->
  snd (Trip.findById tripId s) = Return (Some trip) ->
  TripRow.id trip = tripId
  /\ In trip (trips s)
  /\ filter (fun r => TripRow.id r =? tripId) (trips s) = [trip].
Proof.
  intros Hok Hf. unfold Trip.findById in Hf. cbn [snd] in Hf.
  injection Hf as Hf. apply find_some in Hf. destruct Hf as [Hin Hc].
  rewrite !andb_true_iff in Hc. destruct Hc as [[Hid _] _].
  apply Z.eqb_eq in Hid. split; [exact Hid | split; [exact Hin |]].
  rewrite <- Hid.
  apply (filter_key_singleton TripRow.id _ trip (trips_ok_NoDup s Hok) Hin).
Qed.

(** X3: the outcome of [approve] on a pending request whose trip is found,
    on a store that satisfies its constraints.  The request is counted among
    the approved ones when the seats are compared.  With [n] the requested
    seats and [free] the capacity minus the seats approved before: if
    [free - n = 0], the remaining seats read as the capacity, and [approve]
    returns the approved row exactly when [n <= available_seats]; if
    [free - n <> 0], it returns the approved row exactly when
    [n <= free - n]; in every other case it throws "Not enough available
    seats". *)
Theorem approve_outcome
        (s : Store) (r : TripRequestRow.t) (trip : TripRow.t) (now : Z) :
  ledger_ok s = true ->
  trips_ok s = true ->
  In r (trip_requests s) ->
  TripRequestRow.request_status r = "pending"%string ->
  snd (Trip.findById (TripRequestRow.trip_id r) s) = Return (Some trip) ->
  let n := TripRequestRow.requested_seats r in
  let free := TripRow.available_seats trip
              - approved_total s (TripRequestRow.trip_id r) in
  snd (TripRequest.approve r now s)
  = if n <=? (if free - n =? 0 then TripRow.available_seats trip else free - n)
    then Return (TripRequest.set_status "approved" now r)
    else Throw (Error "Not enough available seats").
Proof.
  intros Hok Htrips Hin Hp Hfind n free.
  apply ledger_ok_Ledger in Hok. destruct Hok as [Hpk _ _ _].
  destruct (@findById_row s _ trip Htrips Hfind) as (Hid & _ & Hrows).
  unfold TripRequest.approve, TripRequest.updateStatus.
  cbn [includes existsb TripRequest.allowedStatuses String.eqb Ascii.eqb Bool.eqb
       orb negb].
  unfold bind at 1. unfold get_store at 1. unfold bind at 1. unfold put_store at 1.
  rewrite (filter_key_singleton TripRequestRow.id _ r Hpk Hin). cbn [map].
  unfold TripRequest.getTrip, bind.
  cbn [TripRequest.set_status TripRequestRow.trip_id TripRequestRow.requested_seats].
  unfold Trip.findById in Hfind |- *. cbn [snd] in Hfind.
  cbn [trips routes users set_trip_requests]. injection Hfind as ->.
  unfold Trip.hasAvailableSeats, Trip.getRemainingSeats, bind, ret.
  unfold Trip.remaining_seats_rows. cbn [trips set_trip_requests].
  rewrite Hid, Hrows. cbn [map hd_error]. rewrite js_or_value.
  unfold Trip.approved_seats. cbn [trip_requests set_trip_requests].
  rewrite COALESCE_SUM, Hid.
  rewrite (status_write_seats r "approved" now _ _ Hpk Hin).
  rewrite Hp, Z.eqb_refl. cbn [andb String.eqb Ascii.eqb Bool.eqb].
  subst n free. unfold approved_total, Trip.approved_seats.
  rewrite COALESCE_SUM.
  replace (TripRow.available_seats trip
           - (fold_right Z.add 0
                (map TripRequestRow.requested_seats
                   (filter (fun x => (TripRequestRow.trip_id x =? TripRequestRow.trip_id r)
                                     && String.eqb (TripRequestRow.request_status x) "approved")
                      (trip_requests s))) - 0 + TripRequestRow.requested_seats r))
    with (TripRow.available_seats trip
          - fold_right Z.add 0
              (map TripRequestRow.requested_seats
                 (filter (fun x => (TripRequestRow.trip_id x =? TripRequestRow.trip_id r)
                                   && String.eqb (TripRequestRow.request_status x) "approved")
                    (trip_requests s)))
          - TripRequestRow.requested_seats r) by lia.
  destruct (_ <=? _); reflexivity.
Qed.

Lemma approve_outcome_witness :
  snd (TripRequest.approve Sample.request_2 13 Sample.db_one_approved)
  = Throw (Error "Not enough available seats").
Proof.
  exact (@approve_outcome Sample.db_one_approved Sample.request_2 Sample.trip_1 13
           eq_refl eq_refl (or_intror (or_introl eq_refl)) eq_refl eq_refl).
Defined.

(** X4: the three status methods called on an instance whose row is not in
    the table (a stale instance) throw "Trip request not found" and leave the
    store as it was; also [approve], which checks no seats in that case. *)
Theorem status_methods_on_missing_row
        (s : Store) (this : TripRequestRow.t) (now : Z) :
  existsb (fun r => TripRequestRow.id r =? TripRequestRow.id this)
          (trip_requests s) = false ->
  TripRequest.approve this now s = (s, Throw (Error "Trip request not found"))
  /\ TripRequest.reject this now s = (s, Throw (Error "Trip request not found"))
  /\ TripRequest.cancel this now s = (s, Throw (Error "Trip request not found")).
Proof.
  intros Hno.
  assert (Hf : filter (fun r => TripRequestRow.id r =? TripRequestRow.id this)
                      (trip_requests s) = []).
  { induction (trip_requests s) as [| x l IH]; [reflexivity |].
    cbn [existsb filter] in *. apply orb_false_iff in Hno. destruct Hno as [E Hl].
    rewrite E. apply IH. exact Hl. }
  assert (Hm : forall status,
             map (fun r => if TripRequestRow.id r =? TripRequestRow.id this
                           then TripRequest.set_status status now r else r)
                 (trip_requests s) = trip_requests s).
  { intros status. induction (trip_requests s) as [| x l IH]; [reflexivity |].
    cbn [existsb map filter] in *. apply orb_false_iff in Hno.
    destruct Hno as [E Hl]. rewrite E in *. f_equal. apply IH; assumption. }
  assert (H : forall status,
             includes TripRequest.allowedStatuses status = true ->
             TripRequest.updateStatus this status now s
             = (s, Throw (Error "Trip request not found"))).
  { intros status Ha. unfold TripRequest.updateStatus. rewrite Ha. cbn [negb].
    unfold bind, get_store, put_store. rewrite Hf, Hm. cbn [map].
    rewrite set_trip_requests_same. reflexivity. }
  repeat split; apply H; reflexivity.
Qed.

Lemma status_methods_on_missing_row_witness :
  TripRequest.approve Sample.request_1 12 Sample.db
  = (Sample.db, Throw (Error "Trip request not found"))
  /\ TripRequest.reject Sample.request_1 12 Sample.db
     = (Sample.db, Throw (Error "Trip request not found"))
  /\ TripRequest.cancel Sample.request_1 12 Sample.db
     = (Sample.db, Throw (Error "Trip request not found")).
Proof.
  exact (@status_methods_on_missing_row Sample.db Sample.request_1 12 eq_refl).
Defined.

(** ** Updating the details of a request *)

Lemma binds_price_query (k : nat) :
  (1 <= k)%nat -> binds [Z.of_nat k + 1] 1 = false.
Proof.
  intros Hk. unfold binds. apply andb_false_iff. left.
  cbn [List.seq forallb]. apply andb_false_iff. left.
  unfold mem. cbn [existsb]. rewrite orb_false_r. apply Z.eqb_neq. lia.
Qed.

(** The price query of [update] is always thrown back. *)
Lemma update_seats_throw
        (this : TripRequestRow.t) (u : TripRequest.updateData) (seats : Z)
        (now : Z) (s : Store) :
  TripRequest.u_requested_seats u = Some seats ->
  TripRequest.update this u now s = (s, Throw (DatabaseError "bind parameters")).
Proof.
  intros Hs. unfold TripRequest.update. rewrite Hs.
  unfold TripRequest.statement at 1.
  rewrite binds_price_query.
  - reflexivity.
  - unfold TripRequest.pushed. rewrite Hs. cbn [TripRequest.one_if]. lia.
Qed.

(** X5: [update] with [requested_seats] among the keys never succeeds: the
    price query names the placeholder [$valueIndex], which is at least [$2],
    and is sent with one value; the call throws before any statement changes
    the store.  Seats and price of a request cannot be changed by [update]. *)
Theorem update_with_seats_fails
        (this : TripRequestRow.t) (u : TripRequest.updateData) (seats : Z)
        (now : Z) (s : Store) :
  TripRequest.u_requested_seats u = Some seats ->
  TripRequest.update this u now s = (s, Throw (DatabaseError "bind parameters")).
Proof. exact (@update_seats_throw this u seats now s). Qed.

Lemma update_with_seats_fails_witness :
  TripRequest.update Sample.request_1
    (TripRequest.mkUpdate None None (Some 2) None None None) 20
    Sample.db_two_pending
  = (Sample.db_two_pending, Throw (DatabaseError "bind parameters")).
Proof.
  exact (@update_with_seats_fails Sample.request_1
           (TripRequest.mkUpdate None None (Some 2) None None None) 2 20
           Sample.db_two_pending eq_refl).
Defined.

Lemma approved_filter_accounting (tripId : Z) (l1 l2 : list TripRequestRow.t) :
  map accounting l1 = map accounting l2 ->
  map accounting
      (filter (fun r => (TripRequestRow.trip_id r =? tripId)
                        && String.eqb (TripRequestRow.request_status r) "approved") l1)
  = map accounting
        (filter (fun r => (TripRequestRow.trip_id r =? tripId)
                          && String.eqb (TripRequestRow.request_status r) "approved") l2).
Proof.
  revert l2. induction l1 as [| x l1 IH]; intros [| y l2] H; try discriminate;
    [reflexivity |].
  cbn [map] in H. injection H as Hi Ht Hp Hn Hst Hpr Hl. cbn [filter].
  rewrite Ht, Hst.
  destruct ((TripRequestRow.trip_id y =? tripId)
            && String.eqb (TripRequestRow.request_status y) "approved");
    cbn [map]; [f_equal |]; try (apply IH; exact Hl).
  unfold accounting. congruence.
Qed.

Lemma accounting_seats (l : list TripRequestRow.t) :
  map TripRequestRow.requested_seats l
  = map (fun a => snd (fst (fst a))) (map accounting l).
Proof. rewrite map_map. reflexivity. Qed.

Lemma accounting_price (l : list TripRequestRow.t) :
  map TripRequestRow.total_price l = map snd (map accounting l).
Proof. rewrite map_map. reflexivity. Qed.

(** X6: [update] never changes the id, trip, passenger, seats, status or
    price of any request, and touches no other table: after it, whether it
    returned or threw, [getRemainingSeats] and [getTotalRevenue] answer for
    every trip what they answered before. *)
Theorem update_keeps_accounting
        (this : TripRequestRow.t) (u : TripRequest.updateData) (now : Z)
        (s : Store) (trip : TripRow.t) :
  let s' := fst (TripRequest.update this u now s) in
  map accounting (trip_requests s') = map accounting (trip_requests s)
  /\ trips s' = trips s
  /\ stop_points s' = stop_points s
  /\ snd (Trip.getRemainingSeats trip s') = snd (Trip.getRemainingSeats trip s)
  /\ snd (Trip.getTotalRevenue trip s') = snd (Trip.getTotalRevenue trip s).
Proof.
  intros s'.
  assert (H : map accounting (trip_requests s') = map accounting (trip_requests s)
              /\ trips s' = trips s /\ stop_points s' = stop_points s).
  { subst s'. destruct (TripRequest.u_requested_seats u) as [seats |] eqn:Hs.
    - rewrite (@update_seats_throw this u seats now s Hs). repeat split.
    - unfold TripRequest.update. rewrite Hs.
      destruct (TripRequest.pushed u =? 0)%nat; [repeat split |].
      unfold TripRequest.statement, bind.
      destruct (binds _ _); [| repeat split]. cbn [ret].
      unfold TripRequest.write, bind, get_store, put_store.
      destruct (negb (forallb _ _)); [repeat split |].
      destruct (negb (forallb _ _)); [repeat split |].
      assert (Hm : map accounting
                     (map (fun r => if TripRequestRow.id r =? TripRequestRow.id this
                                    then TripRequest.apply_update u None now r else r)
                          (trip_requests s))
                   = map accounting (trip_requests s)).
      { rewrite map_map. apply map_ext. intros r.
        destruct (TripRequestRow.id r =? TripRequestRow.id this); [| reflexivity].
        unfold accounting, TripRequest.apply_update. cbn. rewrite Hs. reflexivity. }
      destruct (map _ (filter _ _)); cbn [fst trip_requests set_trip_requests throw ret];
        repeat split; exact Hm. }
  destruct H as (Hacc & Ht & Hst).
  split; [exact Hacc | split; [exact Ht | split; [exact Hst |]]].
  assert (Hsum : forall tripId, Trip.approved_seats s' tripId = Trip.approved_seats s tripId).
  { intros tripId. unfold Trip.approved_seats.
    rewrite !accounting_seats.
    rewrite (approved_filter_accounting tripId _ _ Hacc). reflexivity. }
  split.
  - unfold Trip.getRemainingSeats, Trip.remaining_seats_rows. cbn [snd].
    rewrite Ht. do 3 f_equal. apply map_ext. intros x. rewrite Hsum. reflexivity.
  - unfold Trip.getTotalRevenue. cbn [snd]. rewrite !accounting_price.
    rewrite (approved_filter_accounting (TripRow.id trip) _ _ Hacc). reflexivity.
Qed.

(** ** Statistics of the requests of a trip *)

Section Stats.
Import TripRequestRow.

Lemma property_assign (k k' : string) (v : TripRequest.StatusStats)
      (o : list (string * TripRequest.StatusStats)) :
  TripRequest.property (TripRequest.assign k v o) k'
  = if String.eqb k k' then Some v else TripRequest.property o k'.
Proof.
  unfold TripRequest.property.
  induction o as [| [k1 v1] o IH]; cbn [TripRequest.assign find fst].
  - destruct (String.eqb k k'); reflexivity.
  - destruct (String.eqb_spec k1 k) as [-> | Hk].
    + cbn [find fst]. destruct (String.eqb k k'); reflexivity.
    + cbn [find fst]. destruct (String.eqb_spec k1 k') as [-> | Hk'].
      * destruct (String.eqb_spec k k') as [E | E]; [congruence | reflexivity].
      * exact IH.
Qed.

Lemma property_fold_absent (k : string)
      (g : list (string * TripRequest.StatusStats))
      (o : list (string * TripRequest.StatusStats)) :
  ~ In k (map fst g) ->
  TripRequest.property
    (fold_left (fun stats row => TripRequest.assign (fst row) (snd row) stats) g o) k
  = TripRequest.property o k.
Proof.
  revert o. induction g as [| [k1 v1] g IH]; intros o Hn; [reflexivity |].
  cbn [fold_left fst snd map] in *.
  rewrite IH by (intros H; apply Hn; right; exact H).
  rewrite property_assign.
  destruct (String.eqb_spec k1 k) as [E | E]; [| reflexivity].
  exfalso. apply Hn. left. exact E.
Qed.

Lemma property_fold_present (k : string) (v : TripRequest.StatusStats)
      (g : list (string * TripRequest.StatusStats))
      (o : list (string * TripRequest.StatusStats)) :
  NoDup (map fst g) -> In (k, v) g ->
  TripRequest.property
    (fold_left (fun stats row => TripRequest.assign (fst row) (snd row) stats) g o) k
  = Some v.
Proof.
  revert o. induction g as [| [k1 v1] g IH]; intros o Hn Hin; [contradiction |].
  cbn [fold_left fst snd map] in *. inversion Hn as [| ? ? Hk Hg]; subst.
  destruct Hin as [E | Hin].
  - injection E as -> ->. rewrite property_fold_absent by exact Hk.
    rewrite property_assign, String.eqb_refl. reflexivity.
  - apply IH; assumption.
Qed.

Lemma filter_absent_status (st : string) (rows : list t) :
  ~ In st (map request_status rows) ->
  filter (fun r => String.eqb (request_status r) st) rows = [].
Proof.
  induction rows as [| x rows IH]; intros Hn; [reflexivity |].
  cbn [map filter] in *.
  destruct (String.eqb_spec (request_status x) st) as [E | E].
  - exfalso. apply Hn. left. exact E.
  - apply IH. intros H. apply Hn. right. exact H.
Qed.

(** The entry of each of the four statuses in the object that
    [getTripRequestStats] returns: the count, the seats and the value of the
    requests of the trip with that status. *)
Lemma stats_entry (tripId : Z) (s : Store) (st : string) (stats : list (string * TripRequest.StatusStats)) :
  includes TripRequest.allowedStatuses st = true ->
  snd (TripRequest.getTripRequestStats tripId s) = Return stats ->
  let g := filter (fun r => String.eqb (request_status r) st)
                  (filter (fun r => trip_id r =? tripId) (trip_requests s)) in
  TripRequest.property stats st
  = Some (TripRequest.mkStats (Z.of_nat (List.length g))
                              (js_or (SUM (map requested_seats g)) 0)
                              (js_or (SUM (map total_price g)) 0)).
Proof.
  intros Hst Hs g. unfold TripRequest.getTripRequestStats in Hs. cbn [snd] in Hs.
  injection Hs as <-.
  set (rows := filter (fun r => trip_id r =? tripId) (trip_requests s)) in *.
  destruct (in_dec string_dec st (map request_status rows)) as [Hin | Hout].
  - apply property_fold_present.
    + unfold TripRequest.group_rows. rewrite map_map. cbn [fst].
      rewrite map_id. apply NoDup_nodup.
    + unfold TripRequest.group_rows. apply in_map_iff. exists st.
      split; [reflexivity | apply nodup_In; exact Hin].
  - rewrite property_fold_absent.
    + subst g. rewrite (filter_absent_status st rows Hout).
      unfold includes, TripRequest.allowedStatuses in Hst. cbn [existsb] in Hst.
      rewrite !orb_true_iff in Hst.
      destruct Hst as [E | [E | [E | [E | E]]]]; try discriminate;
        apply String.eqb_eq in E; subst st; reflexivity.
    + unfold TripRequest.group_rows. rewrite map_map. cbn [fst]. rewrite map_id.
      rewrite nodup_In. exact Hout.
Qed.

Lemma filter_filter_and (p q : t -> bool) (l : list t) :
  filter p (filter q l) = filter (fun r => q r && p r) l.
Proof.
  induction l as [| x l IH]; [reflexivity |]. cbn [filter].
  destruct (q x); cbn [filter andb]; rewrite IH; reflexivity.
Qed.

Lemma js_or_zero_default (v : option Z) : js_or v 0 = COALESCE v 0.
Proof. destruct v as [[| p | p] |]; reflexivity. Qed.

Lemma status_partition (rows : list t) :
  forallb (fun r => includes TripRequest.allowedStatuses (request_status r)) rows
  = true ->
  (List.length (filter (fun r => String.eqb (request_status r) "pending") rows)
   + List.length (filter (fun r => String.eqb (request_status r) "approved") rows)
   + List.length (filter (fun r => String.eqb (request_status r) "rejected") rows)
   + List.length (filter (fun r => String.eqb (request_status r) "cancelled") rows)
   = List.length rows)%nat.
Proof.
  induction rows as [| x rows IH]; intros H; [reflexivity |].
  cbn [forallb] in H. apply andb_true_iff in H. destruct H as [Hx Hrows].
  specialize (IH Hrows). cbn [filter].
  unfold includes, TripRequest.allowedStatuses in Hx. cbn [existsb] in Hx.
  rewrite !orb_true_iff in Hx.
  destruct Hx as [E | [E | [E | [E | E]]]]; try discriminate;
    apply String.eqb_eq in E; rewrite E; cbn; lia.
Qed.
End Stats.

(** X7: the "approved" entry of [getTripRequestStats] agrees with the other
    two queries on approved requests: its [total_seats] is the number of seats
    that [getRemainingSeats] subtracts from the capacity, and its
    [total_value] is what [getTotalRevenue] returns for the trip. *)
Theorem stats_agree_with_seat_queries (s : Store) (trip : TripRow.t) :
  exists stats entry,
    snd (TripRequest.getTripRequestStats (TripRow.id trip) s) = Return stats
    /\ TripRequest.property stats "approved" = Some entry
    /\ TripRequest.total_seats entry = approved_total s (TripRow.id trip)
    /\ snd (Trip.getTotalRevenue trip s) = Return (TripRequest.total_value entry).
Proof.
  eexists. eexists. split; [reflexivity |]. split.
  - apply (@stats_entry (TripRow.id trip) s "approved" _ eq_refl eq_refl).
  - cbn [TripRequest.total_seats TripRequest.total_value].
    rewrite !filter_filter_and. split.
    + rewrite js_or_zero_default. reflexivity.
    + reflexivity.
Qed.

(** X8: when every request of the trip has one of the four statuses (the
    CHECK constraint of the column), the four counts of
    [getTripRequestStats] add up to the number of requests of the trip. *)
Theorem stats_counts_cover_requests (s : Store) (tripId : Z) :
  forallb (fun r => includes TripRequest.allowedStatuses
                             (TripRequestRow.request_status r))
          (filter (fun r => TripRequestRow.trip_id r =? tripId) (trip_requests s))
  = true ->
  exists stats p a r c,
    snd (TripRequest.getTripRequestStats tripId s) = Return stats
    /\ TripRequest.property stats "pending" = Some p
    /\ TripRequest.property stats "approved" = Some a
    /\ TripRequest.property stats "rejected" = Some r
    /\ TripRequest.property stats "cancelled" = Some c
    /\ TripRequest.count p + TripRequest.count a + TripRequest.count r
       + TripRequest.count c
       = Z.of_nat (List.length (filter (fun x => TripRequestRow.trip_id x =? tripId)
                                       (trip_requests s))).
Proof.
  intros Hok. eexists. eexists. eexists. eexists. eexists.
  split; [reflexivity |].
  split; [apply (@stats_entry tripId s "pending" _ eq_refl eq_refl) |].
  split; [apply (@stats_entry tripId s "approved" _ eq_refl eq_refl) |].
  split; [apply (@stats_entry tripId s "rejected" _ eq_refl eq_refl) |].
  split; [apply (@stats_entry tripId s "cancelled" _ eq_refl eq_refl) |].
  cbn [TripRequest.count]. rewrite <- (status_partition _ Hok). lia.
Qed.

Lemma stats_counts_cover_requests_witness :
  exists stats p a r c,
    snd (TripRequest.getTripRequestStats 1 Sample.db_one_approved) = Return stats
    /\ TripRequest.property stats "pending" = Some p
    /\ TripRequest.property stats "approved" = Some a
    /\ TripRequest.property stats "rejected" = Some r
    /\ TripRequest.property stats "cancelled" = Some c
    /\ TripRequest.count p + TripRequest.count a + TripRequest.count r
       + TripRequest.count c
       = Z.of_nat (List.length (filter (fun x => TripRequestRow.trip_id x =? 1)
                                       (trip_requests Sample.db_one_approved))).
Proof.
  exact (@stats_counts_cover_requests Sample.db_one_approved 1 eq_refl).
Defined.

(** ** Trips and their handlers *)

Lemma trip_update_cases (this : TripRow.t) (u : Trip.updateData) (now : Z) (s : Store) :
  (exists e, Trip.update this u now s = (s, Throw e))
  \/ (forallb (fun r => includes Trip.trip_statuses (TripRow.trip_status r))
              (map (Trip.apply_update u now)
                   (filter (fun r => TripRow.id r =? TripRow.id this) (trips s)))
      = true
      /\ fst (Trip.update this u now s)
         = set_trips s
             (map (fun r => if TripRow.id r =? TripRow.id this
                            then Trip.apply_update u now r else r) (trips s))
      /\ snd (Trip.update this u now s)
         = match filter (fun r => TripRow.id r =? TripRow.id this) (trips s) with
           | [] => Throw (Error "Trip not found")
           | r :: _ => Return (Trip.apply_update u now r)
           end).
Proof.
  unfold Trip.update.
  destruct (negb _); [left; eexists; reflexivity |].
  unfold bind, get_store, put_store, throw, ret.
  destruct (negb (forallb _ _)) eqn:Hchk; [left; eexists; reflexivity |].
  right. apply negb_false_iff in Hchk. split; [exact Hchk |].
  destruct (filter _ (trips s)); split; reflexivity.
Qed.

Lemma trip_update_bad_status
      (this : TripRow.t) (u : Trip.updateData) (now : Z) (s : Store) (st : string) :
  Trip.u_trip_status u = Some st ->
  includes Trip.trip_statuses st = false ->
  In this (trips s) ->
  Trip.update this u now s = (s, Throw (DatabaseError "trips_trip_status_check")).
Proof.
  intros Hst Hbad Hin. unfold Trip.update.
  rewrite Hst. cbn [Trip.defined]. rewrite !orb_true_r. cbn [orb negb].
  unfold bind, get_store, throw.
  destruct (negb (forallb _ _)) eqn:Hchk; [reflexivity |].
  exfalso. apply negb_false_iff in Hchk. rewrite forallb_forall in Hchk.
  assert (Hs : TripRow.trip_status (Trip.apply_update u now this) = st)
    by (cbn; rewrite Hst; reflexivity).
  assert (Hmem : In (Trip.apply_update u now this)
                    (map (Trip.apply_update u now)
                         (filter (fun r => TripRow.id r =? TripRow.id this) (trips s)))).
  { apply in_map. apply filter_In. split; [exact Hin | apply Z.eqb_refl]. }
  specialize (Hchk _ Hmem). cbn beta in Hchk. rewrite Hs in Hchk. congruence.
Qed.

(** What [Trip.update] leaves alone. *)
Lemma trip_update_frame
        (this : TripRow.t) (u : Trip.updateData) (now : Z) (s : Store) :
  let s' := fst (Trip.update this u now s) in
  map identity (trips s') = map identity (trips s)
  /\ trip_requests s' = trip_requests s
  /\ stop_points s' = stop_points s
  /\ (trips_ok s = true -> trips_ok s' = true)
  /\ (forall st, Trip.u_trip_status u = Some st ->
                 includes Trip.trip_statuses st = false ->
                 In this (trips s) ->
                 Trip.update this u now s
                 = (s, Throw (DatabaseError "trips_trip_status_check"))).
Proof.
  intros s'. subst s'.
  assert (Hlast : forall st, Trip.u_trip_status u = Some st ->
                 includes Trip.trip_statuses st = false ->
                 In this (trips s) ->
                 Trip.update this u now s
                 = (s, Throw (DatabaseError "trips_trip_status_check")))
    by (intros st; apply trip_update_bad_status).
  destruct (trip_update_cases this u now s) as [(e & He) | (Hchk & -> & _)].
  { rewrite He at 1 2 3 4. cbn [fst].
    split; [reflexivity | split; [reflexivity | split; [reflexivity |
      split; [tauto | exact Hlast]]]]. }
  cbn [trips set_trips trip_requests stop_points].
  split; [| split; [reflexivity | split; [reflexivity | split; [| exact Hlast]]]].
  - rewrite map_map. apply map_ext. intros r.
    destruct (TripRow.id r =? TripRow.id this); reflexivity.
  - unfold trips_ok. cbn [trips set_trips]. rewrite !andb_true_iff.
    intros [Hd Hs]. split.
    + assert (map TripRow.id
                  (map (fun r => if TripRow.id r =? TripRow.id this
                                 then Trip.apply_update u now r else r) (trips s))
              = map TripRow.id (trips s)) as ->; [| exact Hd].
      rewrite map_map. apply map_ext. intros r.
      destruct (TripRow.id r =? TripRow.id this); reflexivity.
    + rewrite forallb_forall in *. intros r' Hr'. apply in_map_iff in Hr'.
      destruct Hr' as (r & <- & Hr).
      destruct (TripRow.id r =? TripRow.id this) eqn:E; [| apply Hs; exact Hr].
      apply Hchk. apply in_map. apply filter_In. split; assumption.
Qed.

(** X9: [Trip.update] (and with it [cancel], [start], [complete]) never
    changes the id, the route or the driver of a trip and touches no other
    table; it keeps the primary key and the CHECK on [trip_status]: an update
    of a stored trip to a status outside the four is thrown back with the
    store unchanged. *)
Theorem trip_update_keeps_identity
        (this : TripRow.t) (u : Trip.updateData) (now : Z) (s : Store) :
  let s' := fst (Trip.update this u now s) in
  map identity (trips s') = map identity (trips s)
  /\ trip_requests s' = trip_requests s
  /\ stop_points s' = stop_points s
  /\ (trips_ok s = true -> trips_ok s' = true)
  /\ (forall st, Trip.u_trip_status u = Some st ->
                 includes Trip.trip_statuses st = false ->
                 In this (trips s) ->
                 Trip.update this u now s
                 = (s, Throw (DatabaseError "trips_trip_status_check"))).
Proof. exact (@trip_update_frame this u now s). Qed.

(** How [Trip.cancel] runs on a trip that [findById] has returned. *)
Lemma trip_cancel_run (s : Store) (trip : TripRow.t) (tripId now : Z) :
  trips_ok s = true ->
  snd (Trip.findById tripId s) = Return (Some trip) ->
  let cancelled := Trip.apply_update
                     (Trip.mkUpdate None None None None None None
                                    (Some "cancelled"%string) None None) now trip in
  snd (Trip.cancel trip now s) = Return cancelled
  /\ filter (fun r => TripRow.id r =? tripId) (trips (fst (Trip.cancel trip now s)))
     = [cancelled].
Proof.
  intros Hok Hfind cancelled.
  destruct (@findById_row s tripId trip Hok Hfind) as (Hid & Hin & Hrows).
  unfold Trip.cancel.
  destruct (trip_update_cases trip
              (Trip.mkUpdate None None None None None None
                             (Some "cancelled"%string) None None) now s)
    as [(e & He) | (_ & Hst & Hres)].
  { exfalso. unfold Trip.update in He. cbn [Trip.defined Trip.u_title
      Trip.u_description Trip.u_departure_time Trip.u_arrival_time
      Trip.u_available_seats Trip.u_price_per_seat Trip.u_trip_status
      Trip.u_pickup_flexibility_minutes Trip.u_special_instructions orb negb] in He.
    unfold bind, get_store, put_store, throw, ret in He.
    rewrite Hid, Hrows in He. cbn in He. discriminate. }
  rewrite Hid, Hrows in Hres. split; [exact Hres |].
  rewrite Hst. cbn [trips set_trips]. rewrite Hid. subst cancelled.
  clear - Hok Hin Hid.
  pose proof (trips_ok_NoDup s Hok) as Hnd.
  induction (trips s) as [| x l IH]; [contradiction |].
  cbn [map] in *. inversion Hnd as [| ? ? Hx Hl]; subst.
  cbn [filter].
  destruct (Z.eqb_spec (TripRow.id x) (TripRow.id trip)) as [E | E].
  - cbn [Trip.apply_update TripRow.id]. rewrite E, Z.eqb_refl.
    assert (x = trip) as ->.
    { destruct Hin as [H | H]; [exact H |].
      exfalso. apply Hx. rewrite E. apply in_map. exact H. }
    f_equal.
    assert (Hnone : forall l', ~ In (TripRow.id trip) (map TripRow.id l') ->
              filter (fun r => TripRow.id r =? TripRow.id trip)
                (map (fun r => if TripRow.id r =? TripRow.id trip
                               then Trip.apply_update
                                      (Trip.mkUpdate None None None None None None
                                         (Some "cancelled"%string) None None) now r
                               else r) l') = []).
    { induction l' as [| y l' IH']; intros Hn; [reflexivity |].
      cbn [map filter] in *.
      destruct (Z.eqb_spec (TripRow.id y) (TripRow.id trip)) as [E' | E'].
      - exfalso. apply Hn. left. exact E'.
      - destruct (Z.eqb_spec (TripRow.id y) (TripRow.id trip)); [contradiction |].
        apply IH'. intros H. apply Hn. right. exact H. }
    apply Hnone. exact Hx.
  - destruct (Z.eqb_spec (TripRow.id x) (TripRow.id trip)); [contradiction |].
    destruct Hin as [H | H]; [congruence |]. apply IH; assumption.
Qed.

(** X10: [Trip.cancel] has no guard of time or of status: on a store that
    satisfies the constraints of [trips], called at any time on a trip that
    [findById] has returned, it returns the trip as cancelled and stores it
    so, its other columns unchanged but for the stamp of the trigger; the
    constraints still hold, and the requests of the trip are not touched:
    approved requests of a cancelled trip stay approved. *)
Theorem cancel_trip_keeps_requests
        (s : Store) (trip : TripRow.t) (tripId now : Z) :
  trips_ok s = true ->
  snd (Trip.findById tripId s) = Return (Some trip) ->
  let out := Trip.cancel trip now s in
  let cancelled :=
    TripRow.mk (TripRow.id trip) (TripRow.route_id trip) (TripRow.driver_id trip)
               (TripRow.title trip) (TripRow.description trip)
               (TripRow.departure_time trip) (TripRow.arrival_time trip)
               (TripRow.available_seats trip) (TripRow.price_per_seat trip)
               "cancelled"
               (TripRow.pickup_flexibility_minutes trip)
               (TripRow.special_instructions trip) now in
  snd out = Return cancelled
  /\ filter (fun r => TripRow.id r =? tripId) (trips (fst out)) = [cancelled]
  /\ trip_requests (fst out) = trip_requests s
  /\ trips_ok (fst out) = true.
Proof.
  intros Hok Hfind out cancelled.
  destruct (@trip_cancel_run s trip tripId now Hok Hfind) as [Hret Hrows].
  pose proof (trip_update_frame trip
                (Trip.mkUpdate None None None None None None
                               (Some "cancelled"%string) None None) now s)
    as (_ & Hreq & _ & Hkeep & _).
  fold (Trip.cancel trip now) in Hreq, Hkeep. fold out in Hret, Hrows, Hreq, Hkeep.
  split; [exact Hret | split; [exact Hrows | split; [exact Hreq |]]].
  apply Hkeep. exact Hok.
Qed.

Lemma cancel_trip_keeps_requests_witness :
  let out := Trip.cancel Sample.trip_1 2000 Sample.db_one_approved in
  TripRow.departure_time Sample.trip_1 < 2000
  /\ map TripRow.trip_status (filter (fun r => TripRow.id r =? 1) (trips (fst out)))
     = ["cancelled"%string]
  /\ trip_requests (fst out) = trip_requests Sample.db_one_approved
  /\ map TripRequestRow.request_status (trip_requests (fst out))
     = ["approved"; "pending"]%string.
Proof.
  destruct (@cancel_trip_keeps_requests Sample.db_one_approved Sample.trip_1 1 2000
              eq_refl eq_refl) as (_ & H2 & H3 & _).
  split; [reflexivity | split; [rewrite H2; reflexivity | split; [exact H3 |]]].
  rewrite H3. reflexivity.
Defined.

(** X11: a caller who drives no stored trip with the given id changes
    nothing through the trip handlers: cancelling the trip, updating it and
    approving or rejecting one of its requests are answered 404 or 403 and
    leave the store as it was. *)
Theorem handlers_need_the_driver
        (s : Store) (tripId requestId userId : Z)
        (body : TripsRouter.updateBody) (action : string) (now : Z) :
  (forall trip, In trip (trips s) -> TripRow.id trip = tripId ->
                TripRow.driver_id trip <> userId) ->
  let refused := fun out : Store * TripsRouter.Response =>
                   fst out = s
                   /\ (TripsRouter.status (snd out) = 404
                       \/ TripsRouter.status (snd out) = 403) in
  refused (TripsRouter.delete_trip tripId userId now s)
  /\ refused (TripsRouter.put_trip tripId userId body now s)
  /\ refused (TripsRouter.put_request tripId requestId userId action now s).
Proof.
  intros Hnot refused. subst refused. cbn beta.
  unfold TripsRouter.delete_trip, TripsRouter.put_trip, TripsRouter.put_request,
    TripsRouter.try_catch, bind, ret, Trip.findById.
  destruct (find _ (trips s)) as [trip |] eqn:Hf.
  - apply find_some in Hf. destruct Hf as [Hin Hc].
    rewrite !andb_true_iff in Hc. destruct Hc as [[Hid _] _].
    apply Z.eqb_eq in Hid.
    assert ((TripRow.driver_id trip =? userId) = false) as ->
        by (apply Z.eqb_neq; apply Hnot; assumption).
    cbn. repeat split; right; reflexivity.
  - cbn. repeat split; left; reflexivity.
Qed.

Lemma handlers_need_the_driver_witness :
  let refused := fun out : Store * TripsRouter.Response =>
                   fst out = Sample.db_two_pending
                   /\ (TripsRouter.status (snd out) = 404
                       \/ TripsRouter.status (snd out) = 403) in
  refused (TripsRouter.delete_trip 1 2 500 Sample.db_two_pending)
  /\ refused (TripsRouter.put_trip 1 2 (TripsRouter.mkBody None (Some 9) None) 500
                Sample.db_two_pending)
  /\ refused (TripsRouter.put_request 1 1 2 "approve" 500 Sample.db_two_pending).
Proof.
  apply (@handlers_need_the_driver Sample.db_two_pending 1 1 2
           (TripsRouter.mkBody None (Some 9) None) "approve" 500).
  intros trip [<- | [<- | []]]; simpl; intros; lia.
Defined.

Lemma put_request_cases
      (s : Store) (tripId requestId userId : Z) (action : string) (now : Z) :
  fst (TripsRouter.put_request tripId requestId userId action now s) = s
  \/ exists trip tr status,
       In trip (trips s) /\ TripRow.id trip = tripId
       /\ TripRow.driver_id trip = userId
       /\ In tr (trip_requests s) /\ TripRequestRow.id tr = requestId
       /\ TripRequestRow.trip_id tr = tripId
       /\ includes TripRequest.allowedStatuses status = true
       /\ fst (TripsRouter.put_request tripId requestId userId action now s)
          = fst (TripRequest.updateStatus tr status now s).
Proof.
  unfold TripsRouter.put_request, TripsRouter.try_catch, bind, ret,
    Trip.findById, TripRequest.findById.
  destruct (find _ (trips s)) as [trip |] eqn:Hf; [| left; reflexivity].
  apply find_some in Hf. destruct Hf as [Hin Hc].
  rewrite !andb_true_iff in Hc. destruct Hc as [[Hid _] _]. apply Z.eqb_eq in Hid.
  destruct (Z.eqb_spec (TripRow.driver_id trip) userId) as [Hd | Hd];
    cbn [negb]; [| left; reflexivity].
  destruct (find _ (trip_requests s)) as [tr |] eqn:Hfr; [| left; reflexivity].
  apply find_some in Hfr. destruct Hfr as [Hrin Hrc].
  rewrite !andb_true_iff in Hrc. destruct Hrc as [[Hrid _] _].
  apply Z.eqb_eq in Hrid.
  destruct (Z.eqb_spec (TripRequestRow.trip_id tr) (TripRow.id trip)) as [Ht | Ht];
    cbn [negb]; [| left; reflexivity].
  destruct (includes ["approve"%string; "reject"%string] action);
    cbn [negb]; [| left; reflexivity].
  right. exists trip, tr.
  destruct (String.eqb action "approve").
  - exists "approved"%string. unfold TripRequest.approve.
    repeat (split; [first [assumption | congruence | reflexivity] |]).
    destruct (TripRequest.updateStatus tr "approved" now s) as [s1 [row | e]];
      reflexivity.
  - exists "rejected"%string. unfold TripRequest.reject.
    repeat (split; [first [assumption | congruence | reflexivity] |]).
    destruct (TripRequest.updateStatus tr "rejected" now s) as [s1 [row | e]];
      reflexivity.
Qed.

(** X12: on a store that satisfies the constraints of [trip_requests], the
    handler that approves or rejects keeps every trip and keeps every
    request in its place: the ids of the requests are the same, in the same
    order, and the requests with another id than the one of the URL are
    exactly as they were.  A request of the result that was not stored
    before has the id of the URL and belongs to the trip of the URL, whose
    driver is the caller; and if the requests have changed at all, the
    request of that id was stored, belongs to the trip of the URL, and the
    caller drives that trip. *)
Theorem put_request_scope
        (s : Store) (tripId requestId userId : Z) (action : string) (now : Z) :
  ledger_ok s = true ->
  let s' := fst (TripsRouter.put_request tripId requestId userId action now s) in
  let others := fun r => negb (TripRequestRow.id r =? requestId) in
  trips s' = trips s
  /\ map TripRequestRow.id (trip_requests s')
     = map TripRequestRow.id (trip_requests s)
  /\ filter others (trip_requests s') = filter others (trip_requests s)
  /\ (forall r', In r' (trip_requests s') ->
        In r' (trip_requests s)
        \/ (TripRequestRow.id r' = requestId
            /\ TripRequestRow.trip_id r' = tripId
            /\ exists trip, In trip (trips s)
                            /\ TripRow.id trip = tripId
                            /\ TripRow.driver_id trip = userId))
  /\ (trip_requests s' <> trip_requests s ->
      exists trip tr,
        In trip (trips s) /\ TripRow.id trip = tripId
        /\ TripRow.driver_id trip = userId
        /\ In tr (trip_requests s) /\ TripRequestRow.id tr = requestId
        /\ TripRequestRow.trip_id tr = tripId).
Proof.
  intros Hok s' others. apply ledger_ok_Ledger in Hok. destruct Hok as [Hpk _ _ _].
  subst s'.
  destruct (put_request_cases s tripId requestId userId action now)
    as [-> | (trip & tr & status & Hin & Hid & Hd & Hrin & Hrid & Ht & Ha & ->)].
  { split; [reflexivity | split; [reflexivity | split; [reflexivity | split]]].
    - intros r' Hr'. left. exact Hr'.
    - intros H. exfalso. apply H. reflexivity. }
  rewrite updateStatus_store by exact Ha.
  cbn [trips trip_requests set_trip_requests].
  split; [reflexivity | split; [| split; [| split]]].
  - rewrite map_map. apply map_ext. intros r.
    destruct (TripRequestRow.id r =? TripRequestRow.id tr); reflexivity.
  - subst others. rewrite Hrid. clear.
    induction (trip_requests s) as [| x l IH]; [reflexivity |].
    cbn [map filter].
    destruct (Z.eqb_spec (TripRequestRow.id x) requestId) as [E | E].
    + cbn [TripRequest.set_status TripRequestRow.id]. rewrite E, Z.eqb_refl.
      cbn [negb]. exact IH.
    + destruct (Z.eqb_spec (TripRequestRow.id x) requestId) as [E' | _];
        [contradiction |].
      cbn [negb]. rewrite IH. reflexivity.
  - intros r' Hr'. apply in_map_iff in Hr'. destruct Hr' as (x & <- & Hx).
    destruct (Z.eqb_spec (TripRequestRow.id x) (TripRequestRow.id tr)) as [E | E];
      [| left; exact Hx].
    right. rewrite (NoDup_map_injective TripRequestRow.id _ x tr Hpk Hx Hrin E).
    cbn [TripRequest.set_status TripRequestRow.id TripRequestRow.trip_id].
    split; [exact Hrid | split; [exact Ht |]].
    exists trip. split; [exact Hin | split; assumption].
  - intros _. exists trip, tr. repeat split; assumption.
Qed.

Lemma put_request_scope_witness :
  let s' := fst (TripsRouter.put_request 1 2 1 "reject" 20 Sample.db_one_approved) in
  map TripRequestRow.request_status (trip_requests Sample.db_one_approved)
  = ["approved"; "pending"]%string
  /\ map TripRequestRow.request_status (trip_requests s')
     = ["approved"; "rejected"]%string
  /\ trips s' = trips Sample.db_one_approved
  /\ map TripRequestRow.id (trip_requests s') = [1; 2]
  /\ filter (fun r => negb (TripRequestRow.id r =? 2)) (trip_requests s')
     = filter (fun r => negb (TripRequestRow.id r =? 2))
              (trip_requests Sample.db_one_approved).
Proof.
  destruct (@put_request_scope Sample.db_one_approved 1 2 1 "reject" 20 eq_refl)
    as (H1 & H2 & H3 & _ & _).
  split; [reflexivity | split; [reflexivity | split; [exact H1 | split; [exact H2 | exact H3]]]].
Defined.

(** X13: the handler with which a passenger cancels a request never reaches
    [TripRequest.cancel]: it tests [tripRequest.status], a property that the
    instances do not have, so that the passenger's own request of whatever
    status is answered 400; with the 404 and 403 answers, the store is never
    changed and no seat is released through this handler. *)
Theorem cancel_request_changes_nothing
        (s : Store) (requestId userId now : Z) :
  let out := TripsRouter.cancel_request requestId userId now s in
  fst out = s
  /\ (TripsRouter.status (snd out) = 404
      \/ TripsRouter.status (snd out) = 403
      \/ snd out = TripsRouter.mkRes 400
                     "Can only cancel pending or approved requests")
  /\ (forall tripRequest,
        snd (TripRequest.findById requestId s) = Return (Some tripRequest) ->
        TripRequestRow.passenger_id tripRequest = userId ->
        snd out = TripsRouter.mkRes 400
                    "Can only cancel pending or approved requests").
Proof.
  intros out. subst out.
  unfold TripsRouter.cancel_request, TripsRouter.try_catch, bind, ret,
    TripRequest.findById.
  destruct (find _ (trip_requests s)) as [tr |].
  - destruct (Z.eqb_spec (TripRequestRow.passenger_id tr) userId) as [E | E];
      cbn [negb TripsRouter.status_property fst snd].
    + repeat split; auto.
    + repeat split; auto. intros tr' H. injection H as <-. contradiction.
  - cbn. repeat split; auto. intros tr' H. discriminate.
Qed.

(** ** Creating and deleting stops *)

Section StopCreate.
Import StopPointRow.

Lemma fold_max_bound (l : list Z) (a x : Z) :
  x = a \/ In x l -> x <= fold_right Z.max a l.
Proof.
  induction l as [| b l IH]; cbn [fold_right In].
  - intros [-> | []]. lia.
  - intros [H | [H | H]].
    + specialize (IH (or_introl H)). lia.
    + subst b. lia.
    + specialize (IH (or_intror H)). lia.
Qed.

Lemma fold_max_attained (l : list Z) (a : Z) :
  fold_right Z.max a l = a \/ In (fold_right Z.max a l) l.
Proof.
  induction l as [| b l IH]; cbn [fold_right In]; [left; reflexivity |].
  destruct (Z.max_spec b (fold_right Z.max a l)) as [[_ ->] | [_ ->]].
  - destruct IH as [IH | IH]; [left; exact IH | right; right; exact IH].
  - right. left. reflexivity.
Qed.

Lemma MAX_bound (l : list Z) (x : Z) : In x l -> x <= COALESCE (MAX l) 0.
Proof.
  destruct l as [| a l]; [contradiction |]. cbn [MAX COALESCE].
  intros [H | H]; apply fold_max_bound; [left; symmetry; exact H | right; exact H].
Qed.

Lemma MAX_attained (l : list Z) : l <> [] -> In (COALESCE (MAX l) 0) l.
Proof.
  destruct l as [| a l]; [congruence |]. intros _. cbn [MAX COALESCE].
  destruct (fold_max_attained l a) as [-> | H]; [left; reflexivity | right; exact H].
Qed.

Lemma insert_by_order_snoc (a x : t) (m : list t) :
  stop_order a < stop_order x ->
  StopPoint.insert_by_order a (m ++ [x]) = StopPoint.insert_by_order a m ++ [x].
Proof.
  intros Hlt. induction m as [| y m IH]; cbn [app StopPoint.insert_by_order].
  - assert ((stop_order a <=? stop_order x) = true) as -> by (apply Z.leb_le; lia).
    reflexivity.
  - destruct (stop_order a <=? stop_order y); [reflexivity |].
    rewrite IH. reflexivity.
Qed.

(** A row whose key is above all keys of the list sorts last. *)
Lemma order_by_stop_order_snoc (l : list t) (x : t) :
  (forall y, In y l -> stop_order y < stop_order x) ->
  StopPoint.order_by_stop_order (l ++ [x]) = StopPoint.order_by_stop_order l ++ [x].
Proof.
  induction l as [| a l IH]; intros H; [reflexivity |].
  cbn [app]. unfold StopPoint.order_by_stop_order in *. cbn [fold_right].
  rewrite IH by (intros y Hy; apply H; right; exact Hy).
  apply insert_by_order_snoc. apply H. left. reflexivity.
Qed.

Lemma next_order_above (s : Store) (routeId : Z) (y : t) :
  In y (stop_points s) -> route_id y = routeId ->
  stop_order y < StopPoint.next_order s routeId.
Proof.
  intros Hin Hr. unfold StopPoint.next_order.
  assert (stop_order y
          <= COALESCE (MAX (map stop_order
                                (filter (fun r => route_id r =? routeId)
                                        (stop_points s)))) 0).
  { apply MAX_bound. apply in_map. apply filter_In.
    split; [exact Hin | apply Z.eqb_eq; exact Hr]. }
  lia.
Qed.

Lemma seq_from_In (k : Z) (n : nat) (x : Z) :
  In x (seq_from k n) <-> k <= x < k + Z.of_nat n.
Proof.
  revert k. induction n as [| n IH]; intros k; cbn [seq_from In].
  - lia.
  - rewrite IH. lia.
Qed.

Lemma seq_from_snoc (k : Z) (n : nat) :
  seq_from k (S n) = seq_from k n ++ [k + Z.of_nat n].
Proof.
  revert k. induction n as [| n IH]; intros k.
  - cbn. f_equal. lia.
  - change (seq_from k (S (S n))) with (k :: seq_from (k + 1) (S n)).
    rewrite IH. cbn [seq_from app]. do 3 f_equal. lia.
Qed.

(** On a route whose stops are numbered 1 .. N the next order is N + 1. *)
Lemma next_order_contiguous (s : Store) (routeId : Z) :
  map stop_order (StopPoint.route_stops s routeId)
  = seq_from 1 (List.length (StopPoint.route_stops s routeId)) ->
  StopPoint.next_order s routeId
  = Z.of_nat (List.length (StopPoint.route_stops s routeId)) + 1.
Proof.
  intros Hc. unfold StopPoint.next_order. f_equal.
  set (l := filter (fun r => route_id r =? routeId) (stop_points s)) in *.
  assert (Hp : Permutation (map stop_order (StopPoint.route_stops s routeId))
                           (map stop_order l)).
  { apply Permutation_map. apply order_by_stop_order_perm. }
  rewrite Hc in Hp.
  assert (Hlen : List.length (StopPoint.route_stops s routeId) = List.length l).
  { unfold StopPoint.route_stops. fold l.
    apply Permutation_length. apply order_by_stop_order_perm. }
  rewrite Hlen in *.
  destruct l as [| a l'] eqn:El; [reflexivity |].
  assert (Hne : map stop_order (a :: l') <> []) by discriminate.
  pose proof (@MAX_attained _ Hne) as Hat.
  apply (Permutation_in _ (Permutation_sym Hp)) in Hat.
  apply seq_from_In in Hat.
  assert (Hn : In (Z.of_nat (List.length (a :: l'))) (map stop_order (a :: l'))).
  { apply (Permutation_in _ Hp). apply seq_from_In. cbn [List.length]. lia. }
  apply MAX_bound in Hn. lia.
Qed.
End StopCreate.

(** How [create] runs when no order is given. *)
Lemma stop_create_run
        (s : Store) (d : StopPoint.stopData) (new_id now : Z) :
  stops_ok s = true ->
  mem (StopPoint.d_route_id d) (routes s) = true ->
  existsb (fun r => StopPointRow.id r =? new_id) (stop_points s) = false ->
  StopPoint.d_stop_order d = None \/ StopPoint.d_stop_order d = Some 0 ->
  let out := StopPoint.create d new_id now s in
  let routeId := StopPoint.d_route_id d in
  exists row,
    snd out = Return row
    /\ StopPointRow.id row = new_id
    /\ StopPointRow.stop_order row = StopPoint.next_order s routeId
    /\ StopPoint.route_stops (fst out) routeId
       = StopPoint.route_stops s routeId ++ [row]
    /\ stops_ok (fst out) = true
    /\ (map StopPointRow.stop_order (StopPoint.route_stops s routeId)
        = seq_from 1 (List.length (StopPoint.route_stops s routeId)) ->
        map StopPointRow.stop_order (StopPoint.route_stops (fst out) routeId)
        = seq_from 1 (S (List.length (StopPoint.route_stops s routeId)))).
Proof.
  intros Hok Hroute Hfresh Hord out routeId.
  pose proof Hok as Hok'. apply stops_ok_NoDup in Hok'. destruct Hok' as [Hpk Huq].
  set (row := StopPointRow.mk new_id routeId (StopPoint.next_order s routeId)
                (Trip.or_keep (StopPoint.d_is_pickup_point d) true)
                (Trip.or_keep (StopPoint.d_is_dropoff_point d) true)
                (StopPoint.d_estimated_arrival_time d) now).
  assert (Hnone : existsb (fun r => (StopPointRow.route_id r =? routeId)
                                    && (StopPointRow.stop_order r
                                        =? StopPoint.next_order s routeId))
                          (stop_points s) = false).
  { apply not_true_is_false. intros E.
    apply existsb_exists in E. destruct E as (y & Hy & Hc).
    apply andb_true_iff in Hc. destruct Hc as [Hr Ho]. apply Z.eqb_eq in Hr, Ho.
    pose proof (@next_order_above s routeId y Hy Hr). lia. }
  assert (Hout : out = (set_stop_points s (stop_points s ++ [row]), Return row)).
  { subst out. unfold StopPoint.create, bind, get_store, put_store, ret.
    fold routeId.
    assert (match StopPoint.d_stop_order d with
            | Some 0 => StopPoint.next_order s routeId
            | Some (Z.pos p as o) | Some (Z.neg p as o) => o
            | None => StopPoint.next_order s routeId
            end = StopPoint.next_order s routeId) as ->
        by (destruct Hord as [-> | ->]; reflexivity).
    change (mem routeId (routes s) = true) in Hroute.
    rewrite Hfresh, Hnone, Hroute. reflexivity. }
  exists row. rewrite Hout. cbn [fst snd].
  assert (Hstops : StopPoint.route_stops (set_stop_points s (stop_points s ++ [row]))
                                         routeId
                   = StopPoint.route_stops s routeId ++ [row]).
  { unfold StopPoint.route_stops. cbn [stop_points set_stop_points].
    rewrite filter_app. cbn [filter StopPointRow.route_id row].
    rewrite Z.eqb_refl. apply order_by_stop_order_snoc.
    intros y Hy. apply filter_In in Hy. destruct Hy as [Hy Hr].
    apply Z.eqb_eq in Hr. cbn [StopPointRow.stop_order row].
    apply next_order_above; assumption. }
  split; [reflexivity | split; [reflexivity | split; [reflexivity | split; [exact Hstops | split]]]].
  - apply stops_ok_NoDup. cbn [stop_points set_stop_points].
    rewrite !map_app. cbn [map]. split.
    + apply NoDup_snoc; [exact Hpk |].
      eapply existsb_false_not_in; [| exact Hfresh].
      intros x Hx. apply Z.eqb_eq. exact Hx.
    + apply NoDup_snoc; [exact Huq |].
      eapply existsb_false_not_in; [| exact Hnone].
      intros x Hx. unfold route_order in Hx. injection Hx as H1 H2.
      cbn beta. rewrite H1, H2.
      cbn [StopPointRow.route_id StopPointRow.stop_order row].
      rewrite !Z.eqb_refl. reflexivity.
  - intros Hc. rewrite Hstops, map_app. cbn [map].
    rewrite seq_from_snoc, Hc. f_equal. f_equal.
    cbn [StopPointRow.stop_order row].
    rewrite (@next_order_contiguous s routeId Hc). lia.
Qed.

(** X14: [StopPoint.create] without an order (or with order 0, which
    [!order] treats alike), for an existing route and a fresh id, on a store
    whose stops satisfy their constraints: the new stop is given the order
    above all orders of the route and comes last among the stops of the
    route; the constraints still hold; and if the stops of the route were
    numbered 1 .. N, they are now numbered 1 .. N+1. *)
Theorem stop_create_appends
        (s : Store) (d : StopPoint.stopData) (new_id now : Z) :
  stops_ok s = true ->
  mem (StopPoint.d_route_id d) (routes s) = true ->
  existsb (fun r => StopPointRow.id r =? new_id) (stop_points s) = false ->
  StopPoint.d_stop_order d = None \/ StopPoint.d_stop_order d = Some 0 ->
  let out := StopPoint.create d new_id now s in
  let routeId := StopPoint.d_route_id d in
  exists row,
    snd out = Return row
    /\ StopPointRow.id row = new_id
    /\ StopPointRow.stop_order row = StopPoint.next_order s routeId
    /\ StopPoint.route_stops (fst out) routeId
       = StopPoint.route_stops s routeId ++ [row]
    /\ stops_ok (fst out) = true
    /\ (map StopPointRow.stop_order (StopPoint.route_stops s routeId)
        = seq_from 1 (List.length (StopPoint.route_stops s routeId)) ->
        map StopPointRow.stop_order (StopPoint.route_stops (fst out) routeId)
        = seq_from 1 (S (List.length (StopPoint.route_stops s routeId)))).
Proof. exact (@stop_create_run s d new_id now). Qed.

Lemma stop_create_appends_witness :
  exists row,
    snd (StopPoint.create Fixture.new_stop 15 60 Sample.db) = Return row
    /\ StopPointRow.id row = 15
    /\ map StopPointRow.stop_order
           (StopPoint.route_stops (fst (StopPoint.create Fixture.new_stop 15 60 Sample.db)) 1)
       = [1; 2; 3; 4; 5].
Proof.
  destruct (@stop_create_appends Sample.db Fixture.new_stop 15 60
              eq_refl eq_refl eq_refl (or_introl eq_refl))
    as (row & H1 & H2 & _ & _ & _ & H6).
  exists row. split; [exact H1 | split; [exact H2 |]].
  exact (H6 eq_refl).
Defined.

(** X15: [StopPoint.create] with an explicit order that a stop of the route
    already has is rejected by [unique_route_stop_order] and stores nothing:
    no stop is shifted to make room. *)
Theorem stop_create_taken_order
        (s : Store) (d : StopPoint.stopData) (order new_id now : Z) :
  StopPoint.d_stop_order d = Some order ->
  order <> 0 ->
  existsb (fun r => StopPointRow.id r =? new_id) (stop_points s) = false ->
  existsb (fun r => (StopPointRow.route_id r =? StopPoint.d_route_id d)
                    && (StopPointRow.stop_order r =? order)) (stop_points s) = true ->
  StopPoint.create d new_id now s
  = (s, Throw (DatabaseError "unique_route_stop_order")).
Proof.
  intros Ho Hnz Hfresh Htaken. unfold StopPoint.create, bind, get_store, throw.
  rewrite Ho.
  destruct order as [| p | p]; [congruence | |]; rewrite Hfresh, Htaken; reflexivity.
Qed.

Lemma stop_create_taken_order_witness :
  StopPoint.create (StopPoint.mkStop 1 (Some 2) None None None) 15 60 Sample.db
  = (Sample.db, Throw (DatabaseError "unique_route_stop_order")).
Proof.
  apply (@stop_create_taken_order Sample.db
           (StopPoint.mkStop 1 (Some 2) None None None) 2 15 60).
  - reflexivity.
  - lia.
  - reflexivity.
  - reflexivity.
Defined.

Section StopDelete.
Import StopPointRow.

(** The store after [delete] when the DELETE finds the row: the row is gone,
    the references to it are nulled, and the remaining stops are renumbered
    unless the UPDATE of [reorderStopPoints] is thrown back. *)
Lemma delete_found (s : Store) (this : t) (visit : list Z) (now : Z) :
  existsb (fun r => id r =? id this) (stop_points s) = true ->
  let s' := fst (StopPoint.delete this visit now s) in
  let rows1 := filter (fun r => negb (id r =? id this)) (stop_points s) in
  trip_requests s' = map (StopPoint.set_null (id this) now) (trip_requests s)
  /\ trips s' = trips s
  /\ (stop_points s' = rows1
      \/ stop_points s'
         = map (StopPoint.renumber
                  (StopPoint.row_number 1
                     (StopPoint.order_by_stop_order
                        (filter (fun r => route_id r =? route_id this) rows1)))
                  now) rows1).
Proof.
  intros Hex. cbn zeta.
  destruct (@delete_cases s this visit now Hex) as [E | E]; rewrite E;
    cbn [fst trip_requests trips stop_points set_stop_points];
    (split; [reflexivity | split; [reflexivity |]]); [left | right]; reflexivity.
Qed.

Lemma filter_none {A} (p : A -> bool) (l : list A) :
  (forall x, In x l -> p x = false) -> filter p l = [].
Proof.
  induction l as [| a l IH]; intros H; [reflexivity |]. cbn [filter].
  rewrite (H a (or_introl eq_refl)). apply IH. intros x Hx. apply H. right. exact Hx.
Qed.

Lemma filter_all {A} (p : A -> bool) (l : list A) :
  (forall x, In x l -> p x = true) -> filter p l = l.
Proof.
  induction l as [| a l IH]; intros H; [reflexivity |]. cbn [filter].
  rewrite (H a (or_introl eq_refl)). f_equal. apply IH. intros x Hx. apply H.
  right. exact Hx.
Qed.

Lemma delete_removes_id (s : Store) (this : t) (visit : list Z) (now : Z) :
  existsb (fun r => id r =? id this) (stop_points s) = true ->
  forall x, In x (stop_points (fst (StopPoint.delete this visit now s))) ->
            (id x =? id this) = false.
Proof.
  intros Hex x Hx.
  destruct (@delete_found s this visit now Hex) as (_ & _ & [H | H]); rewrite H in Hx.
  - apply filter_In in Hx. destruct Hx as [_ Hx]. apply negb_true_iff. exact Hx.
  - apply in_map_iff in Hx. destruct Hx as (y & <- & Hy). rewrite renumber_id.
    apply filter_In in Hy. destruct Hy as [_ Hy]. apply negb_true_iff. exact Hy.
Qed.

(** The stops of another route are not among the rows that [delete]
    removes. *)
Lemma other_route_untouched (s : Store) (this : t) (routeId : Z) :
  NoDup (map id (stop_points s)) -> In this (stop_points s) ->
  routeId <> route_id this ->
  filter (fun r => route_id r =? routeId)
         (filter (fun r => negb (id r =? id this)) (stop_points s))
  = filter (fun r => route_id r =? routeId) (stop_points s).
Proof.
  intros Hpk Hin Hne. rewrite filter_filter_commute. apply filter_all.
  intros x Hx. apply filter_In in Hx. destruct Hx as [Hx Hr].
  apply Z.eqb_eq in Hr. apply negb_true_iff. apply Z.eqb_neq. intros E.
  apply Hne. rewrite <- Hr.
  rewrite (NoDup_map_injective id _ x this Hpk Hx Hin E). reflexivity.
Qed.
End StopDelete.

(** X16: a stop is deleted once: whatever the first [delete] did, a second
    [delete] on the same instance throws "Stop point not found" and leaves
    the store as it was; nothing is renumbered again. *)
Theorem stop_delete_is_final
        (s : Store) (this : StopPointRow.t) (visit visit' : list Z) (now now' : Z) :
  let s' := fst (StopPoint.delete this visit now s) in
  StopPoint.delete this visit' now' s' = (s', Throw (Error "Stop point not found")).
Proof.
  intros s'.
  assert (Hnone : filter (fun r => StopPointRow.id r =? StopPointRow.id this)
                         (stop_points s') = []).
  { destruct (existsb (fun r => StopPointRow.id r =? StopPointRow.id this)
                      (stop_points s)) eqn:Hex.
    - apply filter_none. intros x Hx.
      apply (@delete_removes_id s this visit now Hex x Hx).
    - assert (s' = s) as ->.
      { subst s'. unfold StopPoint.delete, bind, get_store, throw.
        rewrite (@filter_none _ (fun r => StopPointRow.id r =? StopPointRow.id this)
                   (stop_points s)); [reflexivity |].
        intros x Hx. apply not_true_is_false. intros E.
        assert (existsb (fun r => StopPointRow.id r =? StopPointRow.id this)
                        (stop_points s) = true) as H
            by (apply existsb_exists; exists x; split; assumption).
        congruence. }
      apply filter_none. intros x Hx. apply not_true_is_false. intros E.
      assert (existsb (fun r => StopPointRow.id r =? StopPointRow.id this)
                      (stop_points s) = true) as H
          by (apply existsb_exists; exists x; split; assumption).
      congruence. }
  unfold StopPoint.delete, bind, get_store, throw. rewrite Hnone. reflexivity.
Qed.

(** X17: when [delete] finds the stop, afterwards no request refers to it
    as pickup or dropoff (the references are set to NULL) and no stop has its
    id, also when the renumbering is thrown back; the id, trip, passenger,
    seats, status and price of every request are untouched. *)
Theorem stop_delete_clears_references
        (s : Store) (this : StopPointRow.t) (visit : list Z) (now : Z) :
  existsb (fun r => StopPointRow.id r =? StopPointRow.id this) (stop_points s)
  = true ->
  let s' := fst (StopPoint.delete this visit now s) in
  forallb (fun r => negb (refers_to (StopPointRow.id this) r)) (trip_requests s')
  = true
  /\ existsb (fun r => StopPointRow.id r =? StopPointRow.id this) (stop_points s')
     = false
  /\ map accounting (trip_requests s') = map accounting (trip_requests s)
  /\ trips s' = trips s.
Proof.
  intros Hex s'.
  destruct (@delete_found s this visit now Hex) as (Hreq & Htrips & _).
  fold s' in Hreq, Htrips. rewrite Hreq.
  split; [| split; [| split; [| exact Htrips]]].
  - apply forallb_forall. intros r' Hr'. apply in_map_iff in Hr'.
    destruct Hr' as (r & <- & _). unfold StopPoint.set_null, refers_to.
    destruct (eq_opt (TripRequestRow.pickup_stop_id r) (StopPointRow.id this)) eqn:E1,
             (eq_opt (TripRequestRow.dropoff_stop_id r) (StopPointRow.id this)) eqn:E2;
      cbn [orb TripRequestRow.pickup_stop_id TripRequestRow.dropoff_stop_id eq_opt negb];
      rewrite ?E1, ?E2; reflexivity.
  - apply not_true_is_false. intros E. apply existsb_exists in E.
    destruct E as (x & Hx & Hc).
    rewrite (@delete_removes_id s this visit now Hex x Hx) in Hc. discriminate.
  - rewrite map_map. apply map_ext. intros r. unfold StopPoint.set_null.
    destruct (_ || _); reflexivity.
Qed.

Lemma stop_delete_clears_references_witness :
  let s' := fst (StopPoint.delete (Sample.stop 12 2) [] 50 Fixture.with_stops) in
  map TripRequestRow.pickup_stop_id (trip_requests Fixture.with_stops) = [Some 12]
  /\ forallb (fun r => negb (refers_to 12 r)) (trip_requests s') = true
  /\ existsb (fun r => StopPointRow.id r =? 12) (stop_points s') = false
  /\ map accounting (trip_requests s') = map accounting (trip_requests Fixture.with_stops)
  /\ trips s' = trips Fixture.with_stops.
Proof.
  split; [reflexivity |].
  exact (@stop_delete_clears_references Fixture.with_stops (Sample.stop 12 2) [] 50
           eq_refl).
Defined.

(** X18: on a store whose stops satisfy their constraints, [delete] keeps
    them satisfied and leaves the stops of every other route exactly as they
    were, order values included. *)
Theorem stop_delete_keeps_other_routes
        (s : Store) (this : StopPointRow.t) (visit : list Z) (now : Z) :
  stops_ok s = true ->
  In this (stop_points s) ->
  let s' := fst (StopPoint.delete this visit now s) in
  stops_ok s' = true
  /\ forall routeId, routeId <> StopPointRow.route_id this ->
                     StopPoint.route_stops s' routeId = StopPoint.route_stops s routeId.
Proof.
  intros Hok Hin s'.
  pose proof Hok as Hok'. apply stops_ok_NoDup in Hok'. destruct Hok' as [Hpk Huq].
  destruct (@delete_found s this visit now (@In_existsb_id s this Hin))
    as (_ & _ & Hs).
  fold s' in Hs. cbn zeta in Hs.
  set (rows1 := filter (fun r => negb (StopPointRow.id r =? StopPointRow.id this))
                       (stop_points s)) in *.
  assert (Hpk1 : NoDup (map StopPointRow.id rows1)) by (apply NoDup_map_filter; exact Hpk).
  assert (Huq1 : NoDup (map route_order rows1)) by (apply NoDup_map_filter; exact Huq).
  destruct Hs as [Hs | Hs].
  - split.
    + apply stops_ok_NoDup. rewrite Hs. split; assumption.
    + intros routeId Hne. unfold StopPoint.route_stops. rewrite Hs. f_equal.
      subst rows1. apply other_route_untouched; assumption.
  - split.
    + apply stops_ok_NoDup. rewrite Hs. split.
      * rewrite map_map. erewrite map_ext; [exact Hpk1 |].
        intros x. apply renumber_id.
      * apply (@renumber_keeps_unique rows1 (StopPointRow.route_id this) now Hpk1 Huq1).
    + intros routeId Hne. unfold StopPoint.route_stops. rewrite Hs. f_equal.
      rewrite filter_map_commute by (intros x; rewrite renumber_route; reflexivity).
      transitivity (filter (fun r => StopPointRow.route_id r =? routeId) rows1).
      * rewrite <- (map_id (filter (fun r => StopPointRow.route_id r =? routeId) rows1)) at 2.
        apply map_ext_in. intros x Hx. apply filter_In in Hx. destruct Hx as [Hx Hr].
        apply Z.eqb_eq in Hr.
        apply (@renumber_other_routes rows1 (StopPointRow.route_id this) now Hpk1 x Hx).
        congruence.
      * subst rows1. apply other_route_untouched; assumption.
Qed.

Lemma stop_delete_keeps_other_routes_witness :
  let s' := fst (StopPoint.delete (Sample.stop 12 2) [] 50 Sample.db) in
  stops_ok s' = true
  /\ forall routeId, routeId <> 1 ->
                     StopPoint.route_stops s' routeId
                     = StopPoint.route_stops Sample.db routeId.
Proof.
  exact (@stop_delete_keeps_other_routes Sample.db (Sample.stop 12 2) [] 50 eq_refl
           (or_intror (or_introl eq_refl))).
Defined.

(** X19: on a route whose stops are numbered 1 .. N, creating a stop without
    an order and then deleting it gives back the stops of the route: the
    [delete] returns, whatever the order in which its UPDATE reaches the
    rows, and the stops of the route are then the former ones, in their
    former order and with their former order values. *)
Theorem stop_create_then_delete
        (s : Store) (d : StopPoint.stopData) (new_id : Z) (visit : list Z)
        (now now' : Z) :
  stops_ok s = true ->
  mem (StopPoint.d_route_id d) (routes s) = true ->
  existsb (fun r => StopPointRow.id r =? new_id) (stop_points s) = false ->
  StopPoint.d_stop_order d = None \/ StopPoint.d_stop_order d = Some 0 ->
  let routeId := StopPoint.d_route_id d in
  let created := StopPoint.create d new_id now s in
  map StopPointRow.stop_order (StopPoint.route_stops s routeId)
  = seq_from 1 (List.length (StopPoint.route_stops s routeId)) ->
  exists row,
    snd created = Return row
    /\ snd (StopPoint.delete row visit now' (fst created)) = Return row
    /\ map StopPointRow.id
           (StopPoint.route_stops
              (fst (StopPoint.delete row visit now' (fst created))) routeId)
       = map StopPointRow.id (StopPoint.route_stops s routeId)
    /\ map StopPointRow.stop_order
           (StopPoint.route_stops
              (fst (StopPoint.delete row visit now' (fst created))) routeId)
       = map StopPointRow.stop_order (StopPoint.route_stops s routeId).
Proof.
  intros Hok Hroute Hfresh Hord routeId created Hc.
  destruct (@stop_create_run s d new_id now Hok Hroute Hfresh Hord)
    as (row & Hret & Hid & _ & Hstops & Hok1 & _).
  fold created in Hret, Hstops, Hok1. fold routeId in Hstops.
  exists row. split; [exact Hret |].
  assert (Hrow : In row (stop_points (fst created))
                 /\ StopPointRow.route_id row = routeId).
  { assert (In row (StopPoint.route_stops (fst created) routeId)) as H
        by (rewrite Hstops; apply in_or_app; right; left; reflexivity).
    apply (Permutation_in _ (order_by_stop_order_perm _)) in H.
    apply filter_In in H. destruct H as [H Hr]. apply Z.eqb_eq in Hr.
    split; assumption. }
  destruct Hrow as [Hin Hr].
  assert (Hkeep : filter (fun r => negb (StopPointRow.id r =? StopPointRow.id row))
                         (StopPoint.route_stops (fst created)
                                                (StopPointRow.route_id row))
                  = StopPoint.route_stops s routeId).
  { rewrite Hr, Hstops, filter_app. cbn [filter]. rewrite Z.eqb_refl. cbn [negb].
    rewrite app_nil_r. apply filter_all. intros x Hx.
    apply (Permutation_in _ (order_by_stop_order_perm _)) in Hx.
    apply filter_In in Hx. destruct Hx as [Hx _].
    apply negb_true_iff. apply not_true_is_false. intros E.
    rewrite Hid in E.
    assert (existsb (fun r => StopPointRow.id r =? new_id) (stop_points s) = true) as H
        by (apply existsb_exists; exists x; split; assumption).
    congruence. }
  assert (Hdel : snd (StopPoint.delete row visit now' (fst created)) = Return row).
  { apply delete_accepts_numbered; [exact Hok1 | exact Hin |].
    rewrite Hkeep. exact Hc. }
  split; [exact Hdel |].
  destruct (@delete_run (fst created) row visit now' Hok1 Hin Hdel) as [_ Hafter].
  rewrite Hkeep in Hafter. rewrite Hr in Hafter. rewrite Hafter.
  split; [apply renumbered_ids |].
  rewrite renumbered_orders. symmetry. exact Hc.
Qed.

Lemma stop_create_then_delete_witness :
  exists row,
    snd (StopPoint.create Fixture.new_stop 15 60 Sample.db) = Return row
    /\ snd (StopPoint.delete row [14; 13; 12; 11] 70
              (fst (StopPoint.create Fixture.new_stop 15 60 Sample.db)))
       = Return row
    /\ map StopPointRow.stop_order
           (StopPoint.route_stops
              (fst (StopPoint.delete row [14; 13; 12; 11] 70
                      (fst (StopPoint.create Fixture.new_stop 15 60 Sample.db)))) 1)
       = [1; 2; 3; 4].
Proof.
  destruct (@stop_create_then_delete Sample.db Fixture.new_stop 15 [14; 13; 12; 11]
              60 70 eq_refl eq_refl eq_refl (or_introl eq_refl) eq_refl)
    as (row & H1 & H2 & _ & H4).
  exists row. split; [exact H1 | split; [exact H2 | exact H4]].
Defined.

Lemma trip_update_keeps_identity_witness :
  let u := Trip.mkUpdate None None None None (Some 0) None
                         (Some "archived"%string) None None in
  Trip.update Sample.trip_1 u 50 Sample.db_one_approved
  = (Sample.db_one_approved, Throw (DatabaseError "trips_trip_status_check"))
  /\ trips_ok (fst (Trip.update Sample.trip_1
                      (Trip.mkUpdate None None None None (Some 0) None None None None)
                      50 Sample.db_one_approved)) = true.
Proof.
  split.
  - destruct (@trip_update_keeps_identity Sample.trip_1
                (Trip.mkUpdate None None None None (Some 0) None
                               (Some "archived"%string) None None)
                50 Sample.db_one_approved) as (_ & _ & _ & _ & H).
    apply (H "archived"%string); [reflexivity | reflexivity |].
    simpl. left. reflexivity.
  - destruct (@trip_update_keeps_identity Sample.trip_1
                (Trip.mkUpdate None None None None (Some 0) None None None None)
                50 Sample.db_one_approved) as (_ & _ & _ & H & _).
    apply H. reflexivity.
Defined.

Lemma cancel_request_changes_nothing_witness :
  TripsRouter.cancel_request 1 2 20 Sample.db_one_approved
  = (Sample.db_one_approved,
     TripsRouter.mkRes 400 "Can only cancel pending or approved requests").
Proof.
  destruct (@cancel_request_changes_nothing Sample.db_one_approved 1 2 20)
    as (H1 & _ & H3).
  specialize (H3 Fixture.approved_1 eq_refl eq_refl).
  destruct (TripsRouter.cancel_request 1 2 20 Sample.db_one_approved) as [s' r].
  cbn [fst snd] in H1, H3. rewrite H1, H3. reflexivity.
Defined.
